(** * The target-configuration and incremental build engine of compiler.py

    A shallow embedding of [src/compiler.py]: the chip parameter table and its
    fuzzy resolver, the linker-script and startup-code generators, the HAL
    source-set resolver, the incremental archive cache and the compile
    orchestrator, followed by the properties the specification states about
    them.

    How the program is modelled:
    - strings are byte strings; [upper] and the classes of the regular
      expression act on the ASCII range, where all table keys lie;
    - integers are [Z], time stamps as well;
    - the methods of [Compiler] are functions on a state made of the
      attributes of the instance and of the environment: file system, clock,
      printed lines, and the log of child processes;
    - a path is the list of its components relative to [BASE_DIR];
    - the external tools are a parameter: a function from the environment
      and the command line to the way the process ends;
    - the build directory is in place and can be written to: writing a
      file, deleting a build product and creating the object directory
      succeed.  What is proved about a method that returns is proved of
      runs on such a disk; the exception the model follows is the
      [FileNotFoundError] of [stat] on a missing file. *)

From Stdlib Require Import String Ascii List ZArith Lia Bool DecimalString DecimalZ.
From stdpp Require Import base option list gmap strings.
Import ListNotations.

Local Open Scope string_scope.
Local Open Scope list_scope.
Local Open Scope Z_scope.

(** stdpp blocks the unfolding of string concatenation; the generated texts
    are concatenations of literals, so it is allowed again here. *)
#[local] Arguments String.append !s1 s2 : simpl nomatch.

(** ** Python string primitives used by the source *)

Module Py.

(** The newline and double-quote characters. *)
Definition nl : ascii := Eval vm_compute in Ascii.ascii_of_nat 10.
Definition dq : ascii := Eval vm_compute in Ascii.ascii_of_nat 34.
Definition NL : string := String nl EmptyString.
Definition DQ : string := String dq EmptyString.

(** [sep.join(ls)] *)
Definition join (sep : string) (ls : list string) : string :=
  String.concat sep ls.

(** [s.split('\n')]: never empty, a trailing newline gives a last empty
    piece. *)
Fixpoint split_nl (s : string) : list string :=
  match s with
  | EmptyString => [EmptyString]
  | String c r =>
      if Ascii.eqb c nl then EmptyString :: split_nl r
      else match split_nl r with
           | l :: ls => String c l :: ls
           | [] => [String c EmptyString]
           end
  end.

(** [sub in s] *)
Fixpoint contains (sub s : string) : bool :=
  String.prefix sub s ||
  match s with
  | EmptyString => false
  | String _ r => contains sub r
  end.

(** [s.startswith(p)] *)
Definition startswith (s p : string) : bool := String.prefix p s.

(** [s[:n]] for a non-negative [n]. *)
Definition take (n : nat) (s : string) : string := String.substring 0 n s.

(** [f"{z}"] for an int: the decimal numeral, with a leading minus sign for
    negative numbers. *)
Definition str_of_int (z : Z) : string :=
  NilEmpty.string_of_int (Z.to_int z).

(** [c.upper()] on the ASCII range. *)
Definition upper_ascii (c : ascii) : ascii :=
  let n := Ascii.nat_of_ascii c in
  if ((97 <=? n) && (n <=? 122))%nat then Ascii.ascii_of_nat (n - 32) else c.

Fixpoint upper (s : string) : string :=
  match s with
  | EmptyString => EmptyString
  | String c r => String (upper_ascii c) (upper r)
  end.

(** [s.replace(c, "")] for a one-character [c]. *)
Fixpoint remove_char (c : ascii) (s : string) : string :=
  match s with
  | EmptyString => EmptyString
  | String d r => if Ascii.eqb d c then remove_char c r
                  else String d (remove_char c r)
  end.

(** [s * n] *)
Fixpoint mul (s : string) (n : nat) : string :=
  match n with
  | O => EmptyString
  | S k => s +:+ mul s k
  end.

End Py.

(** ** Static tables *)

(** One row of [CHIP_DB]. *)
Record ChipInfo : Type := mkChip {
  cpu : string;
  flash_k : Z;
  ram_k : Z;
  define : string;
  family : string;
  fpu : bool
}.

(** [CHIP_DB]: a Python dict keeps its insertion order, which the prefix
    scans of [_lookup_chip] depend on, hence an association list. *)
Definition CHIP_DB : list (string * ChipInfo) :=
  [
    ("STM32F103C8", mkChip "cortex-m3" 64 20 "STM32F103xB" "f1" false);
    ("STM32F103CB", mkChip "cortex-m3" 128 20 "STM32F103xB" "f1" false);
    ("STM32F103RB", mkChip "cortex-m3" 128 20 "STM32F103xB" "f1" false);
    ("STM32F103RC", mkChip "cortex-m3" 256 48 "STM32F103xE" "f1" false);
    ("STM32F103RE", mkChip "cortex-m3" 512 64 "STM32F103xE" "f1" false);
    ("STM32F103ZE", mkChip "cortex-m3" 512 64 "STM32F103xE" "f1" false);
    ("STM32F103VE", mkChip "cortex-m3" 512 64 "STM32F103xE" "f1" false);
    ("STM32F100RB", mkChip "cortex-m3" 128 8 "STM32F100xB" "f1" false);
    ("STM32F105", mkChip "cortex-m3" 256 64 "STM32F105xC" "f1" false);
    ("STM32F107", mkChip "cortex-m3" 256 64 "STM32F107xC" "f1" false);
    ("STM32F401CC", mkChip "cortex-m4" 256 64 "STM32F401xC" "f4" true);
    ("STM32F401CE", mkChip "cortex-m4" 512 96 "STM32F401xE" "f4" true);
    ("STM32F407VE", mkChip "cortex-m4" 512 128 "STM32F407xx" "f4" true);
    ("STM32F407VG", mkChip "cortex-m4" 1024 128 "STM32F407xx" "f4" true);
    ("STM32F407ZG", mkChip "cortex-m4" 1024 128 "STM32F407xx" "f4" true);
    ("STM32F411CE", mkChip "cortex-m4" 512 128 "STM32F411xE" "f4" true);
    ("STM32F429ZI", mkChip "cortex-m4" 2048 256 "STM32F429xx" "f4" true);
    ("STM32F446RE", mkChip "cortex-m4" 512 128 "STM32F446xx" "f4" true);
    ("STM32F030F4", mkChip "cortex-m0" 16 4 "STM32F030x6" "f0" false);
    ("STM32F030C8", mkChip "cortex-m0" 64 8 "STM32F030x8" "f0" false);
    ("STM32F072RB", mkChip "cortex-m0" 128 16 "STM32F072xB" "f0" false);
    ("STM32F303CC", mkChip "cortex-m4" 256 40 "STM32F303xC" "f3" true);
    ("STM32F303RE", mkChip "cortex-m4" 512 64 "STM32F303xE" "f3" true)
  ].

(** [_F1_IRQ_NAMES]: handler names by vector position, [None] for a reserved slot. *)
Definition _F1_IRQ_NAMES : list (option string) :=
  [
    Some "WWDG_IRQHandler";
    Some "PVD_IRQHandler";
    Some "TAMPER_IRQHandler";
    Some "RTC_IRQHandler";
    Some "FLASH_IRQHandler";
    Some "RCC_IRQHandler";
    Some "EXTI0_IRQHandler";
    Some "EXTI1_IRQHandler";
    Some "EXTI2_IRQHandler";
    Some "EXTI3_IRQHandler";
    Some "EXTI4_IRQHandler";
    Some "DMA1_Channel1_IRQHandler";
    Some "DMA1_Channel2_IRQHandler";
    Some "DMA1_Channel3_IRQHandler";
    Some "DMA1_Channel4_IRQHandler";
    Some "DMA1_Channel5_IRQHandler";
    Some "DMA1_Channel6_IRQHandler";
    Some "DMA1_Channel7_IRQHandler";
    Some "ADC1_2_IRQHandler";
    Some "USB_HP_CAN1_TX_IRQHandler";
    Some "USB_LP_CAN1_RX0_IRQHandler";
    Some "CAN1_RX1_IRQHandler";
    Some "CAN1_SCE_IRQHandler";
    Some "EXTI9_5_IRQHandler";
    Some "TIM1_BRK_IRQHandler";
    Some "TIM1_UP_IRQHandler";
    Some "TIM1_TRG_COM_IRQHandler";
    Some "TIM1_CC_IRQHandler";
    Some "TIM2_IRQHandler";
    Some "TIM3_IRQHandler";
    Some "TIM4_IRQHandler";
    Some "I2C1_EV_IRQHandler";
    Some "I2C1_ER_IRQHandler";
    Some "I2C2_EV_IRQHandler";
    Some "I2C2_ER_IRQHandler";
    Some "SPI1_IRQHandler";
    Some "SPI2_IRQHandler";
    Some "USART1_IRQHandler";
    Some "USART2_IRQHandler";
    Some "USART3_IRQHandler";
    Some "EXTI15_10_IRQHandler";
    Some "RTC_Alarm_IRQHandler";
    Some "USBWakeUp_IRQHandler";
    Some "TIM8_BRK_IRQHandler";
    Some "TIM8_UP_IRQHandler";
    Some "TIM8_TRG_COM_IRQHandler";
    Some "TIM8_CC_IRQHandler";
    Some "ADC3_IRQHandler";
    Some "FSMC_IRQHandler";
    Some "SDIO_IRQHandler";
    Some "TIM5_IRQHandler";
    Some "SPI3_IRQHandler";
    Some "UART4_IRQHandler";
    Some "UART5_IRQHandler";
    Some "TIM6_IRQHandler";
    Some "TIM7_IRQHandler";
    Some "DMA2_Channel1_IRQHandler";
    Some "DMA2_Channel2_IRQHandler";
    Some "DMA2_Channel3_IRQHandler";
    Some "DMA2_Channel4_5_IRQHandler";
    None;
    None;
    None;
    None;
    None;
    None;
    None;
    None
  ].

(** [_F0_IRQ_NAMES]: handler names by vector position, [None] for a reserved slot. *)
Definition _F0_IRQ_NAMES : list (option string) :=
  [
    Some "WWDG_IRQHandler";
    Some "PVD_VDDIO2_IRQHandler";
    Some "RTC_IRQHandler";
    Some "FLASH_IRQHandler";
    Some "RCC_CRS_IRQHandler";
    Some "EXTI0_1_IRQHandler";
    Some "EXTI2_3_IRQHandler";
    Some "EXTI4_15_IRQHandler";
    Some "TSC_IRQHandler";
    Some "DMA1_Channel1_IRQHandler";
    Some "DMA1_Channel2_3_IRQHandler";
    Some "DMA1_Channel4_5_6_7_IRQHandler";
    Some "ADC1_COMP_IRQHandler";
    Some "TIM1_BRK_UP_TRG_COM_IRQHandler";
    Some "TIM1_CC_IRQHandler";
    Some "TIM2_IRQHandler";
    Some "TIM3_IRQHandler";
    Some "TIM6_DAC_IRQHandler";
    Some "TIM7_IRQHandler";
    Some "TIM14_IRQHandler";
    Some "TIM15_IRQHandler";
    Some "TIM16_IRQHandler";
    Some "TIM17_IRQHandler";
    Some "I2C1_IRQHandler";
    Some "I2C2_IRQHandler";
    Some "SPI1_IRQHandler";
    Some "SPI2_IRQHandler";
    Some "USART1_IRQHandler";
    Some "USART2_IRQHandler";
    Some "USART3_4_IRQHandler";
    Some "CEC_CAN_IRQHandler";
    Some "USB_IRQHandler"
  ].

(** [_F3_IRQ_NAMES]: handler names by vector position, [None] for a reserved slot. *)
Definition _F3_IRQ_NAMES : list (option string) :=
  [
    Some "WWDG_IRQHandler";
    Some "PVD_IRQHandler";
    Some "TAMP_STAMP_IRQHandler";
    Some "RTC_WKUP_IRQHandler";
    Some "FLASH_IRQHandler";
    Some "RCC_IRQHandler";
    Some "EXTI0_IRQHandler";
    Some "EXTI1_IRQHandler";
    Some "EXTI2_TSC_IRQHandler";
    Some "EXTI3_IRQHandler";
    Some "EXTI4_IRQHandler";
    Some "DMA1_Channel1_IRQHandler";
    Some "DMA1_Channel2_IRQHandler";
    Some "DMA1_Channel3_IRQHandler";
    Some "DMA1_Channel4_IRQHandler";
    Some "DMA1_Channel5_IRQHandler";
    Some "DMA1_Channel6_IRQHandler";
    Some "DMA1_Channel7_IRQHandler";
    Some "ADC1_2_IRQHandler";
    Some "USB_HP_CAN1_TX_IRQHandler";
    Some "USB_LP_CAN1_RX0_IRQHandler";
    Some "CAN1_RX1_IRQHandler";
    Some "CAN1_SCE_IRQHandler";
    Some "EXTI9_5_IRQHandler";
    Some "TIM1_BRK_TIM15_IRQHandler";
    Some "TIM1_UP_TIM16_IRQHandler";
    Some "TIM1_TRG_COM_TIM17_IRQHandler";
    Some "TIM1_CC_IRQHandler";
    Some "TIM2_IRQHandler";
    Some "TIM3_IRQHandler";
    Some "TIM4_IRQHandler";
    Some "I2C1_EV_IRQHandler";
    Some "I2C1_ER_IRQHandler";
    Some "I2C2_EV_IRQHandler";
    Some "I2C2_ER_IRQHandler";
    Some "SPI1_IRQHandler";
    Some "SPI2_IRQHandler";
    Some "USART1_IRQHandler";
    Some "USART2_IRQHandler";
    Some "USART3_IRQHandler";
    Some "EXTI15_10_IRQHandler";
    Some "RTC_Alarm_IRQHandler";
    Some "USBWakeUp_IRQHandler";
    Some "TIM8_BRK_IRQHandler";
    Some "TIM8_UP_IRQHandler";
    Some "TIM8_TRG_COM_IRQHandler";
    Some "TIM8_CC_IRQHandler";
    Some "ADC3_IRQHandler";
    None;
    None;
    Some "SPI3_IRQHandler";
    Some "UART4_IRQHandler";
    Some "UART5_IRQHandler";
    Some "TIM6_DAC_IRQHandler";
    Some "TIM7_IRQHandler";
    Some "DMA2_Channel1_IRQHandler";
    Some "DMA2_Channel2_IRQHandler";
    Some "DMA2_Channel3_IRQHandler";
    Some "DMA2_Channel4_IRQHandler";
    Some "DMA2_Channel5_IRQHandler";
    Some "ADC4_IRQHandler";
    None;
    None;
    Some "COMP1_2_3_IRQHandler";
    Some "COMP4_5_6_IRQHandler";
    Some "COMP7_IRQHandler";
    None;
    None;
    None;
    None;
    None;
    Some "I2C3_EV_IRQHandler";
    Some "I2C3_ER_IRQHandler";
    Some "USB_HP_IRQHandler";
    Some "USB_LP_IRQHandler";
    Some "USBWakeUp_RMP_IRQHandler";
    Some "TIM20_BRK_IRQHandler";
    Some "TIM20_UP_IRQHandler";
    Some "TIM20_TRG_COM_IRQHandler";
    Some "TIM20_CC_IRQHandler";
    Some "FPU_IRQHandler";
    Some "SPI4_IRQHandler"
  ].

(** [_F4_IRQ_NAMES]: handler names by vector position, [None] for a reserved slot. *)
Definition _F4_IRQ_NAMES : list (option string) :=
  [
    Some "WWDG_IRQHandler";
    Some "PVD_IRQHandler";
    Some "TAMP_STAMP_IRQHandler";
    Some "RTC_WKUP_IRQHandler";
    Some "FLASH_IRQHandler";
    Some "RCC_IRQHandler";
    Some "EXTI0_IRQHandler";
    Some "EXTI1_IRQHandler";
    Some "EXTI2_IRQHandler";
    Some "EXTI3_IRQHandler";
    Some "EXTI4_IRQHandler";
    Some "DMA1_Stream0_IRQHandler";
    Some "DMA1_Stream1_IRQHandler";
    Some "DMA1_Stream2_IRQHandler";
    Some "DMA1_Stream3_IRQHandler";
    Some "DMA1_Stream4_IRQHandler";
    Some "DMA1_Stream5_IRQHandler";
    Some "DMA1_Stream6_IRQHandler";
    Some "ADC_IRQHandler";
    Some "CAN1_TX_IRQHandler";
    Some "CAN1_RX0_IRQHandler";
    Some "CAN1_RX1_IRQHandler";
    Some "CAN1_SCE_IRQHandler";
    Some "EXTI9_5_IRQHandler";
    Some "TIM1_BRK_TIM9_IRQHandler";
    Some "TIM1_UP_TIM10_IRQHandler";
    Some "TIM1_TRG_COM_TIM11_IRQHandler";
    Some "TIM1_CC_IRQHandler";
    Some "TIM2_IRQHandler";
    Some "TIM3_IRQHandler";
    Some "TIM4_IRQHandler";
    Some "I2C1_EV_IRQHandler";
    Some "I2C1_ER_IRQHandler";
    Some "I2C2_EV_IRQHandler";
    Some "I2C2_ER_IRQHandler";
    Some "SPI1_IRQHandler";
    Some "SPI2_IRQHandler";
    Some "USART1_IRQHandler";
    Some "USART2_IRQHandler";
    Some "USART3_IRQHandler";
    Some "EXTI15_10_IRQHandler";
    Some "RTC_Alarm_IRQHandler";
    Some "OTG_FS_WKUP_IRQHandler";
    Some "TIM8_BRK_TIM12_IRQHandler";
    Some "TIM8_UP_TIM13_IRQHandler";
    Some "TIM8_TRG_COM_TIM14_IRQHandler";
    Some "TIM8_CC_IRQHandler";
    Some "DMA1_Stream7_IRQHandler";
    Some "FSMC_IRQHandler";
    Some "SDIO_IRQHandler";
    Some "TIM5_IRQHandler";
    Some "SPI3_IRQHandler";
    Some "UART4_IRQHandler";
    Some "UART5_IRQHandler";
    Some "TIM6_DAC_IRQHandler";
    Some "TIM7_IRQHandler";
    Some "DMA2_Stream0_IRQHandler";
    Some "DMA2_Stream1_IRQHandler";
    Some "DMA2_Stream2_IRQHandler";
    Some "DMA2_Stream3_IRQHandler";
    Some "DMA2_Stream4_IRQHandler";
    Some "ETH_IRQHandler";
    Some "ETH_WKUP_IRQHandler";
    Some "CAN2_TX_IRQHandler";
    Some "CAN2_RX0_IRQHandler";
    Some "CAN2_RX1_IRQHandler";
    Some "CAN2_SCE_IRQHandler";
    Some "OTG_FS_IRQHandler";
    Some "DMA2_Stream5_IRQHandler";
    Some "DMA2_Stream6_IRQHandler";
    Some "DMA2_Stream7_IRQHandler";
    Some "USART6_IRQHandler";
    Some "I2C3_EV_IRQHandler";
    Some "I2C3_ER_IRQHandler";
    Some "OTG_HS_EP1_OUT_IRQHandler";
    Some "OTG_HS_EP1_IN_IRQHandler";
    Some "OTG_HS_WKUP_IRQHandler";
    Some "OTG_HS_IRQHandler";
    Some "DCMI_IRQHandler";
    None;
    Some "HASH_RNG_IRQHandler";
    Some "FPU_IRQHandler"
  ].

(** [_FAMILY_IRQ_NAMES] *)
Definition _FAMILY_IRQ_NAMES : list (string * list (option string)) :=
  [("f0", _F0_IRQ_NAMES); ("f1", _F1_IRQ_NAMES);
   ("f3", _F3_IRQ_NAMES); ("f4", _F4_IRQ_NAMES)].

(** [_FAMILY_HAL_FILES] *)
Definition _FAMILY_HAL_FILES : list (string * list string) :=
  [
    ("f1",
     ["stm32f1xx_hal.c";
      "stm32f1xx_hal_cortex.c";
      "stm32f1xx_hal_rcc.c";
      "stm32f1xx_hal_rcc_ex.c";
      "stm32f1xx_hal_gpio.c";
      "stm32f1xx_hal_gpio_ex.c";
      "stm32f1xx_hal_uart.c";
      "stm32f1xx_hal_usart.c";
      "stm32f1xx_hal_tim.c";
      "stm32f1xx_hal_tim_ex.c";
      "stm32f1xx_hal_adc.c";
      "stm32f1xx_hal_adc_ex.c";
      "stm32f1xx_hal_i2c.c";
      "stm32f1xx_hal_dma.c";
      "stm32f1xx_hal_pwr.c";
      "stm32f1xx_hal_flash.c";
      "stm32f1xx_hal_flash_ex.c";
      "stm32f1xx_hal_exti.c";
      "stm32f1xx_hal_spi.c";
      "system_stm32f1xx.c"]);
    ("f4",
     ["stm32f4xx_hal.c";
      "stm32f4xx_hal_cortex.c";
      "stm32f4xx_hal_rcc.c";
      "stm32f4xx_hal_rcc_ex.c";
      "stm32f4xx_hal_gpio.c";
      "stm32f4xx_hal_uart.c";
      "stm32f4xx_hal_usart.c";
      "stm32f4xx_hal_tim.c";
      "stm32f4xx_hal_tim_ex.c";
      "stm32f4xx_hal_adc.c";
      "stm32f4xx_hal_adc_ex.c";
      "stm32f4xx_hal_i2c.c";
      "stm32f4xx_hal_i2c_ex.c";
      "stm32f4xx_hal_dma.c";
      "stm32f4xx_hal_dma_ex.c";
      "stm32f4xx_hal_pwr.c";
      "stm32f4xx_hal_pwr_ex.c";
      "stm32f4xx_hal_flash.c";
      "stm32f4xx_hal_flash_ex.c";
      "stm32f4xx_hal_exti.c";
      "stm32f4xx_hal_spi.c";
      "system_stm32f4xx.c"]);
    ("f0",
     ["stm32f0xx_hal.c";
      "stm32f0xx_hal_cortex.c";
      "stm32f0xx_hal_rcc.c";
      "stm32f0xx_hal_rcc_ex.c";
      "stm32f0xx_hal_gpio.c";
      "stm32f0xx_hal_uart.c";
      "stm32f0xx_hal_usart.c";
      "stm32f0xx_hal_tim.c";
      "stm32f0xx_hal_tim_ex.c";
      "stm32f0xx_hal_adc.c";
      "stm32f0xx_hal_adc_ex.c";
      "stm32f0xx_hal_i2c.c";
      "stm32f0xx_hal_i2c_ex.c";
      "stm32f0xx_hal_dma.c";
      "stm32f0xx_hal_pwr.c";
      "stm32f0xx_hal_pwr_ex.c";
      "stm32f0xx_hal_flash.c";
      "stm32f0xx_hal_flash_ex.c";
      "stm32f0xx_hal_spi.c";
      "system_stm32f0xx.c"]);
    ("f3",
     ["stm32f3xx_hal.c";
      "stm32f3xx_hal_cortex.c";
      "stm32f3xx_hal_rcc.c";
      "stm32f3xx_hal_rcc_ex.c";
      "stm32f3xx_hal_gpio.c";
      "stm32f3xx_hal_uart.c";
      "stm32f3xx_hal_usart.c";
      "stm32f3xx_hal_tim.c";
      "stm32f3xx_hal_tim_ex.c";
      "stm32f3xx_hal_adc.c";
      "stm32f3xx_hal_adc_ex.c";
      "stm32f3xx_hal_i2c.c";
      "stm32f3xx_hal_i2c_ex.c";
      "stm32f3xx_hal_dma.c";
      "stm32f3xx_hal_pwr.c";
      "stm32f3xx_hal_pwr_ex.c";
      "stm32f3xx_hal_flash.c";
      "stm32f3xx_hal_flash_ex.c";
      "stm32f3xx_hal_spi.c";
      "system_stm32f3xx.c"])
  ].

(** ** Linker script synthesizer *)

(** [_gen_linker_script(flash_k, ram_k)] *)
Definition _gen_linker_script (flash_k ram_k : Z) : string :=
  "MEMORY {
  FLASH (rx)  : ORIGIN = 0x08000000, LENGTH = " +:+ Py.str_of_int flash_k +:+ "K
  RAM   (xrw) : ORIGIN = 0x20000000, LENGTH = " +:+ Py.str_of_int ram_k +:+ "K
}
_estack = ORIGIN(RAM) + LENGTH(RAM);
_Min_Heap_Size = 0x200;
_Min_Stack_Size = 0x400;
SECTIONS {
  .isr_vector : { KEEP(*(.isr_vector)) } >FLASH
  .text : { *(.text*) *(.rodata*) . = ALIGN(4); _etext = .; } >FLASH
  .init : { KEEP(*(.init)) } >FLASH
  .fini : { KEEP(*(.fini)) } >FLASH
  .init_array : { KEEP(*(.init_array*)) } >FLASH
  .fini_array : { KEEP(*(.fini_array*)) } >FLASH
  .data : AT(_etext) { _sdata = .; *(.data*) . = ALIGN(4); _edata = .; } >RAM
  .bss : { _sbss = .; *(.bss*) *(COMMON) . = ALIGN(4); _ebss = .; } >RAM
  ._user_heap_stack : { . = ALIGN(8); . = . + _Min_Heap_Size; . = . + _Min_Stack_Size; . = ALIGN(8); } >RAM
  /DISCARD/ : { *(.ARM.*) }
}
".


(** ** Chip resolver *)

(** [name in CHIP_DB] and [CHIP_DB[name]] in one: the row stored under the
    key, if any. *)
Definition db_get (name : string) : option ChipInfo :=
  snd <$> find (fun kv => String.eqb (fst kv) name) CHIP_DB.

(** [name[:-suffix_len] if len(name) > suffix_len else name] *)
Definition strip_suffix (name : string) (suffix_len : nat) : string :=
  if (suffix_len <? String.length name)%nat
  then Py.take (String.length name - suffix_len) name
  else name.

Definition is_upper_letter (c : ascii) : bool :=
  let n := Ascii.nat_of_ascii c in ((65 <=? n) && (n <=? 90))%nat.

Definition is_digit (c : ascii) : bool :=
  let n := Ascii.nat_of_ascii c in ((48 <=? n) && (n <=? 57))%nat.

(** [re.match(r'(STM32[A-Z]\d{3})', name)]: the matched group, anchored at
    the start of [name]. *)
Definition re_family_prefix (name : string) : option string :=
  match name with
  | String "S" (String "T" (String "M" (String "3" (String "2"
      (String c (String d1 (String d2 (String d3 _)))))))) =>
      if is_upper_letter c && is_digit d1 && is_digit d2 && is_digit d3
      then Some (Py.take 9 name) else None
  | _ => None
  end.

(** The loop [for suffix_len in range(2, 0, -1)] of [_lookup_chip]: the
    first stripped name that is a key wins. *)
Fixpoint lookup_stripped (name : string) (lens : list nat) : option ChipInfo :=
  match lens with
  | [] => None
  | suffix_len :: rest =>
      match db_get (strip_suffix name suffix_len) with
      | Some info => Some info
      | None => lookup_stripped name rest
      end
  end.

(** [_lookup_chip(chip_name)]; [None] when no strategy matches. *)
Definition _lookup_chip (chip_name : string) : option ChipInfo :=
  let name := Py.remove_char " " (Py.remove_char "-" (Py.upper chip_name)) in
  match db_get name with
  | Some info => Some info
  | None =>
  match lookup_stripped name [2; 1]%nat with
  | Some info => Some info
  | None =>
  match find (fun kv => Py.startswith name (fst kv)) CHIP_DB with
  | Some kv => Some (snd kv)
  | None =>
  match re_family_prefix name with
  | Some prefix =>
      match find (fun kv => Py.startswith (fst kv) prefix) CHIP_DB with
      | Some kv => Some (snd kv)
      | None => None
      end
  | None => None
  end end end end.

(** ** Startup code synthesizer *)

(** Python truthiness of a table entry: [None] and the empty string are
    false. *)
Definition truthy (name : option string) : bool :=
  match name with
  | Some (String _ _) => true
  | _ => false
  end.

(** [f"{name}"] *)
Definition fmt_name (name : option string) : string :=
  match name with
  | Some s => s
  | None => "None"
  end.

(** The first loop of [_gen_startup]: one vector-table line per entry. *)
Definition vec_line (name : option string) : string :=
  if truthy name then "  .word " +:+ fmt_name name
  else "  .word 0  /* reserved */".

Definition vec_lines (irq_names : list (option string)) : list string :=
  map vec_line irq_names.

(** The second loop of [_gen_startup]: a weak alias for every named entry. *)
Fixpoint weak_lines (irq_names : list (option string)) : list string :=
  match irq_names with
  | [] => []
  | name :: rest =>
      if truthy name
      then (".weak " +:+ fmt_name name +:+ Py.NL +:+
            ".thumb_set " +:+ fmt_name name +:+ ", Default_Handler")
           :: weak_lines rest
      else weak_lines rest
  end.

(** [_gen_startup(cpu, irq_names)] *)
Definition _gen_startup (cpu : string) (irq_names : list (option string)) : string :=
  let vec_section := Py.join Py.NL (vec_lines irq_names) in
  let weak_section := Py.join Py.NL (weak_lines irq_names) in
  ".syntax unified
.cpu " +:+ cpu +:+ "
.thumb

.global g_pfnVectors
.global Default_Handler

.section .isr_vector," +:+ Py.DQ +:+ "a" +:+ Py.DQ +:+ ",%progbits
.type g_pfnVectors, %object
g_pfnVectors:
  .word _estack
  .word Reset_Handler
  .word NMI_Handler
  .word HardFault_Handler
  .word MemManage_Handler
  .word BusFault_Handler
  .word UsageFault_Handler
  .word 0,0,0,0
  .word SVC_Handler
  .word DebugMon_Handler
  .word 0
  .word PendSV_Handler
  .word SysTick_Handler
" +:+ vec_section +:+ "

.section .text.Reset_Handler
.weak Reset_Handler
.type Reset_Handler, %function
Reset_Handler:
  ldr r0, =_estack
  mov sp, r0
  ldr r0, =_sdata
  ldr r1, =_edata
  ldr r2, =_etext
  b 2f
1: ldr r3, [r2], #4
  str r3, [r0], #4
2: cmp r0, r1
  blt 1b
  ldr r0, =_sbss
  ldr r1, =_ebss
  movs r2, #0
  b 4f
3: str r2, [r0], #4
4: cmp r0, r1
  blt 3b
  bl SystemInit
  bl main
  b .

.section .text.Default_Handler," +:+ Py.DQ +:+ "ax" +:+ Py.DQ +:+ ",%progbits
Default_Handler: b .

.weak NMI_Handler
.thumb_set NMI_Handler, Default_Handler
.weak HardFault_Handler
.thumb_set HardFault_Handler, Default_Handler
.weak MemManage_Handler
.thumb_set MemManage_Handler, Default_Handler
.weak BusFault_Handler
.thumb_set BusFault_Handler, Default_Handler
.weak UsageFault_Handler
.thumb_set UsageFault_Handler, Default_Handler
.weak SVC_Handler
.thumb_set SVC_Handler, Default_Handler
.weak DebugMon_Handler
.thumb_set DebugMon_Handler, Default_Handler
.weak PendSV_Handler
.thumb_set PendSV_Handler, Default_Handler
.weak SysTick_Handler
.thumb_set SysTick_Handler, Default_Handler
.weak SystemInit
.thumb_set SystemInit, Default_Handler
" +:+ weak_section +:+ "
".

(** ** The build session and its environment *)

(** *** Paths and the file system *)

(** A path is the list of its components, relative to the directory of
    [config.py] ([BASE_DIR]). *)
Definition Path : Type := list string.

(** [p / name] *)
Definition path_div (p : Path) (name : string) : Path := p ++ [name].

Notation "p // name" := (path_div p name) (at level 40, left associativity).

(** [str(p)] *)
Definition path_str (p : Path) : string := Py.join "/" p.

(** [p.name] *)
Definition path_name (p : Path) : string := List.last p "".

(** [name.rfind(c)] *)
Fixpoint rfind (c : ascii) (s : string) : option nat :=
  match s with
  | EmptyString => None
  | String d r =>
      match rfind c r with
      | Some i => Some (S i)
      | None => if Ascii.eqb d c then Some 0%nat else None
      end
  end.

(** [p.stem]: the name without its last suffix. *)
Definition path_stem (p : Path) : string :=
  let name := path_name p in
  match rfind "." name with
  | Some i =>
      if ((0 <? i) && (i <? String.length name - 1))%nat
      then Py.take i name else name
  | None => name
  end.

(** config.py *)
Definition ARM_GCC : string := "arm-none-eabi-gcc".
Definition ARM_OBJCOPY : string := "arm-none-eabi-objcopy".
Definition ARM_AR : string := "arm-none-eabi-ar".
Definition BASE_DIR : Path := [].
Definition WORKSPACE : Path := BASE_DIR // "workspace".
Definition BUILD_DIR : Path := WORKSPACE // "build".
Definition HAL_DIR : Path := WORKSPACE // "hal".
Definition DEFAULT_CHIP : string := "STM32F103C8T6".

(** What [stat()] gives for a path that exists, and the bytes stored there;
    a directory is an entry like a file. *)
Record File : Type := mkFile {
  st_mtime : Z;
  data : string
}.

Definition st_size (f : File) : Z := Z.of_nat (String.length (data f)).

(** The environment of the engine: the file system, the clock that stamps
    what is written, the lines printed so far, and the child processes run
    so far, each with the file system it started on. *)
Record World : Type := mkWorld {
  fs : gmap Path File;
  clock : Z;
  stdout : list string;
  procs : list (list string * gmap Path File)
}.

(** How a child process ends: [subprocess.run] returns a completed process
    or raises. *)
Inductive proc_result : Type :=
| Exited (returncode : Z) (out err : string)
| TimeoutExpired
| RunError (str_e : string).

(** *** The session object *)

(** The attributes of a [Compiler] instance.  [hal_inc_dirs] and
    [hal_src_files] hold paths; the source stores [str(path)] and turns the
    strings back into paths where it needs them. *)
Record Compiler : Type := mkCompiler {
  has_gcc : bool;
  has_specs : bool;
  has_hal : bool;
  has_hal_lib : bool;
  hal_inc_dirs : list Path;
  hal_src_files : list Path;
  _chip_info : option ChipInfo;
  _current_family : option string
}.

Record State : Type := mkState {
  self : Compiler;
  world : World
}.

(** Exceptions that leave a method. *)
Inductive exn : Type :=
| FileNotFoundError (p : Path)
| KeyError
| TypeError.

Inductive result (A : Type) : Type :=
| Ok (a : A)
| Raise (e : exn).

Arguments Ok {A} a.
Arguments Raise {A} e.

(** Methods run on the state and return a value or raise. *)
Definition M (A : Type) : Type := State -> result A * State.

#[global] Instance M_ret : MRet M := fun A (a : A) s => (Ok a, s).

#[global] Instance M_bind : MBind M := fun A B (f : A -> M B) (m : M A) s =>
  match m s with
  | (Ok a, s') => f a s'
  | (Raise e, s') => (Raise e, s')
  end.

Definition raise {A : Type} (e : exn) : M A := fun s => (Raise e, s).

Definition get_self : M Compiler := fun s => (Ok (self s), s).
Definition get_world : M World := fun s => (Ok (world s), s).

Definition modify_self (f : Compiler -> Compiler) : M unit :=
  fun s => (Ok tt, mkState (f (self s)) (world s)).

Definition modify_world (f : World -> World) : M unit :=
  fun s => (Ok tt, mkState (self s) (f (world s))).

(** Attribute assignments. *)
Definition set_has_gcc (b : bool) (c : Compiler) : Compiler :=
  mkCompiler b (has_specs c) (has_hal c) (has_hal_lib c) (hal_inc_dirs c)
             (hal_src_files c) (_chip_info c) (_current_family c).
Definition set_has_specs (b : bool) (c : Compiler) : Compiler :=
  mkCompiler (has_gcc c) b (has_hal c) (has_hal_lib c) (hal_inc_dirs c)
             (hal_src_files c) (_chip_info c) (_current_family c).
Definition set_has_hal (b : bool) (c : Compiler) : Compiler :=
  mkCompiler (has_gcc c) (has_specs c) b (has_hal_lib c) (hal_inc_dirs c)
             (hal_src_files c) (_chip_info c) (_current_family c).
Definition set_has_hal_lib (b : bool) (c : Compiler) : Compiler :=
  mkCompiler (has_gcc c) (has_specs c) (has_hal c) b (hal_inc_dirs c)
             (hal_src_files c) (_chip_info c) (_current_family c).
Definition set_hal_inc_dirs (l : list Path) (c : Compiler) : Compiler :=
  mkCompiler (has_gcc c) (has_specs c) (has_hal c) (has_hal_lib c) l
             (hal_src_files c) (_chip_info c) (_current_family c).
Definition set_hal_src_files (l : list Path) (c : Compiler) : Compiler :=
  mkCompiler (has_gcc c) (has_specs c) (has_hal c) (has_hal_lib c)
             (hal_inc_dirs c) l (_chip_info c) (_current_family c).
Definition set_chip_info (i : option ChipInfo) (c : Compiler) : Compiler :=
  mkCompiler (has_gcc c) (has_specs c) (has_hal c) (has_hal_lib c)
             (hal_inc_dirs c) (hal_src_files c) i (_current_family c).
Definition set_current_family (f : option string) (c : Compiler) : Compiler :=
  mkCompiler (has_gcc c) (has_specs c) (has_hal c) (has_hal_lib c)
             (hal_inc_dirs c) (hal_src_files c) (_chip_info c) f.

(** *** File operations *)

(** [print(line)] *)
Definition print (line : string) : M unit :=
  modify_world (fun w => mkWorld (fs w) (clock w) (stdout w ++ [line]) (procs w)).

(** [p.exists()] *)
Definition path_exists (w : World) (p : Path) : bool :=
  match fs w !! p with
  | Some _ => true
  | None => false
  end.

(** [p.stat()], which raises for a missing path. *)
Definition stat (p : Path) : M File :=
  fun s => match fs (world s) !! p with
           | Some f => (Ok f, s)
           | None => (Raise (FileNotFoundError p), s)
           end.

(** [p.write_text(text)]: the file is stamped with the current time.  The
    build directory is created by [__init__]; writing into it is taken to
    succeed. *)
Definition write_text (p : Path) (text : string) : M unit :=
  modify_world (fun w =>
    mkWorld (<[p := mkFile (clock w) text]> (fs w)) (clock w) (stdout w) (procs w)).

(** [p.unlink(missing_ok=True)], for a path that names a file or nothing.
    A directory in the place of a build product, which makes the method
    raise, is outside the model. *)
Definition unlink (p : Path) : M unit :=
  modify_world (fun w => mkWorld (delete p (fs w)) (clock w) (stdout w) (procs w)).

(** [p.mkdir(exist_ok=True)], for a path that names a directory or
    nothing, in a parent that exists: the parent is the build directory.
    A regular file in the place of the directory, which makes the method
    raise, is outside the model. *)
Definition mkdir (p : Path) : M unit :=
  modify_world (fun w =>
    match fs w !! p with
    | Some _ => w
    | None => mkWorld (<[p := mkFile (clock w) ""]> (fs w)) (clock w)
                      (stdout w) (procs w)
    end).

(** *** Methods that run no child process *)

(** [d.get(key)] on a table kept as an association list. *)
Definition assoc_get {A : Type} (key : string) (d : list (string * A)) : option A :=
  snd <$> find (fun kv => String.eqb (fst kv) key) d.

(** [info["family"] != self._current_family] *)
Definition family_differs (fam : string) (current : option string) : bool :=
  match current with
  | Some f => negb (String.eqb fam f)
  | None => true
  end.

(** [self._current_family or "f1"] *)
Definition family_or_f1 (current : option string) : string :=
  match current with
  | Some (String c r) => String c r
  | _ => "f1"
  end.

(** [Compiler._find_hal(family)] *)
Definition _find_hal (family : string) : M unit :=
  let hal := HAL_DIR in
  let hal_header := "stm32" +:+ family +:+ "xx_hal.h" in
  modify_self (set_has_hal_lib false);;
  w ← get_world;
  if negb (path_exists w (hal // "Inc" // hal_header)) then
    modify_self (set_has_hal false);;
    modify_self (set_hal_inc_dirs []);;
    modify_self (set_hal_src_files [])
  else
    modify_self (set_has_hal true);;
    modify_self (set_hal_inc_dirs [hal // "Inc"]);;
    let cmsis_paths := [hal // "CMSIS" // "Include";
                        hal // "CMSIS" // "Core" // "Include"] in
    modify_self (fun c =>
      set_hal_inc_dirs (hal_inc_dirs c ++ List.filter (path_exists w) cmsis_paths) c);;
    let hal_src := hal // "Src" in
    let needed := default [] (assoc_get family _FAMILY_HAL_FILES) in
    modify_self (set_hal_src_files
      (map (path_div hal_src)
           (List.filter (fun f => path_exists w (hal_src // f)) needed))).

(** The warning printed for an unknown chip. *)
Definition unknown_chip_warning (chip_name : string) : string :=
  "  ⚠️ 未知芯片 " +:+ chip_name +:+ "，使用默认 STM32F103C8 参数".

(** [CHIP_DB["STM32F103C8"]] *)
Definition default_chip_info : ChipInfo :=
  mkChip "cortex-m3" 64 20 "STM32F103xB" "f1" false.

(** [Compiler.set_chip(chip_name)] *)
Definition set_chip (chip_name : string) : M ChipInfo :=
  info ← match _lookup_chip chip_name with
         | Some info => mret info
         | None =>
             print (unknown_chip_warning chip_name);;
             match db_get "STM32F103C8" with
             | Some info => mret info
             | None => raise KeyError
             end
         end;
  modify_self (set_chip_info (Some info));;
  let ld := _gen_linker_script (flash_k info) (ram_k info) in
  write_text (BUILD_DIR // "link.ld") ld;;
  let irq_names := default _F1_IRQ_NAMES (assoc_get (family info) _FAMILY_IRQ_NAMES) in
  let startup := _gen_startup (cpu info) irq_names in
  write_text (BUILD_DIR // "startup.s") startup;;
  c ← get_self;
  (if family_differs (family info) (_current_family c) then
     modify_self (set_current_family (Some (family info)));;
     _find_hal (family info)
   else mret tt);;
  mret info.

(** [Compiler.__init__()] *)
Definition __init__ : M unit :=
  modify_self (fun _ => mkCompiler false false false false [] [] None None);;
  mkdir WORKSPACE;;
  mkdir BUILD_DIR.

(** *** Command lines *)

Definition cpu_flags (ci : ChipInfo) : list string :=
  ["-mcpu=" +:+ cpu ci; "-mthumb"] ++
  (if fpu ci then ["-mfloat-abi=hard"; "-mfpu=fpv4-sp-d16"] else []).

Definition inc_flags (dirs : list Path) : list string :=
  map (fun d => "-I" +:+ path_str d) dirs.

(** The command of [precompile_hal] for one translation unit. *)
Definition hal_cc_cmd (ci : ChipInfo) (incs : list Path) (src obj : Path) : list string :=
  [ARM_GCC] ++ cpu_flags ci ++
  ["-D" +:+ define ci; "-DUSE_HAL_DRIVER"] ++
  inc_flags incs ++
  ["-Os"; "-ffunction-sections"; "-fdata-sections";
   "-c"; path_str src; "-o"; path_str obj].

(** The archiver command of [precompile_hal]. *)
Definition hal_ar_cmd (lib_path : Path) (existing : list Path) : list string :=
  [ARM_AR; "rcs"; path_str lib_path] ++ map path_str existing.

Definition elf : Path := BUILD_DIR // "firmware.elf".
Definition binf : Path := BUILD_DIR // "firmware.bin".
Definition main_c : Path := BUILD_DIR // "main.c".

(** The command [compile] builds: a link against the archive or with all
    HAL sources when the session has a HAL, a syntax check otherwise. *)
Definition compile_cmd (c : Compiler) (ci : ChipInfo) : list string :=
  if has_hal c then
    let family := family_or_f1 (_current_family c) in
    let extra_srcs := if has_hal_lib c then [] else map path_str (hal_src_files c) in
    let extra_libs := if has_hal_lib c
                      then ["-L" +:+ path_str BUILD_DIR; "-lstm32hal_" +:+ family]
                      else [] in
    [ARM_GCC] ++ cpu_flags ci ++
    ["-D" +:+ define ci; "-DUSE_HAL_DRIVER"] ++
    inc_flags (hal_inc_dirs c) ++
    ["-Os"; "-Wall"; "-Wno-unused-variable"; "-Wno-unused-function";
     "-ffunction-sections"; "-fdata-sections";
     "-T" +:+ path_str (BUILD_DIR // "link.ld");
     "-Wl,--gc-sections";
     path_str main_c;
     path_str (BUILD_DIR // "startup.s")] ++
    extra_srcs ++
    ["-o"; path_str elf; "-nostartfiles"] ++
    extra_libs ++
    ["-lc"; "-lm"; "-lnosys"] ++
    (if has_specs c then ["--specs=nosys.specs"; "--specs=nano.specs"] else [])
  else
    [ARM_GCC] ++ cpu_flags ci ++
    ["-D" +:+ define ci; "-fsyntax-only"; "-Wall"; path_str main_c].

(** *** Diagnostics *)

Definition error_markers : list string :=
  ["error:"; "undefined reference"; "multiple definition";
   "cannot find"; "No such file"; "fatal:"].

Definition is_nil {A : Type} (l : list A) : bool :=
  match l with
  | [] => true
  | _ => false
  end.

(** The message [compile] returns for a failing toolchain run with
    diagnostics [err]. *)
Definition short_error (err : string) : string :=
  let lines := List.filter
                 (fun l => existsb (fun k => Py.contains k l) error_markers)
                 (Py.split_nl err) in
  let kept := List.filter (fun l => negb (Py.contains "collect2:" l)) lines in
  let lines := if is_nil kept then lines else kept in
  if is_nil lines then Py.take 1000 err
  else Py.join Py.NL (firstn 15 lines).

(** The result dictionary of [compile]. *)
Record CompileResult : Type := mkResult {
  ok : bool;
  msg : string;
  bin_path : option string;
  bin_size : Z
}.

(** [str(e)] for the timeout raised by [subprocess.run]. *)
Definition timeout_str (cmd : list string) (seconds : Z) : string :=
  "Command '[" +:+ Py.join ", " (map (fun a => "'" +:+ a +:+ "'") cmd) +:+
  "]' timed out after " +:+ Py.str_of_int seconds +:+ " seconds".

(** *** Methods that run the toolchain *)

Section Toolchain.

(** The cross compiler, archiver and object-copy tool are external
    programs.  [toolchain w cmd] is how the process started with command
    line [cmd] in environment [w] ends, and [tool_data w cmd] the bytes it
    writes to its output file. *)
Variable toolchain : World -> list string -> proc_result.
Variable tool_data : World -> list string -> string.

(** [subprocess.run(cmd, ...)].  The process is logged with the file system
    it starts on and takes one unit of time; when it exits with status 0 it
    has written its output files [outputs], stamped with the time of its
    end, and otherwise leaves the file system as it was. *)
Definition run (cmd : list string) (outputs : list Path) : M proc_result :=
  fun s =>
    let w := world s in
    let r := toolchain w cmd in
    let t := clock w + 1 in
    let written :=
      match r with
      | Exited 0 _ _ =>
          foldr (fun p m => <[p := mkFile t (tool_data w cmd)]> m) (fs w) outputs
      | _ => fs w
      end in
    (Ok r, mkState (self s)
                   (mkWorld written t (stdout w) (procs w ++ [(cmd, fs w)]))).

(** The staleness test of [precompile_hal]:
    [not obj.exists() or obj.stat().st_mtime < src_path.stat().st_mtime] *)
Definition is_stale (src obj : Path) : M bool :=
  w ← get_world;
  if negb (path_exists w obj) then mret true
  else
    fo ← stat obj;
    fsrc ← stat src;
    mret (st_mtime fo <? st_mtime fsrc).

(** The first loop of [precompile_hal]: the units to compile and all object
    paths. *)
Fixpoint scan (obj_dir : Path) (srcs : list Path)
  : M (list (Path * Path) * list Path) :=
  match srcs with
  | [] => mret ([], [])
  | src :: rest =>
      let obj := obj_dir // (path_stem src +:+ ".o") in
      stale ← is_stale src obj;
      r ← scan obj_dir rest;
      mret ((if stale : bool then [(src, obj)] else []) ++ fst r, obj :: snd r)
  end.

(** The second loop of [precompile_hal]: one compiler run per stale unit,
    stopping at the first failure; [true] when the loop runs to its end. *)
Fixpoint compile_units (ci : ChipInfo) (incs : list Path)
    (to_compile : list (Path * Path)) : M bool :=
  match to_compile with
  | [] => mret true
  | (src_path, obj) :: rest =>
      let cmd := hal_cc_cmd ci incs src_path obj in
      r ← run cmd [obj];
      match r with
      | Exited rc _ err =>
          if rc =? 0 then compile_units ci incs rest
          else
            let first_err := Py.take 120 (hd "" (Py.split_nl err)) in
            print ("  ❌ " +:+ path_name src_path +:+ ": " +:+ first_err);;
            mret false
      | TimeoutExpired =>
          print ("  ❌ 预编译异常: " +:+ timeout_str cmd 60);;
          mret false
      | RunError e =>
          print ("  ❌ 预编译异常: " +:+ e);;
          mret false
      end
  end.

(** [Compiler.precompile_hal()] *)
Definition precompile_hal : M bool :=
  c ← get_self;
  match _chip_info c with
  | None => mret false
  | Some ci =>
  if negb (has_hal c) || negb (has_gcc c) then mret false else
  let family := family_or_f1 (_current_family c) in
  let lib_path := BUILD_DIR // ("libstm32hal_" +:+ family +:+ ".a") in
  let obj_dir := BUILD_DIR // ("hal_obj_" +:+ family) in
  mkdir obj_dir;;
  sc ← scan obj_dir (hal_src_files c);
  let to_compile := fst sc in
  let obj_files := snd sc in
  w ← get_world;
  if is_nil to_compile && path_exists w lib_path then
    modify_self (set_has_hal_lib true);;
    mret true
  else
    let total := Z.of_nat (length (hal_src_files c)) in
    let fresh := total - Z.of_nat (length to_compile) in
    print ("  🔨 预编译 HAL (" +:+ Py.str_of_int (Z.of_nat (length to_compile)) +:+
           " 个/共 " +:+ Py.str_of_int total +:+ "，" +:+ Py.str_of_int fresh +:+
           " 个复用缓存)...");;
    compiled ← compile_units ci (hal_inc_dirs c) to_compile;
    if negb compiled then mret false else
    w ← get_world;
    let existing := List.filter (path_exists w) obj_files in
    if is_nil existing then mret false else
    let cmd := hal_ar_cmd lib_path existing in
    r ← run cmd [lib_path];
    match r with
    | Exited rc _ err =>
        if rc =? 0 then
          f ← stat lib_path;
          let size_kb := st_size f / 1024 in
          print ("  ✅ HAL 静态库已就绪: " +:+ path_name lib_path +:+ " (" +:+
                 Py.str_of_int size_kb +:+ " KB)");;
          modify_self (set_has_hal_lib true);;
          mret true
        else
          print ("  ❌ ar 归档失败: " +:+ Py.take 100 err);;
          mret false
    | TimeoutExpired =>
        print ("  ❌ ar 异常: " +:+ timeout_str cmd 30);;
        mret false
    | RunError e =>
        print ("  ❌ ar 异常: " +:+ e);;
        mret false
    end
  end.

(** [Compiler.compile(code)] *)
Definition compile (code : string) : M CompileResult :=
  c0 ← get_self;
  (match _chip_info c0 with
   | None => set_chip DEFAULT_CHIP;; mret tt
   | Some _ => mret tt
   end);;
  c ← get_self;
  match _chip_info c with
  | None => raise TypeError
  | Some ci =>
  write_text main_c code;;
  unlink elf;;
  unlink binf;;
  if negb (has_gcc c) then
    mret (mkResult false "arm-none-eabi-gcc 未安装" None 0)
  else
  let cmd := compile_cmd c ci in
  r ← run cmd (if has_hal c then [elf] else []);
  match r with
  | Exited rc _ err =>
      if rc =? 0 then
        w ← get_world;
        if has_hal c && path_exists w elf then
          let copy := [ARM_OBJCOPY; "-O"; "binary";
                       path_str elf; path_str binf] in
          r2 ← run copy [binf];
          match r2 with
          | Exited _ _ _ =>
              w ← get_world;
              let sz := match fs w !! binf with
                        | Some f => st_size f
                        | None => 0
                        end in
              mret (mkResult true ("编译成功 (" +:+ Py.str_of_int sz +:+ "B)")
                             (Some (path_str binf)) sz)
          | TimeoutExpired => mret (mkResult false "编译超时" None 0)
          | RunError e => mret (mkResult false e None 0)
          end
        else mret (mkResult true "语法检查通过(无HAL)" None 0)
      else mret (mkResult false (short_error err) None 0)
  | TimeoutExpired => mret (mkResult false "编译超时" None 0)
  | RunError e => mret (mkResult false e None 0)
  end
  end.

(** The dictionary returned by [check]. *)
Record CheckInfo : Type := mkCheck {
  chk_gcc : bool;
  chk_gcc_version : string;
  chk_specs : bool;
  chk_hal : bool;
  chk_chip_info : option ChipInfo;
  chk_hal_lib : bool
}.

(** [Compiler.check(chip_name)] *)
Definition check (chip_name : option string) : M CheckInfo :=
  c0 ← get_self;
  chip ← match chip_name with
         | Some (String a r) => info ← set_chip (String a r); mret (Some info)
         | _ => match _chip_info c0 with
                | None => info ← set_chip DEFAULT_CHIP; mret (Some info)
                | Some _ => mret None
                end
         end;
  r ← run [ARM_GCC; "--version"] [];
  gcc ← match r with
        | Exited rc out _ =>
            if rc =? 0 then
              modify_self (set_has_gcc true);;
              mret (true, hd "" (Py.split_nl out))
            else mret (false, "")
        | _ => mret (false, "")
        end;
  c1 ← get_self;
  let cpu_name := match _chip_info c1 with
                  | Some ci => cpu ci
                  | None => "cortex-m3"
                  end in
  specs ← (if has_gcc c1 then
             r ← run [ARM_GCC; "-mcpu=" +:+ cpu_name; "-mthumb";
                      "--specs=nosys.specs"; "--specs=nano.specs";
                      "-x"; "c"; "-E"; "-"; "-o"; "/dev/null"] [];
             match r with
             | Exited rc _ _ =>
                 modify_self (set_has_specs (rc =? 0));;
                 mret (rc =? 0)
             | _ => mret false
             end
           else mret false);
  c2 ← get_self;
  (if has_hal c2 && has_gcc c2 then precompile_hal;; mret tt else mret tt);;
  c3 ← get_self;
  mret (mkCheck (fst gcc) (snd gcc) specs (has_hal c2) chip (has_hal_lib c3)).

End Toolchain.
(** ** Reading the generated texts back

    The generators return plain text.  The functions below read a generated
    text the way the tools that consume it do, line by line, so that the
    properties can be stated about the text itself. *)

Module Read.

(** The rest of [s] after the prefix [p], when [s] starts with [p]. *)
Fixpoint strip_prefix (p s : string) : option string :=
  match p, s with
  | EmptyString, _ => Some s
  | String a p', String b s' =>
      if Ascii.eqb a b then strip_prefix p' s' else None
  | String _ _, EmptyString => None
  end.

(** The text following the first occurrence of [m] in [s]. *)
Fixpoint after (m s : string) : option string :=
  match strip_prefix m s with
  | Some r => Some r
  | None => match s with
            | EmptyString => None
            | String _ s' => after m s'
            end
  end.

(** [s] without its last character, when that character is [c]. *)
Fixpoint strip_last (c : ascii) (s : string) : option string :=
  match s with
  | EmptyString => None
  | String d EmptyString => if Ascii.eqb d c then Some EmptyString else None
  | String d r => option_map (String d) (strip_last c r)
  end.

Definition space : ascii := Ascii.ascii_of_nat 32.

Fixpoint drop_spaces (s : string) : string :=
  match s with
  | String c r => if Ascii.eqb c space then drop_spaces r else s
  | EmptyString => EmptyString
  end.

(** The characters of [s] before the first [c]. *)
Fixpoint until_char (c : ascii) (s : string) : string :=
  match s with
  | EmptyString => EmptyString
  | String d r => if Ascii.eqb d c then EmptyString else String d (until_char c r)
  end.

(** First blank-separated word of a line. *)
Definition first_token (line : string) : string :=
  until_char space (drop_spaces line).

(** What the linker reads from a memory-region line
    [... LENGTH = <n>K]: the suffix [K] multiplies by 1024. *)
Definition ld_length_bytes (line : string) : option Z :=
  v ← after "LENGTH = " line;
  d ← strip_last "K"%char v;
  i ← NilEmpty.int_of_string d;
  Some (Z.of_int i * 1024).

Fixpoint drop_until (l : string) (ls : list string) : list string :=
  match ls with
  | [] => []
  | x :: r => if String.eqb x l then r else drop_until l r
  end.

Fixpoint take_until (l : string) (ls : list string) : list string :=
  match ls with
  | [] => []
  | x :: r => if String.eqb x l then [] else x :: take_until l r
  end.

(** Names of the output sections of a linker script, in the order in which
    they are placed: the first word of every line between [SECTIONS {] and
    the closing brace. *)
Definition section_order (script : string) : list string :=
  map first_token
      (take_until "}" (drop_until "SECTIONS {" (Py.split_nl script))).

(** A string without newline. *)
Fixpoint no_nl (s : string) : bool :=
  match s with
  | EmptyString => true
  | String c r => negb (Ascii.eqb c Py.nl) && no_nl r
  end.

(** Joining the lines of two texts: the last line of the first text and the
    first line of the second are one line of the concatenation. *)
Fixpoint glue (la lb : list string) : list string :=
  match la with
  | [] => lb
  | [x] => match lb with
           | l :: ls => (x +:+ l) :: ls
           | [] => [x]
           end
  | x :: r => x :: glue r lb
  end.

(** *** Assembler text *)

(** A line holding a [.word] directive gives its operand field. *)
Definition word_directive (line : string) : option string :=
  strip_prefix ".word " (drop_spaces line).

(** The text before a [/*] comment. *)
Fixpoint cut_comment (s : string) : string :=
  match s with
  | EmptyString => EmptyString
  | String c r =>
      if Ascii.eqb c "/" && String.prefix "*" r then EmptyString
      else String c (cut_comment r)
  end.

(** The comma-separated fields of [s]. *)
Fixpoint split_comma (s : string) : list string :=
  match s with
  | EmptyString => [EmptyString]
  | String c r =>
      if Ascii.eqb c "," then EmptyString :: split_comma r
      else match split_comma r with
           | l :: ls => String c l :: ls
           | [] => [String c EmptyString]
           end
  end.

(** The words a line contributes to the table: one per operand of its
    [.word] directive. *)
Definition line_words (line : string) : list string :=
  match word_directive line with
  | Some ops => map first_token (split_comma (cut_comment ops))
  | None => []
  end.

Fixpoint take_words (ls : list string) : list string :=
  match ls with
  | [] => []
  | l :: r => match word_directive l with
              | Some _ => line_words l ++ take_words r
              | None => []
              end
  end.

(** The vector table of a startup unit: the words emitted from the label
    [g_pfnVectors:] up to the first line that is not a [.word] directive. *)
Definition vector_table (asm : string) : list string :=
  take_words (drop_until "g_pfnVectors:" (Py.split_nl asm)).

(** The names declared weak and aliased to [Default_Handler]: a [.weak n]
    line directly followed by [.thumb_set n, Default_Handler]. *)
Fixpoint weak_alias_lines (ls : list string) : list string :=
  match ls with
  | [] => []
  | l1 :: rest =>
      match strip_prefix ".weak " l1, rest with
      | Some n, l2 :: _ =>
          if String.eqb l2 (".thumb_set " +:+ n +:+ ", Default_Handler")
          then n :: weak_alias_lines rest
          else weak_alias_lines rest
      | _, _ => weak_alias_lines rest
      end
  end.

Definition weak_aliases (asm : string) : list string :=
  weak_alias_lines (Py.split_nl asm).

(** Characters of an assembler symbol as the tables use them. *)
Definition symbol_char (c : ascii) : bool :=
  let n := Ascii.nat_of_ascii c in
  (((65 <=? n) && (n <=? 90)) || ((97 <=? n) && (n <=? 122)) ||
   ((48 <=? n) && (n <=? 57)) || (n =? 95))%nat.

Fixpoint symbol_chars (s : string) : bool :=
  match s with
  | EmptyString => true
  | String c r => symbol_char c && symbol_chars r
  end.

(** A symbol: letters, digits and underscores, not starting with a digit. *)
Definition is_symbol (s : string) : bool :=
  match s with
  | EmptyString => false
  | String c _ => negb (is_digit c) && symbol_chars s
  end.

(** A table entry is a reserved slot or a symbol. *)
Definition entry_ok (e : option string) : bool :=
  match e with
  | Some n => is_symbol n
  | None => true
  end.

(** The word an entry occupies in the vector table. *)
Definition slot_word (e : option string) : string :=
  match e with
  | Some n => n
  | None => "0"
  end.

(** The named entries of a table, in order. *)
Definition named (irq_names : list (option string)) : list string :=
  omap id irq_names.

(** The sixteen core slots. *)
Definition core_vector_words : list string :=
  ["_estack"; "Reset_Handler"; "NMI_Handler"; "HardFault_Handler";
   "MemManage_Handler"; "BusFault_Handler"; "UsageFault_Handler";
   "0"; "0"; "0"; "0"; "SVC_Handler"; "DebugMon_Handler"; "0";
   "PendSV_Handler"; "SysTick_Handler"].

(** The core names aliased to the default handler. *)
Definition core_weak_aliases : list string :=
  ["NMI_Handler"; "HardFault_Handler"; "MemManage_Handler";
   "BusFault_Handler"; "UsageFault_Handler"; "SVC_Handler";
   "DebugMon_Handler"; "PendSV_Handler"; "SysTick_Handler"; "SystemInit"].

(** How often the word [name] occurs in a list of words. *)
Definition occurrences (name : string) (ws : list string) : nat :=
  length (filter (fun w => String.eqb name w = true) ws).

(** How often [name] is listed in an interrupt table. *)
Definition listed (name : string) (irq_names : list (option string)) : nat :=
  length (filter (fun e => e = Some name) irq_names).

(** A text that is empty has one empty line: [or_blank ls] are the lines of
    [Py.join Py.NL ls]. *)
Definition or_blank (ls : list string) : list string :=
  match ls with
  | [] => [EmptyString]
  | _ => ls
  end.

(** The lines of [weak_lines]: each element spans two lines. *)
Fixpoint weak_flat (irq_names : list (option string)) : list string :=
  match irq_names with
  | [] => []
  | name :: rest =>
      if truthy name
      then (".weak " +:+ fmt_name name)
           :: (".thumb_set " +:+ fmt_name name +:+ ", Default_Handler")
           :: weak_flat rest
      else weak_flat rest
  end.

(** The lines of the startup template around the two generated parts. *)
Definition startup_template_lines : list string :=
  Eval vm_compute in Py.split_nl (_gen_startup "" []).

Definition startup_head_fixed : list string :=
  Eval vm_compute in firstn 21 (skipn 2 startup_template_lines).

Definition startup_head (cpu : string) : list string :=
  ".syntax unified" :: (".cpu " +:+ cpu) :: startup_head_fixed.

Definition startup_mid : list string :=
  Eval vm_compute in
    firstn (length startup_template_lines - 26) (skipn 24 startup_template_lines).

(** The lines of the generated text. *)
Definition startup_lines (cpu : string) (irq : list (option string)) : list string :=
  startup_head cpu ++ or_blank (vec_lines irq) ++ startup_mid ++
  or_blank (weak_flat irq) ++ [EmptyString].

Definition not_weak (l : string) : bool :=
  match strip_prefix ".weak " l with
  | Some _ => false
  | None => true
  end.

(** *** Linker script *)

(** The sections of the script, in placement order. *)
Definition linker_sections : list string :=
  [".isr_vector"; ".text"; ".init"; ".fini"; ".init_array"; ".fini_array";
   ".data"; ".bss"; "._user_heap_stack"; "/DISCARD/"].

Definition flash_line (flash_k : Z) : string :=
  "  FLASH (rx)  : ORIGIN = 0x08000000, LENGTH = " +:+ Py.str_of_int flash_k +:+ "K".

Definition ram_line (ram_k : Z) : string :=
  "  RAM   (xrw) : ORIGIN = 0x20000000, LENGTH = " +:+ Py.str_of_int ram_k +:+ "K".

(** Everything below the memory map is the same text for all inputs. *)
Definition linker_fixed_lines : list string :=
  Eval vm_compute in tail (tail (tail (Py.split_nl (_gen_linker_script 0 0)))).

End Read.


(** ** States after the methods

    The methods that run no child process are functions of the state; the
    definitions below give the states they end in. *)

Module Post.

(** The chip [set_chip] settles on. *)
Definition resolve (chip_name : string) : ChipInfo :=
  default default_chip_info (_lookup_chip chip_name).

Definition hal_header (family : string) : Path :=
  HAL_DIR // "Inc" // ("stm32" +:+ family +:+ "xx_hal.h").

(** The family allow-list restricted to the files present on disk. *)
Definition present_sources (family : string) (w : World) : list Path :=
  map (path_div (HAL_DIR // "Src"))
      (List.filter (fun f => path_exists w (HAL_DIR // "Src" // f))
                   (default [] (assoc_get family _FAMILY_HAL_FILES))).

Definition present_includes (w : World) : list Path :=
  [HAL_DIR // "Inc"] ++
  List.filter (path_exists w)
    [HAL_DIR // "CMSIS" // "Include"; HAL_DIR // "CMSIS" // "Core" // "Include"].

(** The session after [_find_hal(family)]. *)
Definition find_hal_self (family : string) (w : World) (c : Compiler) : Compiler :=
  if path_exists w (hal_header family) then
    mkCompiler (has_gcc c) (has_specs c) true false
               (present_includes w) (present_sources family w)
               (_chip_info c) (_current_family c)
  else
    mkCompiler (has_gcc c) (has_specs c) false false [] []
               (_chip_info c) (_current_family c).

(** The files [set_chip] writes for a chip. *)
Definition chip_files (info : ChipInfo) (w : World) : gmap Path File :=
  <[BUILD_DIR // "startup.s" :=
      mkFile (clock w)
        (_gen_startup (cpu info)
           (default _F1_IRQ_NAMES (assoc_get (family info) _FAMILY_IRQ_NAMES)))]>
  (<[BUILD_DIR // "link.ld" :=
      mkFile (clock w) (_gen_linker_script (flash_k info) (ram_k info))]>
   (fs w)).

(** The environment after [set_chip(chip_name)]. *)
Definition set_chip_world (chip_name : string) (w : World) : World :=
  mkWorld (chip_files (resolve chip_name) w) (clock w)
          (match _lookup_chip chip_name with
           | Some _ => stdout w
           | None => stdout w ++ [unknown_chip_warning chip_name]
           end)
          (procs w).

(** The session after [set_chip(chip_name)]. *)
Definition set_chip_self (chip_name : string) (w : World) (c : Compiler) : Compiler :=
  let info := resolve chip_name in
  if family_differs (family info) (_current_family c) then
    find_hal_self (family info) (set_chip_world chip_name w)
      (set_current_family (Some (family info)) (set_chip_info (Some info) c))
  else set_chip_info (Some info) c.

(** The state in which [compile(code)] starts the toolchain: the chip is
    set, [main.c] is written, and the two build products are deleted. *)
Definition ensure_chip (s : State) : State :=
  match _chip_info (self s) with
  | None => mkState (set_chip_self DEFAULT_CHIP (world s) (self s))
                    (set_chip_world DEFAULT_CHIP (world s))
  | Some _ => s
  end.

Definition prepared (code : string) (s : State) : State :=
  let s0 := ensure_chip s in
  let w := world s0 in
  mkState (self s0)
    (mkWorld (delete binf (delete elf
                (<[main_c := mkFile (clock w) code]> (fs w))))
             (clock w) (stdout w) (procs w)).

(** The chip of a prepared session. *)
Definition prepared_chip (s : State) : ChipInfo :=
  match _chip_info (self s) with
  | Some ci => ci
  | None => resolve DEFAULT_CHIP
  end.

(** The lines of a diagnostic stream that hold an error marker. *)
Definition marked_lines (err : string) : list string :=
  List.filter (fun l => existsb (fun k => Py.contains k l) error_markers)
              (Py.split_nl err).

(** [msg] is a tail of [err]. *)
Fixpoint is_tail (msg err : string) : bool :=
  String.eqb msg err ||
  match err with
  | EmptyString => false
  | String _ r => is_tail msg r
  end.

(** *** The archive cache *)

(** The archive, the object directory and the object of a source file for
    a family. *)
Definition lib_path_of (family : string) : Path :=
  BUILD_DIR // ("libstm32hal_" +:+ family +:+ ".a").

Definition obj_dir_of (family : string) : Path :=
  BUILD_DIR // ("hal_obj_" +:+ family).

Definition obj_of (family : string) (src : Path) : Path :=
  obj_dir_of family // (path_stem src +:+ ".o").

(** The cached object of a source is fresh: it exists and is not older
    than the source. *)
Definition is_fresh (m : gmap Path File) (src obj : Path) : bool :=
  match m !! obj, m !! src with
  | Some fo, Some fsrc => st_mtime fsrc <=? st_mtime fo
  | _, _ => false
  end.

(** The environment after [p.mkdir(exist_ok=True)]. *)
Definition mkdir_world (p : Path) (w : World) : World :=
  match fs w !! p with
  | Some _ => w
  | None => mkWorld (<[p := mkFile (clock w) ""]> (fs w)) (clock w)
                    (stdout w) (procs w)
  end.

(** The staleness test and the first loop of [precompile_hal] as functions
    of the file system. *)
Definition stale_pure (m : gmap Path File) (src obj : Path) : result bool :=
  match m !! obj with
  | None => Ok true
  | Some fo =>
      match m !! src with
      | Some fsrc => Ok (st_mtime fo <? st_mtime fsrc)
      | None => Raise (FileNotFoundError src)
      end
  end.

Fixpoint scan_pure (m : gmap Path File) (obj_dir : Path) (srcs : list Path)
  : result (list (Path * Path) * list Path) :=
  match srcs with
  | [] => Ok ([], [])
  | src :: rest =>
      let obj := obj_dir // (path_stem src +:+ ".o") in
      match stale_pure m src obj with
      | Ok stale =>
          match scan_pure m obj_dir rest with
          | Ok r => Ok ((if stale : bool then [(src, obj)] else []) ++ fst r,
                        obj :: snd r)
          | Raise e => Raise e
          end
      | Raise e => Raise e
      end
  end.

(** The units a scan selects when every source exists: the sources whose
    object is not fresh. *)
Definition stale_units (m : gmap Path File) (family : string) (srcs : list Path)
  : list (Path * Path) :=
  map (fun src => (src, obj_of family src))
      (List.filter (fun src => negb (is_fresh m src (obj_of family src))) srcs).

(** A source file of the HAL: a path [HAL_DIR / "Src" / f]. *)
Definition is_hal_source (p : Path) : bool :=
  match p with
  | [a; b; c; _] => String.eqb a "workspace" && String.eqb b "hal" && String.eqb c "Src"
  | _ => false
  end.

(** A listed source is in place: it is a HAL source and it exists. *)
Definition source_ok (w : World) (p : Path) : bool :=
  is_hal_source p && path_exists w p.

Definition sources_ok (s : State) : bool :=
  forallb (source_ok (world s)) (hal_src_files (self s)).

(** No listed source carries a time stamp that lies in the future. *)
Definition stamp_ok (w : World) (p : Path) : bool :=
  match fs w !! p with
  | Some f => st_mtime f <=? clock w
  | None => true
  end.

Definition stamps_ok (s : State) : bool :=
  forallb (stamp_ok (world s)) (hal_src_files (self s)).

(** The session can build its archive: chip, HAL and compiler are there. *)
Definition can_build (c : Compiler) : bool :=
  match _chip_info c with
  | Some _ => has_hal c && has_gcc c
  | None => false
  end.

(** [touch]: the source gets the time stamp [t]. *)
Definition touch (src : Path) (t : Z) (s : State) : State :=
  let w := world s in
  mkState (self s)
    (mkWorld (match fs w !! src with
              | Some f => <[src := mkFile t (data f)]> (fs w)
              | None => fs w
              end)
             (clock w) (stdout w) (procs w)).

(** The cache of a session is warm: the object directory and the archive
    exist and every listed source has a fresh object. *)
Definition cache_warm (s : State) : Prop :=
  let family := family_or_f1 (_current_family (self s)) in
  let m := fs (world s) in
  is_Some (m !! obj_dir_of family) /\
  is_Some (m !! lib_path_of family) /\
  forall src, In src (hal_src_files (self s)) ->
              is_fresh m src (obj_of family src) = true.

(** The same as a test that can be run. *)
Definition cache_warm_b (s : State) : bool :=
  let family := family_or_f1 (_current_family (self s)) in
  path_exists (world s) (obj_dir_of family) &&
  path_exists (world s) (lib_path_of family) &&
  forallb (fun src => is_fresh (fs (world s)) src (obj_of family src))
          (hal_src_files (self s)).

(** A toolchain whose runs all succeed. *)
Definition toolchain_succeeds (toolchain : World -> list string -> proc_result) : Prop :=
  forall (w : World) (cmd : list string),
    exists out err : string, toolchain w cmd = Exited 0 out err.

End Post.

(** ** The toolchain methods step by step

    The states between the steps of [compile] and [precompile_hal], used to
    follow these methods through their child processes. *)

Definition is_flag (flag : string) (cmd : list string) : bool :=
  existsb (String.eqb flag) cmd.

Definition cc_of (ci : ChipInfo) (incs : list Path) (u : Path * Path) : list string :=
  hal_cc_cmd ci incs (fst u) (snd u).

Section Steps.

Import Post.

Variable toolchain : World -> list string -> proc_result.
Variable tool_data : World -> list string -> string.

(** The environment after a child process. *)
Definition run_world (cmd : list string) (outputs : list Path) (w : World) : World :=
  mkWorld
    (match toolchain w cmd with
     | Exited 0 _ _ =>
         foldr (fun p m => <[p := mkFile (clock w + 1) (tool_data w cmd)]> m)
               (fs w) outputs
     | _ => fs w
     end)
    (clock w + 1) (stdout w) (procs w ++ [(cmd, fs w)]).

(** The three ways a build ends after the toolchain has been started. *)
Definition finish_compile (p : State) : result CompileResult * State :=
  let c := self p in
  let ci := prepared_chip p in
  let cmd := compile_cmd c ci in
  match run toolchain tool_data cmd (if has_hal c then [elf] else []) p with
  | (Ok (Exited rc _ err), p1) =>
      if rc =? 0 then
        if has_hal c && path_exists (world p1) elf then
          match run toolchain tool_data
                    [ARM_OBJCOPY; "-O"; "binary"; path_str elf; path_str binf]
                    [binf] p1 with
          | (Ok (Exited _ _ _), p2) =>
              let sz := match fs (world p2) !! binf with
                        | Some f => st_size f
                        | None => 0
                        end in
              (Ok (mkResult true ("编译成功 (" +:+ Py.str_of_int sz +:+ "B)")
                            (Some (path_str binf)) sz), p2)
          | (Ok TimeoutExpired, p2) => (Ok (mkResult false "编译超时" None 0), p2)
          | (Ok (RunError e), p2) => (Ok (mkResult false e None 0), p2)
          | (Raise e, p2) => (Raise e, p2)
          end
        else (Ok (mkResult true "语法检查通过(无HAL)" None 0), p1)
      else (Ok (mkResult false (short_error err) None 0), p1)
  | (Ok TimeoutExpired, p1) => (Ok (mkResult false "编译超时" None 0), p1)
  | (Ok (RunError e), p1) => (Ok (mkResult false e None 0), p1)
  | (Raise e, p1) => (Raise e, p1)
  end.

(** The end of [precompile_hal]: the archiver run over the objects that
    exist. *)
Definition archive_objects (family : string) (obj_files : list Path) (s : State)
  : result bool * State :=
  let lib_path := lib_path_of family in
  let existing := List.filter (path_exists (world s)) obj_files in
  if is_nil existing then (Ok false, s) else
  let cmd := hal_ar_cmd lib_path existing in
  let w := run_world cmd [lib_path] (world s) in
  match toolchain (world s) cmd with
  | Exited rc _ err =>
      if rc =? 0 then
        match fs w !! lib_path with
        | Some f =>
            (Ok true,
             mkState (set_has_hal_lib true (self s))
               (mkWorld (fs w) (clock w)
                  (stdout w ++
                   ["  ✅ HAL 静态库已就绪: " +:+ path_name lib_path +:+ " (" +:+
                    Py.str_of_int (st_size f / 1024) +:+ " KB)"])
                  (procs w)))
        | None => (Raise (FileNotFoundError lib_path), mkState (self s) w)
        end
      else
        (Ok false,
         mkState (self s)
           (mkWorld (fs w) (clock w)
              (stdout w ++ ["  ❌ ar 归档失败: " +:+ Py.take 100 err]) (procs w)))
  | TimeoutExpired =>
      (Ok false,
       mkState (self s)
         (mkWorld (fs w) (clock w)
            (stdout w ++ ["  ❌ ar 异常: " +:+ timeout_str cmd 30]) (procs w)))
  | RunError e =>
      (Ok false,
       mkState (self s)
         (mkWorld (fs w) (clock w) (stdout w ++ ["  ❌ ar 异常: " +:+ e]) (procs w)))
  end.

(** The line [precompile_hal] prints before it compiles. *)
Definition progress_line (total stale : nat) : string :=
  "  🔨 预编译 HAL (" +:+ Py.str_of_int (Z.of_nat stale) +:+
  " 个/共 " +:+ Py.str_of_int (Z.of_nat total) +:+ "，" +:+
  Py.str_of_int (Z.of_nat total - Z.of_nat stale) +:+ " 个复用缓存)...".

Definition with_line (line : string) (s : State) : State :=
  mkState (self s)
    (mkWorld (fs (world s)) (clock (world s)) (stdout (world s) ++ [line])
             (procs (world s))).

End Steps.

(** ** Sample sessions

    Concrete disks, toolchains and sessions on which the methods are run. *)

(** A session as [Compiler()] leaves it, on an empty disk. *)
Definition fresh_state : State :=
  mkState (mkCompiler false false false false [] [] None None)
          (mkWorld ∅ 0 [] []).

(** A toolchain whose every run succeeds, writing empty files. *)
Definition tools_ok : World -> list string -> proc_result :=
  fun _ _ => Exited 0 "" "".

Definition tools_out : World -> list string -> string := fun _ _ => "".

(** A disk with the F1 header and one F1 source file. *)
Definition disk_f1 : gmap Path File :=
  <[HAL_DIR // "Inc" // "stm32f1xx_hal.h" := mkFile 1 ""]>
  (<[HAL_DIR // "Src" // "stm32f1xx_hal.c" := mkFile 2 ""]> ∅).

(** The session after [Compiler()] and [check("STM32F103C8")] on that
    disk. *)
Definition session_f1 : State :=
  snd ((__init__;; check tools_ok tools_out (Some "STM32F103C8"))
         (mkState (mkCompiler false false false false [] [] None None)
                  (mkWorld disk_f1 100 [] []))).

(** A disk with the F1 header and none of the F1 source files. *)
Definition disk_header_only : gmap Path File :=
  <[HAL_DIR // "Inc" // "stm32f1xx_hal.h" := mkFile 1 ""]> ∅.

Definition session_header_only : State :=
  snd ((__init__;; check tools_ok tools_out (Some "STM32F103C8"))
         (mkState (mkCompiler false false false false [] [] None None)
                  (mkWorld disk_header_only 100 [] []))).

(** A toolchain whose every run fails with the diagnostics [err]. *)
Definition tools_fail (err : string) : World -> list string -> proc_result :=
  fun _ _ => Exited 1 "" err.

(** A session with a compiler and no HAL, on an empty disk. *)
Definition session_gcc_only : State :=
  snd ((__init__;; check tools_ok tools_out None)
         (mkState (mkCompiler false false false false [] [] None None)
                  (mkWorld ∅ 100 [] []))).

(** Diagnostics of a failing link, and diagnostics without any marker. *)
Definition link_errors : string :=
  "main.c:3:5: error: unknown type name 'foo'" +:+ Py.NL +:+
  "collect2: error: ld returned 1 exit status".

Definition noise : string := "x" +:+ Py.mul "y" 1000.

(** The session after [Compiler()] and [set_chip("STM32F103C8")] on the
    disk with one F1 source, with the compiler found and no archive yet. *)
Definition session_cold : State :=
  snd ((__init__;; set_chip "STM32F103C8";; modify_self (set_has_gcc true))
         (mkState (mkCompiler false false false false [] [] None None)
                  (mkWorld disk_f1 100 [] []))).

(** The one F1 source of [disk_f1]. *)
Definition hal_c : Path := HAL_DIR // "Src" // "stm32f1xx_hal.c".


(** A disk like [disk_f1] whose source carries a time stamp from the
    future, and the session after [Compiler()] and
    [set_chip("STM32F103C8")] on it, with the compiler found. *)
Definition disk_future : gmap Path File :=
  <[HAL_DIR // "Inc" // "stm32f1xx_hal.h" := mkFile 1 ""]>
  (<[HAL_DIR // "Src" // "stm32f1xx_hal.c" := mkFile 1000 ""]> ∅).

Definition session_future : State :=
  snd ((__init__;; set_chip "STM32F103C8";; modify_self (set_has_gcc true))
         (mkState (mkCompiler false false false false [] [] None None)
                  (mkWorld disk_future 100 [] []))).

(** A compiler that works and an object-copy tool that fails. *)
Definition tools_objcopy_fails : World -> list string -> proc_result :=
  fun _ cmd =>
    if String.eqb (hd "" cmd) ARM_OBJCOPY then Exited 1 "" "" else Exited 0 "" "".


(** ** Further notions used by the properties of the engine *)

Module More.

Import Post.

(** The name [_lookup_chip] works on:
    [chip_name.upper().replace("-", "").replace(" ", "")]. *)
Definition normalized (chip_name : string) : string :=
  Py.remove_char " " (Py.remove_char "-" (Py.upper chip_name)).

(** The row of the first table key that is a prefix of [name]. *)
Definition prefix_row (name : string) : option ChipInfo :=
  snd <$> find (fun kv => Py.startswith name (fst kv)) CHIP_DB.

(** The row of the first table key that starts with the family prefix of
    [name], when [name] has one. *)
Definition family_row (name : string) : option ChipInfo :=
  match re_family_prefix name with
  | Some prefix => snd <$> find (fun kv => Py.startswith (fst kv) prefix) CHIP_DB
  | None => None
  end.

(** The keys of the chip table, in the order of the table. *)
Definition keys : list string := map fst CHIP_DB.

(** *** The startup unit against the linker script *)

(** The symbol a line [  ldr rN, =sym] of the startup code loads. *)
Definition ldr_symbol (l : string) : option string :=
  match Read.strip_prefix "  ldr r" l with
  | Some (String _ rest) => Read.strip_prefix ", =" rest
  | _ => None
  end.

(** The symbols the literal loads of a unit refer to, in order. *)
Definition loaded_symbols (asm : string) : list string :=
  omap ldr_symbol (Py.split_nl asm).

(** The blank-separated pieces of a line. *)
Fixpoint pieces (s : string) : list string :=
  match s with
  | EmptyString => [EmptyString]
  | String c r =>
      if Ascii.eqb c " " then EmptyString :: pieces r
      else match pieces r with
           | w :: ws => String c w :: ws
           | [] => [String c EmptyString]
           end
  end.

(** The pieces that stand before a piece [=]. *)
Fixpoint assigned_in (ws : list string) : list string :=
  match ws with
  | a :: (b :: _) as rest =>
      if String.eqb b "=" then a :: assigned_in rest else assigned_in rest
  | _ => []
  end.

(** The names a linker script assigns a value to. *)
Definition assigned_symbols (script : string) : list string :=
  flat_map (fun l => assigned_in (pieces l)) (Py.split_nl script).

(** *** The session *)

(** The family the cache paths are made of: [self._current_family or "f1"]. *)
Definition family_of (c : Compiler) : string :=
  family_or_f1 (_current_family c).

(** The files of a family's allow-list as paths, present or not. *)
Definition allowed_sources (family : string) : list Path :=
  map (path_div (HAL_DIR // "Src"))
      (default [] (assoc_get family _FAMILY_HAL_FILES)).

(** No path occurs twice in a list. *)
Definition nodup_b (l : list (list string)) : bool := bool_decide (NoDup l).

(** The current family is the family of the current chip. *)
Definition chip_family_ok (c : Compiler) : bool :=
  match _chip_info c, _current_family c with
  | Some ci, Some f => String.eqb (family ci) f
  | Some _, None => false
  | None, _ => true
  end.

(** A session without a HAL lists no include directory and no source. *)
Definition no_hal_ok (c : Compiler) : bool :=
  has_hal c || (is_nil (hal_inc_dirs c) && is_nil (hal_src_files c)).

(** The archive flag is set only when the session can build and the archive
    of its family is on disk. *)
Definition lib_flag_ok (s : State) : bool :=
  implb (has_hal_lib (self s))
        (can_build (self s) &&
         path_exists (world s) (lib_path_of (family_of (self s)))).

(** The listed sources are in place, each listed once, and no two of them
    are compiled into the same object. *)
Definition listing_ok (s : State) : bool :=
  sources_ok s &&
  nodup_b (hal_src_files (self s)) &&
  nodup_b (map (obj_of (family_of (self s))) (hal_src_files (self s))).

(** What holds of a session between the calls of its methods. *)
Definition session_ok (s : State) : bool :=
  chip_family_ok (self s) && no_hal_ok (self s) && lib_flag_ok s && listing_ok s.

(** *** What a method does to the disk *)

(** From the file system [m] to [m']: every path is left as it was, or is
    one of [W] and exists afterwards, or is one of [D]. *)
Definition touches (W D : Path -> Prop) (m m' : gmap Path File) : Prop :=
  forall p : Path,
    m' !! p = m !! p \/ (W p /\ is_Some (m' !! p)) \/ D p.

Definition no_path (p : Path) : Prop := False.

(** The two files [set_chip] generates. *)
Definition generated (p : Path) : Prop :=
  p = BUILD_DIR // "link.ld" \/ p = BUILD_DIR // "startup.s".

(** The two products of [compile]. *)
Definition products (p : Path) : Prop := p = elf \/ p = binf.

(** The cache of a session: the object directory and the archive of its
    family, and the objects of its listed sources. *)
Definition cache_paths (c : Compiler) (p : Path) : Prop :=
  p = obj_dir_of (family_of c) \/ p = lib_path_of (family_of c) \/
  exists src : Path, In src (hal_src_files c) /\ p = obj_of (family_of c) src.

Definition ok_state (s : State) : Prop := session_ok s = true.

(** A method keeps a property of the state, however it ends. *)
Definition preserves {A : Type} (I : State -> Prop) (m : M A) : Prop :=
  forall s : State, I s -> I (snd (m s)).

(** *** Following a method through its steps *)

(** From [s] the method [m] ends with a value and a state that satisfy
    [Q], or raises an exception in a state that satisfy [E]. *)
Definition wp {A : Type} (m : M A) (Q : A -> State -> Prop)
    (E : exn -> State -> Prop) (s : State) : Prop :=
  match m s with
  | (Ok a, s') => Q a s'
  | (Raise e, s') => E e s'
  end.

(** [r.returncode == 0] for a process that ended. *)
Definition is_exit0 (r : proc_result) : bool :=
  match r with
  | Exited rc _ _ => rc =? 0
  | _ => false
  end.

(** The command of the compiler probe of [check]. *)
Definition version_probe : list string := [ARM_GCC; "--version"].

(** The session in which [check] starts its version probe: with the chip
    set when a name is given or when no chip has been set before. *)
Definition probe_state (chip_name : option string) (s : State) : State :=
  match chip_name with
  | Some (String a r) => snd (set_chip (String a r) s)
  | _ => match _chip_info (self s) with
         | None => snd (set_chip DEFAULT_CHIP s)
         | Some _ => s
         end
  end.

(** *** More sample sessions *)

(** A state: the session [s] after one of its files has been removed. *)
Definition without (p : Path) (s : State) : State :=
  mkState (self s)
    (mkWorld (delete p (fs (world s))) (clock (world s)) (stdout (world s))
             (procs (world s))).

(** The session with its F1 archive built, after its one source has been
    removed from the disk. *)
Definition session_lost_source : State :=
  Eval vm_compute in without hal_c session_f1.

End More.
(** ** Facts about the string primitives *)

Section StringFacts.

Import Read.

Lemma append_assoc (a b c : string) : (a +:+ b) +:+ c = a +:+ (b +:+ c).
Proof. induction a as [|x a IH]; simpl; [reflexivity | now f_equal]. Qed.

Lemma append_nil_r (a : string) : a +:+ "" = a.
Proof. induction a as [|x a IH]; simpl; [reflexivity | now f_equal]. Qed.

Lemma no_nl_app (a b : string) : no_nl (a +:+ b) = no_nl a && no_nl b.
Proof.
  induction a as [|x a IH]; simpl; [reflexivity|].
  rewrite IH. now rewrite andb_assoc.
Qed.

Lemma split_nl_nonempty (s : string) : Py.split_nl s <> [].
Proof.
  induction s as [|c r IH]; simpl; [discriminate|].
  destruct (Ascii.eqb c Py.nl); [discriminate|].
  destruct (Py.split_nl r); discriminate.
Qed.

(** A newline-free prefix stays on the first line. *)
Lemma split_nl_app (a b : string) :
  no_nl a = true ->
  Py.split_nl (a +:+ b) =
  match Py.split_nl b with
  | l :: ls => (a +:+ l) :: ls
  | [] => [a]
  end.
Proof.
  induction a as [|c a IH]; simpl; intros H.
  - destruct (Py.split_nl b) eqn:E; [|reflexivity].
    now apply split_nl_nonempty in E.
  - apply andb_true_iff in H as [Hc Ha].
    apply negb_true_iff in Hc. rewrite Hc, (IH Ha).
    destruct (Py.split_nl b); reflexivity.
Qed.

Lemma split_nl_line (a b : string) :
  no_nl a = true ->
  Py.split_nl (a +:+ String Py.nl b) = a :: Py.split_nl b.
Proof.
  intros H. rewrite (split_nl_app _ _ H). simpl.
  now rewrite append_nil_r.
Qed.

Lemma no_nl_uint (d : Decimal.uint) : no_nl (NilEmpty.string_of_uint d) = true.
Proof. induction d; simpl; auto. Qed.

Lemma no_nl_str_of_int (z : Z) : no_nl (Py.str_of_int z) = true.
Proof.
  unfold Py.str_of_int. destruct (Z.to_int z); simpl; apply no_nl_uint.
Qed.

Lemma strip_last_app (c : ascii) (s : string) :
  Read.strip_last c (s +:+ String c "") = Some s.
Proof.
  induction s as [|d r IH]; simpl.
  - now rewrite Ascii.eqb_refl.
  - rewrite IH. destruct r; reflexivity.
Qed.

End StringFacts.

Section LinkerScript.

Import Read.

Lemma split_nl_glue (a b : string) :
  Py.split_nl (a +:+ b) = glue (Py.split_nl a) (Py.split_nl b).
Proof.
  induction a as [|c a IH]; simpl.
  - destruct (Py.split_nl b) eqn:E; [|reflexivity].
    now apply split_nl_nonempty in E.
  - destruct (Ascii.eqb c Py.nl).
    + rewrite IH. destruct (Py.split_nl a) eqn:E; [|reflexivity].
      now apply split_nl_nonempty in E.
    + rewrite IH. destruct (Py.split_nl a) as [|x [|y t]] eqn:E.
      * now apply split_nl_nonempty in E.
      * simpl. destruct (Py.split_nl b); reflexivity.
      * reflexivity.
Qed.

Lemma gen_linker_script_lines (flash_k ram_k : Z) :
  Py.split_nl (_gen_linker_script flash_k ram_k) =
  "MEMORY {" :: flash_line flash_k :: ram_line ram_k :: linker_fixed_lines.
Proof.
  unfold _gen_linker_script.
  rewrite split_nl_glue.
  rewrite (split_nl_app _ _ (no_nl_str_of_int flash_k)).
  rewrite split_nl_glue.
  rewrite (split_nl_app _ _ (no_nl_str_of_int ram_k)).
  reflexivity.
Qed.

Lemma ld_length_flash_line (flash_k : Z) :
  Read.ld_length_bytes (flash_line flash_k) = Some (flash_k * 1024).
Proof.
  unfold Read.ld_length_bytes, flash_line. simpl.
  rewrite strip_last_app. simpl.
  unfold Py.str_of_int. rewrite NilEmpty.isi. simpl.
  now rewrite DecimalZ.of_to.
Qed.

Lemma ld_length_ram_line (ram_k : Z) :
  Read.ld_length_bytes (ram_line ram_k) = Some (ram_k * 1024).
Proof.
  unfold Read.ld_length_bytes, ram_line. simpl.
  rewrite strip_last_app. simpl.
  unfold Py.str_of_int. rewrite NilEmpty.isi. simpl.
  now rewrite DecimalZ.of_to.
Qed.

End LinkerScript.

(** ** Facts about the startup text *)

Section StartupFacts.

Import Read.

Lemma symbol_char_plain (c : ascii) :
  symbol_char c = true ->
  Ascii.eqb c Py.nl = false /\ Ascii.eqb c "," = false /\
  Ascii.eqb c space = false /\ Ascii.eqb c "/" = false.
Proof.
  destruct c as [[] [] [] [] [] [] [] []]; vm_compute; intros H;
    try discriminate H; repeat split.
Qed.

Lemma symbol_no_nl (n : string) : symbol_chars n = true -> no_nl n = true.
Proof.
  induction n as [|c r IH]; simpl; [reflexivity|]. intros H.
  apply andb_true_iff in H as [Hc Hr].
  destruct (symbol_char_plain c Hc) as (-> & _). simpl. auto.
Qed.

Lemma symbol_cut_comment (n : string) : symbol_chars n = true -> cut_comment n = n.
Proof.
  induction n as [|c r IH]; simpl; [reflexivity|]. intros H.
  apply andb_true_iff in H as [Hc Hr].
  destruct (symbol_char_plain c Hc) as (_ & _ & _ & ->). simpl.
  now rewrite IH.
Qed.

Lemma symbol_split_comma (n : string) : symbol_chars n = true -> split_comma n = [n].
Proof.
  induction n as [|c r IH]; simpl; [reflexivity|]. intros H.
  apply andb_true_iff in H as [Hc Hr].
  destruct (symbol_char_plain c Hc) as (_ & -> & _ & _).
  now rewrite IH.
Qed.

Lemma symbol_until_space (n : string) : symbol_chars n = true -> until_char space n = n.
Proof.
  induction n as [|c r IH]; simpl; [reflexivity|]. intros H.
  apply andb_true_iff in H as [Hc Hr].
  destruct (symbol_char_plain c Hc) as (_ & _ & -> & _).
  now rewrite IH.
Qed.

Lemma symbol_first_token (n : string) : symbol_chars n = true -> first_token n = n.
Proof.
  intros H. unfold first_token.
  destruct n as [|c r]; [reflexivity|].
  simpl drop_spaces. pose proof H as H'. simpl in H'.
  apply andb_true_iff in H' as [Hc _].
  destruct (symbol_char_plain c Hc) as (_ & _ & -> & _).
  now apply symbol_until_space.
Qed.

Lemma is_symbol_chars (n : string) : is_symbol n = true -> symbol_chars n = true.
Proof.
  destruct n as [|c r]; [discriminate|]. unfold is_symbol.
  intros H. now apply andb_true_iff in H as [_ H].
Qed.

Lemma is_symbol_truthy (n : string) : is_symbol n = true -> truthy (Some n) = true.
Proof. destruct n; [discriminate | reflexivity]. Qed.

(** The vector-table line of an entry holds exactly the entry's word. *)
Lemma vec_line_words (e : option string) :
  entry_ok e = true ->
  word_directive (vec_line e) <> None /\
  line_words (vec_line e) = [slot_word e] /\
  no_nl (vec_line e) = true.
Proof.
  intros He. destruct e as [n|].
  - simpl in He. pose proof (is_symbol_chars _ He) as Hc.
    unfold vec_line. rewrite (is_symbol_truthy _ He).
    unfold line_words, word_directive. simpl.
    rewrite (symbol_cut_comment _ Hc), (symbol_split_comma _ Hc). simpl.
    rewrite (symbol_first_token _ Hc).
    repeat split; [discriminate|]. now apply symbol_no_nl.
  - repeat split. discriminate.
Qed.

(** Normal form of a concatenation: literals pushed inwards, nesting to the
    right. *)
Ltac str_norm := repeat (progress (simpl; rewrite ?append_assoc)).

Lemma join_cons (sep x : string) (xs : list string) :
  xs <> [] -> Py.join sep (x :: xs) = x +:+ sep +:+ Py.join sep xs.
Proof. destruct xs; [congruence | reflexivity]. Qed.

Lemma join_app (sep : string) (a b : list string) :
  a <> [] -> b <> [] ->
  Py.join sep (a ++ b) = Py.join sep a +:+ sep +:+ Py.join sep b.
Proof.
  intros Ha Hb. induction a as [|x a IH]; [congruence|].
  destruct a as [|y a].
  - simpl app. now rewrite join_cons.
  - change ((x :: y :: a) ++ b) with (x :: ((y :: a) ++ b)).
    rewrite join_cons by discriminate. rewrite IH by discriminate.
    rewrite (join_cons sep x (y :: a)) by discriminate.
    now rewrite !append_assoc.
Qed.

Lemma join_or_blank (sep : string) (ls : list string) :
  Py.join sep (or_blank ls) = Py.join sep ls.
Proof. destruct ls; reflexivity. Qed.

Lemma or_blank_nonempty (ls : list string) : or_blank ls <> [].
Proof. destruct ls; discriminate. Qed.

(** Splitting a joined list of newline-free lines gives the lines back. *)
Lemma split_nl_join (ls : list string) :
  ls <> [] -> Forall (fun l => no_nl l = true) ls ->
  Py.split_nl (Py.join Py.NL ls) = ls.
Proof.
  induction ls as [|x ls IH]; [congruence|]. intros _ H.
  apply Forall_cons in H as [Hx Hls].
  destruct ls as [|y ls].
  - simpl. rewrite <- (append_nil_r x) at 1.
    rewrite (split_nl_app _ _ Hx). simpl. now rewrite append_nil_r.
  - rewrite join_cons by discriminate. unfold Py.NL.
    change (x +:+ String Py.nl "" +:+ Py.join (String Py.nl "") (y :: ls))
      with (x +:+ String Py.nl (Py.join Py.NL (y :: ls))).
    rewrite (split_nl_line _ _ Hx). f_equal. now apply IH.
Qed.

(** The two-line elements of [weak_lines], joined, are the joined lines of
    [weak_flat]. *)
Lemma weak_lines_nil_iff (irq : list (option string)) :
  weak_lines irq = [] <-> weak_flat irq = [].
Proof.
  induction irq as [|e irq IH]; simpl; [tauto|].
  destruct (truthy e); [split; discriminate | exact IH].
Qed.

Lemma join_weak_lines (irq : list (option string)) :
  Py.join Py.NL (weak_lines irq) = Py.join Py.NL (weak_flat irq).
Proof.
  induction irq as [|e irq IH]; simpl; [reflexivity|].
  destruct (truthy e); [|exact IH].
  destruct (weak_lines irq) as [|w ws] eqn:Ew.
  - apply weak_lines_nil_iff in Ew. rewrite Ew. now str_norm.
  - assert (Hf : weak_flat irq <> []).
    { intros Hf. apply weak_lines_nil_iff in Hf. congruence. }
    rewrite join_cons by discriminate. rewrite IH.
    rewrite join_cons by discriminate.
    rewrite (join_cons _ _ _ Hf).
    unfold Py.NL. now str_norm.
Qed.

Lemma weak_flat_no_nl (irq : list (option string)) :
  forallb entry_ok irq = true ->
  Forall (fun l => no_nl l = true) (weak_flat irq).
Proof.
  induction irq as [|e irq IH]; simpl; [constructor|]. intros H.
  apply andb_true_iff in H as [He Hr].
  destruct e as [n|]; simpl; [|auto].
  simpl in He. pose proof (symbol_no_nl _ (is_symbol_chars _ He)) as Hn.
  destruct n as [|c r]; [discriminate He|].
  repeat constructor; [| |auto].
  - change (no_nl (".weak " +:+ String c r) = true).
    rewrite no_nl_app. now rewrite Hn.
  - change (no_nl (".thumb_set " +:+ String c r +:+ ", Default_Handler") = true).
    rewrite !no_nl_app. now rewrite Hn.
Qed.

Lemma vec_lines_no_nl (irq : list (option string)) :
  forallb entry_ok irq = true ->
  Forall (fun l => no_nl l = true) (vec_lines irq).
Proof.
  induction irq as [|e irq IH]; simpl; [constructor|]. intros H.
  apply andb_true_iff in H as [He Hr].
  constructor; [|auto]. now apply vec_line_words.
Qed.

Lemma gen_startup_join (cpu : string) (irq : list (option string)) :
  _gen_startup cpu irq = Py.join Py.NL (startup_lines cpu irq).
Proof.
  unfold startup_lines, _gen_startup.
  rewrite (join_app _ (startup_head cpu)); [|discriminate|].
  2:{ pose proof (or_blank_nonempty (vec_lines irq)).
      destruct (or_blank (vec_lines irq)); [congruence | discriminate]. }
  rewrite (join_app _ (or_blank (vec_lines irq)));
    [|apply or_blank_nonempty | discriminate].
  rewrite (join_app _ startup_mid); [|discriminate|].
  2:{ pose proof (or_blank_nonempty (weak_flat irq)).
      destruct (or_blank (weak_flat irq)); [congruence | discriminate]. }
  rewrite (join_app _ (or_blank (weak_flat irq)));
    [|apply or_blank_nonempty | discriminate].
  rewrite !join_or_blank, join_weak_lines.
  unfold Py.NL, Py.DQ. now str_norm.
Qed.

Lemma startup_lines_no_nl (cpu : string) (irq : list (option string)) :
  no_nl cpu = true -> forallb entry_ok irq = true ->
  Forall (fun l => no_nl l = true) (startup_lines cpu irq).
Proof.
  intros Hcpu Hirq. unfold startup_lines.
  repeat apply Forall_app_2.
  - unfold startup_head. constructor; [reflexivity|].
    constructor; [simpl; exact Hcpu|].
    apply Forall_forall. intros l Hl.
    revert l Hl. apply Forall_forall. now repeat constructor.
  - pose proof (vec_lines_no_nl irq Hirq).
    destruct (vec_lines irq); [now repeat constructor | assumption].
  - now repeat constructor.
  - pose proof (weak_flat_no_nl irq Hirq).
    destruct (weak_flat irq); [now repeat constructor | assumption].
  - now repeat constructor.
Qed.

Lemma gen_startup_lines (cpu : string) (irq : list (option string)) :
  no_nl cpu = true -> forallb entry_ok irq = true ->
  Py.split_nl (_gen_startup cpu irq) = startup_lines cpu irq.
Proof.
  intros Hcpu Hirq. rewrite gen_startup_join.
  apply split_nl_join; [|now apply startup_lines_no_nl].
  discriminate.
Qed.

(** The words of the generated lines stop at the blank line that follows
    them. *)
Lemma take_words_vec_lines (irq : list (option string)) (rest : list string) :
  forallb entry_ok irq = true ->
  take_words (vec_lines irq ++ EmptyString :: rest) = map slot_word irq.
Proof.
  induction irq as [|e irq IH]; simpl; [reflexivity|]. intros H.
  apply andb_true_iff in H as [He Hr].
  destruct (vec_line_words e He) as (Hd & Hw & _).
  destruct (word_directive (vec_line e)); [|congruence].
  rewrite Hw. simpl. f_equal. now apply IH.
Qed.

Lemma vector_table_lines (cpu : string) (irq : list (option string)) :
  forallb entry_ok irq = true ->
  take_words (drop_until "g_pfnVectors:" (startup_lines cpu irq)) =
  core_vector_words ++ map slot_word irq.
Proof.
  intros H. unfold startup_lines.
  change (take_words (drop_until "g_pfnVectors:"
            (startup_head cpu ++ or_blank (vec_lines irq) ++ startup_mid ++
             or_blank (weak_flat irq) ++ [EmptyString])))
    with (core_vector_words ++
          take_words (or_blank (vec_lines irq) ++ startup_mid ++
                      or_blank (weak_flat irq) ++ [EmptyString])).
  f_equal. destruct irq as [|e irq]; [reflexivity|].
  change (or_blank (vec_lines (e :: irq))) with (vec_lines (e :: irq)).
  now apply take_words_vec_lines.
Qed.

Lemma weak_alias_lines_cons (l : string) (rest : list string) :
  weak_alias_lines (l :: rest) =
  match strip_prefix ".weak " l, rest with
  | Some n, l2 :: _ =>
      if String.eqb l2 (".thumb_set " +:+ n +:+ ", Default_Handler")
      then n :: weak_alias_lines rest
      else weak_alias_lines rest
  | _, _ => weak_alias_lines rest
  end.
Proof. reflexivity. Qed.

Lemma weak_alias_lines_skip (ls rest : list string) :
  forallb not_weak ls = true ->
  weak_alias_lines (ls ++ rest) = weak_alias_lines rest.
Proof.
  induction ls as [|l ls IH]; [reflexivity|]. intros H.
  cbn [forallb] in H. apply andb_true_iff in H as [Hl Hr].
  change ((l :: ls) ++ rest) with (l :: (ls ++ rest)).
  rewrite weak_alias_lines_cons. unfold not_weak in Hl.
  destruct (strip_prefix ".weak " l); [discriminate|]. auto.
Qed.

Lemma vec_lines_not_weak (irq : list (option string)) :
  forallb not_weak (or_blank (vec_lines irq)) = true.
Proof.
  destruct irq as [|e0 irq0]; [reflexivity|].
  change (or_blank (vec_lines (e0 :: irq0))) with (vec_lines (e0 :: irq0)).
  generalize (e0 :: irq0). intros irq.
  induction irq as [|e irq IH]; simpl; [reflexivity|].
  rewrite IH, andb_true_r. unfold vec_line. now destruct (truthy e).
Qed.

Lemma weak_alias_lines_flat (irq : list (option string)) (rest : list string) :
  forallb entry_ok irq = true ->
  weak_alias_lines (weak_flat irq ++ rest) = named irq ++ weak_alias_lines rest.
Proof.
  induction irq as [|e irq IH]; simpl; [reflexivity|]. intros H.
  apply andb_true_iff in H as [He Hr].
  destruct e as [n|]; [|now apply IH].
  simpl in He. rewrite (is_symbol_truthy _ He).
  unfold named. simpl. fold (named irq). rewrite <- (IH Hr).
  change (weak_alias_lines
            (((".weak " +:+ n) :: (".thumb_set " +:+ n +:+ ", Default_Handler")
              :: weak_flat irq) ++ rest))
    with (match strip_prefix ".weak " (".weak " +:+ n) with
          | Some m =>
              if String.eqb (".thumb_set " +:+ n +:+ ", Default_Handler")
                            (".thumb_set " +:+ m +:+ ", Default_Handler")
              then m :: weak_alias_lines
                     ((".thumb_set " +:+ n +:+ ", Default_Handler")
                      :: weak_flat irq ++ rest)
              else weak_alias_lines
                     ((".thumb_set " +:+ n +:+ ", Default_Handler")
                      :: weak_flat irq ++ rest)
          | None => weak_alias_lines
                     ((".thumb_set " +:+ n +:+ ", Default_Handler")
                      :: weak_flat irq ++ rest)
          end).
  simpl strip_prefix. rewrite String.eqb_refl. f_equal.
Qed.

Lemma weak_aliases_lines (cpu : string) (irq : list (option string)) :
  forallb entry_ok irq = true ->
  weak_alias_lines (startup_lines cpu irq) = core_weak_aliases ++ named irq.
Proof.
  intros H. unfold startup_lines.
  rewrite weak_alias_lines_skip by reflexivity.
  rewrite weak_alias_lines_skip by apply vec_lines_not_weak.
  change (weak_alias_lines (startup_mid ++ or_blank (weak_flat irq) ++ [EmptyString]))
    with (core_weak_aliases ++
          weak_alias_lines (or_blank (weak_flat irq) ++ [EmptyString])).
  f_equal.
  assert (Hb : weak_alias_lines (or_blank (weak_flat irq) ++ [EmptyString]) =
               weak_alias_lines (weak_flat irq ++ [EmptyString])).
  { destruct (weak_flat irq); reflexivity. }
  rewrite Hb, (weak_alias_lines_flat irq _ H).
  change (weak_alias_lines [EmptyString]) with (@nil string).
  now rewrite app_nil_r.
Qed.

(** The vector table and the weak aliases of every generated startup unit. *)
Lemma gen_startup_vector_table (cpu : string) (irq : list (option string)) :
  no_nl cpu = true -> forallb entry_ok irq = true ->
  vector_table (_gen_startup cpu irq) = core_vector_words ++ map slot_word irq.
Proof.
  intros Hcpu Hirq. unfold vector_table.
  rewrite (gen_startup_lines _ _ Hcpu Hirq). now apply vector_table_lines.
Qed.

Lemma gen_startup_weak_aliases (cpu : string) (irq : list (option string)) :
  no_nl cpu = true -> forallb entry_ok irq = true ->
  weak_aliases (_gen_startup cpu irq) = core_weak_aliases ++ named irq.
Proof.
  intros Hcpu Hirq. unfold weak_aliases.
  rewrite (gen_startup_lines _ _ Hcpu Hirq). now apply weak_aliases_lines.
Qed.

Lemma symbol_not_zero (name : string) :
  is_symbol name = true -> String.eqb name "0" = false.
Proof.
  destruct name as [|c r]; [discriminate|]. unfold is_symbol. intros H.
  apply andb_true_iff in H as [Hd _]. apply negb_true_iff in Hd.
  apply String.eqb_neq. intros E. injection E as -> ->. discriminate Hd.
Qed.

Lemma occurrences_cons (name w : string) (ws : list string) :
  occurrences name (w :: ws) =
  ((if String.eqb name w then 1 else 0) + occurrences name ws)%nat.
Proof.
  unfold occurrences. rewrite filter_cons.
  destruct (decide (String.eqb name w = true)) as [E|E].
  - now rewrite E.
  - apply not_true_is_false in E. now rewrite E.
Qed.

Lemma listed_cons (name : string) (e : option string) (irq : list (option string)) :
  listed name (e :: irq) =
  ((match e with Some n => if String.eqb name n then 1 else 0 | None => 0 end)
   + listed name irq)%nat.
Proof.
  unfold listed. rewrite filter_cons.
  destruct e as [n|].
  - destruct (String.eqb_spec name n) as [->|Hn].
    + now rewrite decide_True.
    + rewrite decide_False; [reflexivity | congruence].
  - now rewrite decide_False.
Qed.

Lemma occurrences_slot_words (name : string) (irq : list (option string)) :
  is_symbol name = true ->
  occurrences name (map slot_word irq) = listed name irq.
Proof.
  intros Hn. induction irq as [|e irq IH]; [reflexivity|].
  cbn [map]. rewrite occurrences_cons, listed_cons, IH.
  destruct e as [n|]; [reflexivity|].
  simpl slot_word. now rewrite (symbol_not_zero _ Hn).
Qed.

Lemma occurrences_named (name : string) (irq : list (option string)) :
  occurrences name (named irq) = listed name irq.
Proof.
  induction irq as [|e irq IH]; [reflexivity|].
  rewrite listed_cons. destruct e as [n|].
  - change (named (Some n :: irq)) with (n :: named irq).
    now rewrite occurrences_cons, IH.
  - exact IH.
Qed.

End StartupFacts.

(** ** Facts about the chip resolver *)

Section LookupFacts.

Lemma upper_app (a b : string) : Py.upper (a +:+ b) = Py.upper a +:+ Py.upper b.
Proof. induction a as [|c a IH]; simpl; [reflexivity | now rewrite IH]. Qed.

Lemma remove_char_app (c : ascii) (a b : string) :
  Py.remove_char c (a +:+ b) = Py.remove_char c a +:+ Py.remove_char c b.
Proof.
  induction a as [|d a IH]; simpl; [reflexivity|].
  destruct (Ascii.eqb d c); simpl; now rewrite IH.
Qed.

(** Normalisation works character by character. *)
Lemma normalize_app (a b : string) :
  Py.remove_char " " (Py.remove_char "-" (Py.upper (a +:+ b))) =
  Py.remove_char " " (Py.remove_char "-" (Py.upper a)) +:+
  Py.remove_char " " (Py.remove_char "-" (Py.upper b)).
Proof. now rewrite upper_app, !remove_char_app. Qed.

(** Whatever follows a key of the table, the cascade ends at that key's
    row: by the exact match when nothing follows, by suffix stripping when
    one or two characters follow, by the prefix scan otherwise. *)
Lemma lookup_chip_key_suffix (key suffix : string) (info : ChipInfo) :
  In (key, info) CHIP_DB ->
  _lookup_chip (key +:+ suffix) = Some info.
Proof.
  intros Hin. unfold _lookup_chip. cbv zeta. rewrite normalize_app.
  generalize (Py.remove_char " " (Py.remove_char "-" (Py.upper suffix))).
  intros s. unfold CHIP_DB in Hin. simpl In in Hin.
  repeat (destruct Hin as [E | Hin];
          [injection E as <- <-;
           destruct s as [|a [|b [|c t]]]; vm_compute; reflexivity|]).
  contradiction.
Qed.

End LookupFacts.

(** ** Facts about the methods *)

Section EngineFacts.

Import Post.

#[local] Arguments _gen_startup : simpl never.
#[local] Arguments _gen_linker_script : simpl never.
#[local] Arguments _lookup_chip : simpl never.
#[local] Arguments unknown_chip_warning : simpl never.

Lemma find_hal_run (family : string) (s : State) :
  _find_hal family s =
  (Ok tt, mkState (find_hal_self family (world s) (self s)) (world s)).
Proof.
  destruct s as [c w]. unfold _find_hal, find_hal_self, hal_header.
  unfold mbind, M_bind, modify_self, get_world. simpl.
  match goal with
  | |- context [path_exists w ?p] => destruct (path_exists w p)
  end; reflexivity.
Qed.

Lemma set_chip_run (chip_name : string) (s : State) :
  set_chip chip_name s =
  (Ok (resolve chip_name),
   mkState (set_chip_self chip_name (world s) (self s))
           (set_chip_world chip_name (world s))).
Proof.
  destruct s as [c w]. unfold set_chip, set_chip_self, set_chip_world, resolve.
  unfold mbind, M_bind at 1 2 3 4 5 6 7.
  destruct (_lookup_chip chip_name) as [info|]; simpl.
  - destruct (family_differs (family info) (_current_family c)); simpl.
    + rewrite find_hal_run. reflexivity.
    + reflexivity.
  - destruct (family_differs "f1" (_current_family c)); simpl.
    + rewrite find_hal_run. reflexivity.
    + reflexivity.
Qed.

Lemma set_chip_self_chip_info (chip_name : string) (w : World) (c : Compiler) :
  _chip_info (set_chip_self chip_name w c) = Some (resolve chip_name).
Proof.
  unfold set_chip_self, find_hal_self.
  destruct (family_differs _ _); [|reflexivity].
  destruct (path_exists _ _); reflexivity.
Qed.

Lemma ensure_chip_chip_info (s : State) :
  _chip_info (self (ensure_chip s)) = Some (prepared_chip s).
Proof.
  unfold ensure_chip, prepared_chip.
  destruct (_chip_info (self s)) eqn:E; simpl; [exact E|].
  apply set_chip_self_chip_info.
Qed.

(** [set_chip] writes the linker script and the startup unit and nothing
    else. *)
Lemma chip_files_frame (info : ChipInfo) (w : World) (p : Path) :
  p <> BUILD_DIR // "link.ld" -> p <> BUILD_DIR // "startup.s" ->
  chip_files info w !! p = fs w !! p.
Proof.
  intros H1 H2. unfold chip_files.
  rewrite lookup_insert_ne by congruence.
  now rewrite lookup_insert_ne by congruence.
Qed.

Lemma obj_path_not_generated (fam name : string) :
  BUILD_DIR // ("hal_obj_" +:+ fam) // name <> BUILD_DIR // "link.ld" /\
  BUILD_DIR // ("hal_obj_" +:+ fam) // name <> BUILD_DIR // "startup.s".
Proof. split; intros E; vm_compute in E; discriminate E. Qed.

Lemma lib_path_not_generated (fam : string) :
  BUILD_DIR // ("libstm32hal_" +:+ fam +:+ ".a") <> BUILD_DIR // "link.ld" /\
  BUILD_DIR // ("libstm32hal_" +:+ fam +:+ ".a") <> BUILD_DIR // "startup.s".
Proof. split; intros E; cbn in E; discriminate E. Qed.

Lemma find_hal_self_has_hal (family : string) (w : World) (c : Compiler) :
  has_hal (find_hal_self family w c) = path_exists w (hal_header family).
Proof. unfold find_hal_self. now destruct (path_exists w (hal_header family)). Qed.

Lemma find_hal_self_sources (family : string) (w : World) (c : Compiler) :
  path_exists w (hal_header family) = true ->
  hal_src_files (find_hal_self family w c) = present_sources family w /\
  hal_inc_dirs (find_hal_self family w c) = present_includes w /\
  has_hal_lib (find_hal_self family w c) = false.
Proof. intros H. unfold find_hal_self. rewrite H. repeat split. Qed.

(** The resolved sources are the allow-listed files that exist. *)
Lemma present_sources_spec (family : string) (w : World) (p : Path) :
  In p (present_sources family w) <->
  exists f : string,
    In f (default [] (assoc_get family _FAMILY_HAL_FILES)) /\
    p = HAL_DIR // "Src" // f /\ path_exists w p = true.
Proof.
  unfold present_sources. rewrite in_map_iff. split.
  - intros (f & <- & Hf). apply filter_In in Hf as [Hin Hex]. eauto.
  - intros (f & Hin & -> & Hex). exists f. split; [reflexivity|].
    apply filter_In. auto.
Qed.

Lemma is_flag_app (flag : string) (a b : list string) :
  is_flag flag (a ++ b) = is_flag flag a || is_flag flag b.
Proof. apply existsb_app. Qed.

Lemma no_syntax_flag_in_sources (family : string) (w : World) :
  is_flag "-fsyntax-only" (map path_str (present_sources family w)) = false.
Proof.
  unfold present_sources. rewrite map_map.
  induction (List.filter _ _) as [|f l IH]; [reflexivity|].
  exact IH.
Qed.

Lemma no_syntax_flag_in_includes (dirs : list Path) :
  is_flag "-fsyntax-only" (inc_flags dirs) = false.
Proof. induction dirs as [|d l IH]; [reflexivity | exact IH]. Qed.

(** With a HAL the command links; it is never the syntax check. *)
Lemma compile_cmd_with_hal (family : string) (w : World) (c : Compiler) (ci : ChipInfo) :
  path_exists w (hal_header family) = true ->
  is_flag "-fsyntax-only" (compile_cmd (find_hal_self family w c) ci) = false /\
  is_flag "-nostartfiles" (compile_cmd (find_hal_self family w c) ci) = true.
Proof.
  intros H. unfold compile_cmd, find_hal_self. rewrite H.
  cbn [has_hal has_hal_lib hal_src_files hal_inc_dirs has_specs _current_family].
  split.
  - rewrite !is_flag_app, no_syntax_flag_in_sources, no_syntax_flag_in_includes.
    destruct ci as [cpu0 flash0 ram0 def0 fam0 [|]];
      destruct (has_specs c); reflexivity.
  - apply existsb_exists. exists "-nostartfiles". split; [|reflexivity].
    rewrite !in_app_iff. do 6 right. left. cbn [In]. tauto.
Qed.

Lemma ensure_chip_procs (s : State) :
  procs (world (ensure_chip s)) = procs (world s).
Proof. unfold ensure_chip. now destruct (_chip_info (self s)). Qed.

Lemma prepared_procs (code : string) (s : State) :
  procs (world (prepared code s)) = procs (world s).
Proof. unfold prepared. cbn [world procs]. apply ensure_chip_procs. Qed.

(** After the preparation neither build product exists. *)
Lemma prepared_no_products (code : string) (s : State) :
  fs (world (prepared code s)) !! elf = None /\
  fs (world (prepared code s)) !! binf = None.
Proof.
  unfold prepared. cbn [world fs]. split.
  - rewrite lookup_delete_ne by discriminate. apply lookup_delete_eq.
  - apply lookup_delete_eq.
Qed.

Lemma find_hal_self_flags (family : string) (w : World) (c : Compiler) :
  has_gcc (find_hal_self family w c) = has_gcc c /\
  has_specs (find_hal_self family w c) = has_specs c /\
  _chip_info (find_hal_self family w c) = _chip_info c /\
  _current_family (find_hal_self family w c) = _current_family c.
Proof.
  unfold find_hal_self. destruct (path_exists w (hal_header family)); repeat split.
Qed.

Lemma set_chip_self_has_gcc (chip_name : string) (w : World) (c : Compiler) :
  has_gcc (set_chip_self chip_name w c) = has_gcc c.
Proof.
  unfold set_chip_self. cbv zeta. destruct (family_differs _ _); [|reflexivity].
  now rewrite (proj1 (find_hal_self_flags _ _ _)).
Qed.

(** The preparation of a build leaves the compiler flag alone. *)
Lemma prepared_has_gcc (code : string) (s : State) :
  has_gcc (self (prepared code s)) = has_gcc (self s).
Proof.
  unfold prepared, ensure_chip. cbn [self].
  destruct (_chip_info (self s)); [reflexivity|]. apply set_chip_self_has_gcc.
Qed.

(** Every command of [compile] starts the compiler. *)
Lemma compile_cmd_head (c : Compiler) (ci : ChipInfo) :
  hd "" (compile_cmd c ci) = "arm-none-eabi-gcc".
Proof. unfold compile_cmd. now destruct (has_hal c). Qed.

(** The name STM32F103C8 is a key of the table. *)
Lemma lookup_f103c8 : _lookup_chip "STM32F103C8" = Some default_chip_info.
Proof. vm_compute. reflexivity. Qed.

(** An unknown name is handled like STM32F103C8, after one printed line. *)
Lemma set_chip_unknown (chip_name : string) (s : State) :
  _lookup_chip chip_name = None ->
  set_chip chip_name s =
  set_chip "STM32F103C8" (with_line (unknown_chip_warning chip_name) s).
Proof.
  intros H. rewrite !set_chip_run.
  assert (Hr : resolve chip_name = resolve "STM32F103C8").
  { unfold resolve. now rewrite H, lookup_f103c8. }
  unfold set_chip_self, set_chip_world. cbv zeta. rewrite Hr, H, lookup_f103c8.
  reflexivity.
Qed.

Section WithToolchain.

Variable toolchain : World -> list string -> proc_result.
Variable tool_data : World -> list string -> string.

(** The steps of a method on an explicit state. *)
Ltac step :=
  cbv beta iota delta
    [mbind M_bind mret M_ret raise get_self get_world modify_self modify_world
     print write_text unlink stat run self world fst snd].

Lemma compile_run (code : string) (s : State) :
  compile toolchain tool_data code s =
  let p := prepared code s in
  if has_gcc (self p) then finish_compile toolchain tool_data p
  else (Ok (mkResult false "arm-none-eabi-gcc 未安装" None 0), p).
Proof.
  unfold compile.
  assert (E : forall (k : unit -> M CompileResult),
             (match _chip_info (self s) with
              | Some _ => mret ()
              | None => set_chip DEFAULT_CHIP ;; mret ()
              end ≫= k) s = k tt (ensure_chip s)).
  { intros k. unfold ensure_chip. destruct (_chip_info (self s)).
    - destruct s; reflexivity.
    - unfold mbind, M_bind. rewrite set_chip_run. reflexivity. }
  unfold mbind at 1, M_bind at 1, get_self at 1. cbv beta iota.
  rewrite E. clear E.
  unfold mbind at 1, M_bind at 1, get_self at 1. cbv beta iota.
  pose proof (ensure_chip_chip_info s) as Hci.
  unfold prepared, finish_compile. cbv zeta.
  destruct (ensure_chip s) as [c w] eqn:Es. simpl in Hci. cbn [self world].
  rewrite Hci. step.
  assert (Hp : prepared_chip
                 {| self := c;
                    world := {| fs := delete binf (delete elf
                                   (<[main_c := mkFile (clock w) code]> (fs w)));
                                clock := clock w; stdout := stdout w;
                                procs := procs w |} |} = prepared_chip s).
  { unfold prepared_chip at 1. cbn [self]. now rewrite Hci. }
  rewrite Hp.
  destruct (has_gcc c); [|reflexivity]. cbn [negb].
  cbn [fs clock stdout procs].
  destruct (toolchain _ _) as [rc out err| |e]; try reflexivity.
  destruct rc as [|rc|rc]; try reflexivity. cbn [Z.eqb].
  destruct (has_hal c); [|reflexivity].
  cbn [foldr andb fs clock stdout procs].
  unfold path_exists. cbn [fs]. rewrite lookup_insert_eq.
  destruct (toolchain _ _) as [rc2 out2 err2| |e2]; reflexivity.
Qed.


End WithToolchain.

End EngineFacts.

(** ** Facts about the archive cache *)

Section CacheFacts.

Import Post.

Variable toolchain : World -> list string -> proc_result.
Variable tool_data : World -> list string -> string.

Lemma mkdir_run (p : Path) (s : State) :
  mkdir p s = (Ok tt, mkState (self s) (mkdir_world p (world s))).
Proof. reflexivity. Qed.

Lemma mkdir_world_lookup (p q : Path) (w : World) :
  q <> p -> fs (mkdir_world p w) !! q = fs w !! q.
Proof.
  intros H. unfold mkdir_world. destruct (fs w !! p); [reflexivity|].
  cbn [fs]. now rewrite lookup_insert_ne by congruence.
Qed.

Lemma mkdir_world_exists (p : Path) (w : World) :
  is_Some (fs (mkdir_world p w) !! p).
Proof.
  unfold mkdir_world. destruct (fs w !! p) eqn:E.
  - rewrite E. eauto.
  - cbn [fs]. rewrite lookup_insert_eq. eauto.
Qed.

Lemma mkdir_world_idem (p : Path) (w : World) :
  is_Some (fs w !! p) -> mkdir_world p w = w.
Proof. intros [f E]. unfold mkdir_world. now rewrite E. Qed.

Lemma mkdir_world_same (p : Path) (w : World) :
  clock (mkdir_world p w) = clock w /\
  stdout (mkdir_world p w) = stdout w /\
  procs (mkdir_world p w) = procs w.
Proof. unfold mkdir_world. destruct (fs w !! p); repeat split. Qed.

Lemma is_stale_run (src obj : Path) (s : State) :
  is_stale src obj s =
  match stale_pure (fs (world s)) src obj with
  | Ok b => (Ok b, s)
  | Raise e => (Raise e, s)
  end.
Proof.
  destruct s as [c w]. unfold is_stale, stale_pure, path_exists.
  cbv beta iota delta [mbind M_bind mret M_ret get_world stat world].
  destruct (fs w !! obj) eqn:Eo; cbn [negb]; [|reflexivity].
  rewrite Eo. destruct (fs w !! src) eqn:Es; reflexivity.
Qed.

Lemma scan_run (obj_dir : Path) (srcs : list Path) (s : State) :
  scan obj_dir srcs s =
  match scan_pure (fs (world s)) obj_dir srcs with
  | Ok r => (Ok r, s)
  | Raise e => (Raise e, s)
  end.
Proof.
  induction srcs as [|src rest IH]; [reflexivity|].
  cbn [scan scan_pure]. unfold mbind, M_bind.
  rewrite is_stale_run.
  destruct (stale_pure _ _ _) as [b|e]; [|reflexivity].
  rewrite IH. destruct (scan_pure _ _ _) as [r|e]; reflexivity.
Qed.

(** With all sources on disk the scan selects the sources that are not
    fresh. *)
Lemma stale_pure_fresh (m : gmap Path File) (src obj : Path) :
  is_Some (m !! src) ->
  stale_pure m src obj = Ok (negb (is_fresh m src obj)).
Proof.
  intros [fsrc E]. unfold stale_pure, is_fresh. rewrite E.
  destruct (m !! obj) as [fo|]; [|reflexivity].
  f_equal. rewrite Z.ltb_antisym. reflexivity.
Qed.

Lemma scan_pure_present (m : gmap Path File) (family : string) (srcs : list Path) :
  Forall (fun src => is_Some (m !! src)) srcs ->
  scan_pure m (obj_dir_of family) srcs =
  Ok (stale_units m family srcs, map (obj_of family) srcs).
Proof.
  induction 1 as [|src rest Hsrc _ IH]; [reflexivity|].
  cbn [scan_pure]. rewrite (stale_pure_fresh _ _ _ Hsrc), IH.
  unfold stale_units. cbn [List.filter map fst snd].
  fold (obj_of family src).
  destruct (is_fresh m src (obj_of family src)); reflexivity.
Qed.

Lemma run_run (cmd : list string) (outputs : list Path) (s : State) :
  run toolchain tool_data cmd outputs s =
  (Ok (toolchain (world s) cmd), mkState (self s) (run_world toolchain tool_data cmd outputs (world s))).
Proof. reflexivity. Qed.

(** The compile loop never raises. *)
Lemma compile_units_returns (ci : ChipInfo) (incs : list Path)
    (units : list (Path * Path)) (s : State) :
  exists (b : bool) (s' : State),
    compile_units toolchain tool_data ci incs units s = (Ok b, s').
Proof.
  revert s. induction units as [|[src obj] rest IH]; intros s.
  - exists true, s. reflexivity.
  - cbn [compile_units]. unfold mbind at 1, M_bind at 1. rewrite run_run.
    destruct (toolchain (world s) _) as [rc out err| |e].
    + destruct (rc =? 0); [apply IH|]. eexists. eexists. reflexivity.
    + eexists. eexists. reflexivity.
    + eexists. eexists. reflexivity.
Qed.

(** When the loop runs to its end it has started one compiler per unit, in
    order, and has written the objects of the units, each stamped later
    than the start of the loop; everything else is as before. *)
Lemma compile_units_true (ci : ChipInfo) (incs : list Path)
    (units : list (Path * Path)) (s s' : State) :
  compile_units toolchain tool_data ci incs units s = (Ok true, s') ->
  self s' = self s /\
  stdout (world s') = stdout (world s) /\
  clock (world s) <= clock (world s') /\
  (exists new, procs (world s') = procs (world s) ++ new /\
               map fst new = map (cc_of ci incs) units) /\
  (forall p, ~ In p (map snd units) -> fs (world s') !! p = fs (world s) !! p) /\
  (forall p, In p (map snd units) ->
     exists f, fs (world s') !! p = Some f /\ clock (world s) < st_mtime f).
Proof.
  revert s. induction units as [|[src obj] rest IH]; intros s H.
  - cbn [compile_units] in H. injection H as <-.
    repeat split; try reflexivity; try lia.
    + exists []. now rewrite app_nil_r.
    + intros p [].
  - cbn [compile_units] in H. unfold mbind at 1, M_bind at 1 in H.
    rewrite run_run in H.
    destruct (toolchain (world s) (hal_cc_cmd ci incs src obj))
      as [rc out err| |e] eqn:Er; try discriminate H.
    destruct rc as [|rc|rc]; try discriminate H. cbn [Z.eqb] in H.
    apply IH in H as (Hself & Hout & Hclock & (new & Hprocs & Hnew) & Hframe & Hwritten).
    cbn [self world] in *. unfold run_world in *. rewrite Er in *.
    cbn [fs clock stdout procs foldr] in *.
    repeat split; try assumption; try lia.
    + exists ((hal_cc_cmd ci incs src obj, fs (world s)) :: new).
      rewrite Hprocs, <- app_assoc. split; [reflexivity|].
      cbn [map fst]. now rewrite Hnew.
    + intros p Hp. cbn [map snd In] in Hp.
      rewrite Hframe by tauto. apply lookup_insert_ne. intros E. apply Hp. now left.
    + intros p Hp. cbn [map snd In] in Hp.
      destruct (List.in_dec (List.list_eq_dec String.string_dec) p (map snd rest)) as [Hin|Hnin].
      * destruct (Hwritten p Hin) as (f & Hf & Ht). exists f. split; [assumption | lia].
      * destruct Hp as [<-|Hp]; [|contradiction].
        rewrite (Hframe _ Hnin), lookup_insert_eq. eexists. split; [reflexivity|].
        cbn [st_mtime]. lia.
Qed.

Lemma compile_units_succeeds (ci : ChipInfo) (incs : list Path)
    (units : list (Path * Path)) (s : State) :
  toolchain_succeeds toolchain ->
  exists s' : State,
    compile_units toolchain tool_data ci incs units s = (Ok true, s').
Proof.
  intros Hok. revert s. induction units as [|[src obj] rest IH]; intros s.
  - exists s. reflexivity.
  - cbn [compile_units]. unfold mbind at 1, M_bind at 1. rewrite run_run.
    destruct (Hok (world s) (hal_cc_cmd ci incs src obj)) as (out & err & ->).
    cbn [Z.eqb]. apply IH.
Qed.

(** [precompile_hal] step by step. *)
Lemma precompile_hal_run (s : State) :
  precompile_hal toolchain tool_data s =
  let c := self s in
  if can_build c then
    let ci := prepared_chip s in
    let family := family_or_f1 (_current_family c) in
    let s1 := mkState c (mkdir_world (obj_dir_of family) (world s)) in
    match scan_pure (fs (world s1)) (obj_dir_of family) (hal_src_files c) with
    | Raise e => (Raise e, s1)
    | Ok sc =>
        if is_nil (fst sc) && path_exists (world s1) (lib_path_of family) then
          (Ok true, mkState (set_has_hal_lib true c) (world s1))
        else
          match compile_units toolchain tool_data ci (hal_inc_dirs c) (fst sc)
                  (with_line (progress_line (length (hal_src_files c))
                                            (length (fst sc))) s1) with
          | (Ok true, s3) => archive_objects toolchain tool_data family (snd sc) s3
          | (Ok false, s3) => (Ok false, s3)
          | (Raise e, s3) => (Raise e, s3)
          end
    end
  else (Ok false, s).
Proof.
  destruct s as [c w]. unfold precompile_hal, can_build, prepared_chip.
  cbv beta iota delta [mbind M_bind mret M_ret get_self get_world self world] .
  destruct (_chip_info c) as [ci|]; [|reflexivity].
  destruct (has_hal c); [|reflexivity].
  destruct (has_gcc c); [|reflexivity].
  cbn [negb orb andb]. cbv zeta.
  rewrite mkdir_run. cbn [self world].
  rewrite scan_run. cbn [world].
  fold (obj_dir_of (family_or_f1 (_current_family c))).
  fold (lib_path_of (family_or_f1 (_current_family c))).
  destruct (scan_pure _ _ _) as [sc|e]; [|reflexivity].
  destruct (is_nil (fst sc) && _); [reflexivity|].
  unfold print, modify_world. cbn [self world].
  unfold with_line, progress_line. cbn [self world].
  destruct (compile_units _ _ _ _ _ _) as [[[|]|e] s3]; try reflexivity.
  cbn [negb]. unfold archive_objects. cbv zeta.
  destruct (is_nil _); [reflexivity|].
  rewrite run_run. cbn [self world].
  destruct (toolchain (world s3) _) as [rc out err| |e]; try reflexivity.
  destruct (rc =? 0); [|reflexivity].
  unfold stat. cbn [world].
  destruct (fs (run_world _ _ _ _ _) !! _); reflexivity.
Qed.

(** *** Paths of the cache *)

Lemma hal_source_shape (p : Path) :
  is_hal_source p = true -> exists f : string, p = HAL_DIR // "Src" // f.
Proof.
  destruct p as [|a [|b [|c [|f [|g p]]]]]; try discriminate. cbn [is_hal_source].
  intros H. apply andb_true_iff in H as [H Hc]. apply andb_true_iff in H as [Ha Hb].
  apply String.eqb_eq in Ha, Hb, Hc. subst. exists f. reflexivity.
Qed.

Lemma hal_source_apart (p : Path) (family : string) (src : Path) :
  is_hal_source p = true ->
  p <> obj_of family src /\ p <> lib_path_of family /\ p <> obj_dir_of family.
Proof.
  intros H. apply hal_source_shape in H as [f ->].
  repeat split; intros E; cbn in E; discriminate E.
Qed.

Lemma obj_apart (family : string) (src : Path) :
  obj_of family src <> lib_path_of family /\
  obj_of family src <> obj_dir_of family /\
  lib_path_of family <> obj_dir_of family.
Proof. repeat split; intros E; cbn in E; discriminate E. Qed.

Lemma lib_ne_dir (family : string) : lib_path_of family <> obj_dir_of family.
Proof. apply (obj_apart family []). Qed.

Lemma obj_ne_lib (family : string) (src : Path) :
  obj_of family src <> lib_path_of family.
Proof. apply obj_apart. Qed.

Lemma obj_ne_dir (family : string) (src : Path) :
  obj_of family src <> obj_dir_of family.
Proof. apply obj_apart. Qed.

Lemma src_ne_obj (p : Path) (family : string) (src : Path) :
  is_hal_source p = true -> p <> obj_of family src.
Proof. intros H. now apply hal_source_apart. Qed.

Lemma src_ne_lib (p : Path) (family : string) :
  is_hal_source p = true -> p <> lib_path_of family.
Proof. intros H. now apply (hal_source_apart p family []). Qed.

Lemma stale_units_objs (m : gmap Path File) (family : string) (srcs : list Path)
    (p : Path) :
  In p (map snd (stale_units m family srcs)) ->
  exists src : Path, In src srcs /\ p = obj_of family src.
Proof.
  unfold stale_units. rewrite map_map. cbn [snd]. rewrite in_map_iff.
  intros (src & <- & Hin). apply filter_In in Hin as [Hin _]. eauto.
Qed.

Lemma stale_units_nil (m : gmap Path File) (family : string) (srcs : list Path) :
  (forall src, In src srcs -> is_fresh m src (obj_of family src) = true) ->
  stale_units m family srcs = [].
Proof.
  intros H. unfold stale_units.
  induction srcs as [|src rest IH]; [reflexivity|].
  cbn [List.filter]. rewrite (H src) by now left. cbn [negb].
  apply IH. intros x Hx. apply H. now right.
Qed.

Lemma not_stale_fresh (m : gmap Path File) (family : string) (srcs : list Path)
    (src : Path) :
  In src srcs ->
  ~ In (obj_of family src) (map snd (stale_units m family srcs)) ->
  is_fresh m src (obj_of family src) = true.
Proof.
  intros Hin Hn. destruct (is_fresh m src (obj_of family src)) eqn:E; [reflexivity|].
  exfalso. apply Hn. unfold stale_units. rewrite map_map. cbn [snd].
  apply in_map. apply filter_In. split; [assumption|]. now rewrite E.
Qed.

Lemma sources_ok_spec (s : State) (src : Path) :
  sources_ok s = true -> In src (hal_src_files (self s)) ->
  is_hal_source src = true /\ exists f : File, fs (world s) !! src = Some f.
Proof.
  unfold sources_ok. rewrite forallb_forall. intros H Hin.
  specialize (H src Hin). unfold source_ok, path_exists in H.
  apply andb_true_iff in H as [Hs Hf]. split; [assumption|].
  destruct (fs (world s) !! src) as [f|]; [eauto | discriminate].
Qed.

Lemma stamps_ok_spec (s : State) (src : Path) (f : File) :
  stamps_ok s = true -> In src (hal_src_files (self s)) ->
  fs (world s) !! src = Some f -> st_mtime f <= clock (world s).
Proof.
  unfold stamps_ok. rewrite forallb_forall. intros H Hin Hf.
  specialize (H src Hin). unfold stamp_ok in H. rewrite Hf in H.
  now apply Z.leb_le.
Qed.

Lemma can_build_flag (b : bool) (c : Compiler) :
  can_build (set_has_hal_lib b c) = can_build c.
Proof. reflexivity. Qed.

(** *** The fast path *)

Lemma cache_warm_b_true (s : State) : cache_warm_b s = true -> cache_warm s.
Proof.
  unfold cache_warm_b, cache_warm, path_exists. cbv zeta. intros H.
  apply andb_true_iff in H as [H Hall]. apply andb_true_iff in H as [Hd Hl].
  split; [|split].
  - destruct (fs (world s) !! obj_dir_of _); [eauto | discriminate].
  - destruct (fs (world s) !! lib_path_of _); [eauto | discriminate].
  - intros src Hin. rewrite forallb_forall in Hall. now apply Hall.
Qed.

Lemma is_fresh_source (m : gmap Path File) (src obj : Path) :
  is_fresh m src obj = true -> is_Some (m !! src).
Proof.
  unfold is_fresh. destruct (m !! obj); [|discriminate].
  destruct (m !! src); [eauto | discriminate].
Qed.

(** On a warm cache [precompile_hal] sets the flag and returns at once: no
    process is started and nothing is written. *)
Lemma precompile_hal_warm (s : State) :
  can_build (self s) = true -> cache_warm s ->
  precompile_hal toolchain tool_data s =
  (Ok true, mkState (set_has_hal_lib true (self s)) (world s)).
Proof.
  intros Hcb (Hdir & Hlib & Hfresh).
  rewrite precompile_hal_run. cbv zeta. rewrite Hcb. cbn [self world].
  rewrite (mkdir_world_idem _ _ Hdir).
  rewrite scan_pure_present.
  2:{ apply List.Forall_forall. intros src Hsrc.
      apply (is_fresh_source _ _ _ (Hfresh src Hsrc)). }
  cbn [fst snd]. rewrite (stale_units_nil _ _ _ Hfresh). cbn [is_nil andb].
  unfold path_exists. destruct Hlib as [f ->]. reflexivity.
Qed.

(** A call that returns [true] leaves a warm cache behind, provided the
    listed sources are in place. *)
Lemma precompile_hal_warms (s s1 : State) :
  sources_ok s = true ->
  stamps_ok s = true ->
  precompile_hal toolchain tool_data s = (Ok true, s1) ->
  can_build (self s1) = true /\ has_hal_lib (self s1) = true /\ cache_warm s1.
Proof.
  intros Hsane Hstamps H. rewrite precompile_hal_run in H. cbv zeta in H.
  destruct (can_build (self s)) eqn:Hcb; [|discriminate H].
  set (family := family_or_f1 (_current_family (self s))) in *.
  set (w1 := mkdir_world (obj_dir_of family) (world s)) in *.
  cbn [self world] in H.
  assert (Hsrc : forall src, In src (hal_src_files (self s)) ->
             is_hal_source src = true /\
             exists f, fs w1 !! src = Some f /\ st_mtime f <= clock w1).
  { intros src Hin. destruct (sources_ok_spec s src Hsane Hin) as (Hh & f & Hf).
    pose proof (stamps_ok_spec s src f Hstamps Hin Hf) as Ht.
    split; [assumption|]. exists f. unfold w1.
    rewrite mkdir_world_lookup by now apply hal_source_apart.
    destruct (mkdir_world_same (obj_dir_of family) (world s)) as (-> & _).
    auto. }
  rewrite scan_pure_present in H.
  2:{ apply List.Forall_forall. intros src Hin.
      destruct (Hsrc src Hin) as (_ & f & -> & _). eauto. }
  cbn [fst snd] in H.
  destruct (is_nil (stale_units (fs w1) family (hal_src_files (self s))) &&
            path_exists w1 (lib_path_of family)) eqn:Hfast.
  - (* nothing stale and the archive exists *)
    injection H as <-. cbn [self world]. rewrite can_build_flag.
    split; [assumption|]. split; [reflexivity|].
    apply andb_true_iff in Hfast as [Hnil Hlib].
    unfold cache_warm. cbn [self world _current_family set_has_hal_lib hal_src_files].
    fold family. split; [apply mkdir_world_exists|]. split.
    + unfold path_exists in Hlib. destruct (fs w1 !! lib_path_of family); [eauto|discriminate].
    + intros src Hin. apply (not_stale_fresh _ _ _ _ Hin).
      destruct (stale_units _ _ _); [intros [] | discriminate Hnil].
  - (* some units were compiled and archived *)
    clear Hfast.
    destruct (compile_units _ _ _ _ _ _) as [[[|]|e] s3] eqn:Hcu; try discriminate H.
    apply compile_units_true in Hcu
      as (Hself & _ & Hclock & _ & Hframe & Hwritten).
    unfold with_line in Hself, Hclock, Hframe, Hwritten.
    cbn [self world fs clock] in Hself, Hclock, Hframe, Hwritten.
    unfold archive_objects in H. cbv zeta in H.
    destruct (is_nil _); [discriminate H|].
    unfold run_world in H.
    destruct (toolchain (world s3) _) as [rc out err| |e] eqn:Er; try discriminate H.
    destruct rc as [|rc|rc]; try discriminate H.
    cbn [Z.eqb fs clock stdout procs foldr] in H. rewrite lookup_insert_eq in H.
    injection H as <-. cbn [self world fs]. rewrite can_build_flag, Hself.
    split; [assumption|]. split; [reflexivity|].
    unfold cache_warm.
    cbn [self world fs _current_family set_has_hal_lib hal_src_files].
    fold family.
    assert (Hobjs : forall p, In p (map snd (stale_units (fs w1) family
                                              (hal_src_files (self s)))) ->
                              exists src, p = obj_of family src).
    { intros p Hp. apply stale_units_objs in Hp as (src & _ & ->). eauto. }
    split; [|split].
    + rewrite lookup_insert_ne by apply lib_ne_dir.
      rewrite Hframe. { apply mkdir_world_exists. }
      intros Hp. apply Hobjs in Hp as (src & Hp).
      symmetry in Hp. now apply obj_ne_dir in Hp.
    + rewrite lookup_insert_eq. eauto.
    + intros src Hin. destruct (Hsrc src Hin) as (Hh & f & Hf & Ht).
      assert (Hsrc3 : fs (world s3) !! src = Some f).
      { rewrite Hframe; [assumption|]. intros Hp. apply Hobjs in Hp as (x & Hp).
        now apply (src_ne_obj src family x) in Hh. }
      unfold is_fresh.
      rewrite (lookup_insert_ne _ (lib_path_of family) (obj_of family src))
        by (apply not_eq_sym; apply obj_ne_lib).
      rewrite (lookup_insert_ne _ (lib_path_of family) src)
        by (apply not_eq_sym; now apply src_ne_lib).
      rewrite Hsrc3.
      destruct (List.in_dec (List.list_eq_dec String.string_dec) (obj_of family src)
                  (map snd (stale_units (fs w1) family (hal_src_files (self s)))))
        as [Hst|Hst].
      * destruct (Hwritten _ Hst) as (fo & -> & Hto). apply Z.leb_le. lia.
      * rewrite (Hframe _ Hst).
        pose proof (not_stale_fresh _ _ _ _ Hin Hst) as Hfr.
        unfold is_fresh in Hfr. rewrite Hf in Hfr.
        destruct (fs w1 !! obj_of family src); [exact Hfr | discriminate Hfr].
Qed.

Lemma set_flag_same (c : Compiler) :
  has_hal_lib c = true -> set_has_hal_lib true c = c.
Proof. destruct c. cbn. now intros ->. Qed.

(** With a toolchain whose runs succeed, a session that can build and lists
    at least one source gets its archive. *)
Lemma precompile_hal_succeeds (s : State) :
  toolchain_succeeds toolchain ->
  can_build (self s) = true ->
  sources_ok s = true ->
  hal_src_files (self s) <> [] ->
  exists s1 : State, precompile_hal toolchain tool_data s = (Ok true, s1).
Proof.
  intros Hok Hcb Hsane Hne. rewrite precompile_hal_run. cbv zeta. rewrite Hcb.
  set (family := family_or_f1 (_current_family (self s))).
  set (w1 := mkdir_world (obj_dir_of family) (world s)).
  cbn [self world].
  assert (Hsrc : forall src, In src (hal_src_files (self s)) ->
             is_hal_source src = true /\ is_Some (fs w1 !! src)).
  { intros src Hin. destruct (sources_ok_spec s src Hsane Hin) as (Hh & f & Hf).
    split; [assumption|]. unfold w1.
    rewrite mkdir_world_lookup by now apply hal_source_apart. eauto. }
  rewrite scan_pure_present.
  2:{ apply List.Forall_forall. intros src Hin. now apply Hsrc. }
  cbn [fst snd].
  destruct (is_nil _ && _); [eauto|].
  destruct (compile_units_succeeds (prepared_chip s) (hal_inc_dirs (self s))
              (stale_units (fs w1) family (hal_src_files (self s)))
              (with_line (progress_line (length (hal_src_files (self s)))
                 (length (stale_units (fs w1) family (hal_src_files (self s)))))
                 (mkState (self s) w1)) Hok) as [s3 Hcu].
  rewrite Hcu.
  apply compile_units_true in Hcu as (_ & _ & _ & _ & Hframe & Hwritten).
  unfold with_line in Hframe, Hwritten. cbn [self world fs clock] in Hframe, Hwritten.
  unfold archive_objects. cbv zeta.
  destruct (hal_src_files (self s)) as [|src0 rest] eqn:Esrcs; [congruence|].
  assert (Hex : path_exists (world s3) (obj_of family src0) = true).
  { unfold path_exists.
    destruct (List.in_dec (List.list_eq_dec String.string_dec) (obj_of family src0)
                (map snd (stale_units (fs w1) family (src0 :: rest)))) as [Hst|Hst].
    - destruct (Hwritten _ Hst) as (fo & -> & _). reflexivity.
    - rewrite (Hframe _ Hst).
      assert (Hin : In src0 (src0 :: rest)) by now left.
      pose proof (not_stale_fresh _ _ _ _ Hin Hst) as Hfr.
      unfold is_fresh in Hfr.
      destruct (fs w1 !! obj_of family src0); [reflexivity | discriminate Hfr]. }
  cbn [map List.filter]. rewrite Hex. cbn [is_nil].
  match goal with
  | |- context [toolchain (world s3) ?cmd] =>
      destruct (Hok (world s3) cmd) as (out & err & Er)
  end.
  rewrite Er. cbn [Z.eqb]. unfold run_world. rewrite Er.
  cbn [fs foldr]. rewrite lookup_insert_eq. eauto.
Qed.

(** *** One touched source *)

Lemma filter_single {A : Type} (P : A -> bool) (x : A) (l : list A) :
  List.NoDup l -> In x l -> P x = true ->
  (forall y, In y l -> y <> x -> P y = false) ->
  List.filter P l = [x].
Proof.
  intros Hnd. induction Hnd as [|a l Ha Hnd IH]; [intros []|].
  intros Hin Hx Hy. cbn [List.filter]. destruct Hin as [->|Hin].
  - rewrite Hx. f_equal.
    assert (Hall : forall y, In y l -> P y = false).
    { intros y Hyl. apply Hy; [now right|]. intros ->. contradiction. }
    clear -Hall. induction l as [|b l IH]; [reflexivity|].
    cbn [List.filter]. rewrite (Hall b) by now left.
    apply IH. intros y Hyl. apply Hall. now right.
  - rewrite (Hy a); [|now left|intros ->; contradiction].
    apply IH; [assumption | assumption|].
    intros y Hyl. apply Hy. now right.
Qed.

Lemma is_fresh_spec (m : gmap Path File) (src obj : Path) :
  is_fresh m src obj = true <->
  exists fo fsrc : File,
    m !! obj = Some fo /\ m !! src = Some fsrc /\ st_mtime fsrc <= st_mtime fo.
Proof.
  unfold is_fresh. split.
  - destruct (m !! obj) as [fo|]; [|discriminate].
    destruct (m !! src) as [fsrc|]; [|discriminate].
    intros H. apply Z.leb_le in H. eauto.
  - intros (fo & fsrc & -> & -> & H). now apply Z.leb_le.
Qed.

Lemma is_stale_fresh (src obj : Path) (st : State) :
  is_Some (fs (world st) !! src) ->
  is_stale src obj st = (Ok (negb (is_fresh (fs (world st)) src obj)), st).
Proof. intros H. rewrite is_stale_run. now rewrite stale_pure_fresh. Qed.

(** After a touch of one source of a warm cache exactly that source is
    stale. *)
Lemma touched_stale_units (s : State) (src0 : Path) (t : Z) :
  let family := family_or_f1 (_current_family (self s)) in
  sources_ok s = true ->
  List.NoDup (hal_src_files (self s)) ->
  cache_warm s ->
  In src0 (hal_src_files (self s)) ->
  (forall fo, fs (world s) !! obj_of family src0 = Some fo -> st_mtime fo < t) ->
  stale_units (fs (world (touch src0 t s))) family (hal_src_files (self s)) =
    [(src0, obj_of family src0)] /\
  (forall p, p <> src0 -> fs (world (touch src0 t s)) !! p = fs (world s) !! p) /\
  is_Some (fs (world (touch src0 t s)) !! src0).
Proof.
  intros family Hsane Hnd (Hdir & Hlib & Hfresh) Hin Ht.
  destruct (sources_ok_spec s src0 Hsane Hin) as (Hh0 & f0 & Hf0).
  assert (Hfs : fs (world (touch src0 t s)) =
                <[src0 := mkFile t (data f0)]> (fs (world s))).
  { unfold touch. cbn [world fs]. now rewrite Hf0. }
  assert (Hframe : forall p, p <> src0 ->
            fs (world (touch src0 t s)) !! p = fs (world s) !! p).
  { intros p Hp. rewrite Hfs. now apply lookup_insert_ne. }
  split; [|split; [exact Hframe|]].
  2:{ rewrite Hfs, lookup_insert_eq. eauto. }
  unfold stale_units.
  rewrite (filter_single _ src0 _ Hnd Hin); [reflexivity| |].
  - pose proof (Hfresh src0 Hin) as Hfr. fold family in Hfr.
    apply is_fresh_spec in Hfr as (fo & fsrc & Hfo & _ & _).
    unfold is_fresh. rewrite Hframe by (apply not_eq_sym; now apply src_ne_obj).
    rewrite Hfo, Hfs, lookup_insert_eq. cbn [st_mtime].
    apply negb_true_iff. apply Z.leb_gt. now apply Ht.
  - intros y Hy Hne.
    destruct (sources_ok_spec s y Hsane Hy) as (Hhy & _).
    pose proof (Hfresh y Hy) as Hfr. fold family in Hfr.
    unfold is_fresh in *.
    rewrite (Hframe (obj_of family y)) by (apply not_eq_sym; now apply src_ne_obj).
    rewrite (Hframe y Hne). now rewrite Hfr.
Qed.

Lemma filter_all {A : Type} (P : A -> bool) (l : list A) :
  (forall x, In x l -> P x = true) -> List.filter P l = l.
Proof.
  induction l as [|a l IH]; [reflexivity|]. intros H.
  cbn [List.filter]. rewrite (H a) by now left. f_equal.
  apply IH. intros x Hx. apply H. now right.
Qed.

(** The rebuild after a touch of one source of a warm cache: one compiler
    run for that source, then, if it succeeded, one archiver run over all
    objects. *)
Lemma precompile_hal_touched (s : State) (src0 : Path) (t : Z) :
  let family := family_or_f1 (_current_family (self s)) in
  let cc := hal_cc_cmd (prepared_chip s) (hal_inc_dirs (self s)) src0
                       (obj_of family src0) in
  let ar := hal_ar_cmd (lib_path_of family)
                       (map (obj_of family) (hal_src_files (self s))) in
  can_build (self s) = true ->
  sources_ok s = true ->
  List.NoDup (hal_src_files (self s)) ->
  cache_warm s ->
  In src0 (hal_src_files (self s)) ->
  (forall fo, fs (world s) !! obj_of family src0 = Some fo -> st_mtime fo < t) ->
  exists (b : bool) (s2 : State) (new : list (list string * gmap Path File)),
    precompile_hal toolchain tool_data (touch src0 t s) = (Ok b, s2) /\
    procs (world s2) = procs (world s) ++ new /\
    (map fst new = [cc] \/ map fst new = [cc; ar]) /\
    (b = true -> map fst new = [cc; ar] /\ has_hal_lib (self s2) = true) /\
    (toolchain_succeeds toolchain -> b = true).
Proof.
  intros family cc ar Hcb Hsane Hnd Hwarm Hin Ht.
  destruct (touched_stale_units s src0 t Hsane Hnd Hwarm Hin Ht)
    as (Hunits & Hframe & Hsrc0).
  fold family in Hunits.
  destruct Hwarm as (Hdir & Hlib & Hfresh). fold family in Hdir, Hlib, Hfresh.
  destruct (sources_ok_spec s src0 Hsane Hin) as (Hh0 & _).
  rewrite precompile_hal_run. cbv zeta.
  change (self (touch src0 t s)) with (self s).
  change (prepared_chip (touch src0 t s)) with (prepared_chip s).
  rewrite Hcb. fold family.
  set (w' := world (touch src0 t s)) in *.
  assert (Hprocs' : procs w' = procs (world s)) by reflexivity.
  assert (Hdir' : is_Some (fs w' !! obj_dir_of family)).
  { rewrite Hframe; [assumption|]. apply not_eq_sym.
    now apply (hal_source_apart src0 family []). }
  cbn [self world]. rewrite (mkdir_world_idem _ _ Hdir').
  rewrite scan_pure_present.
  2:{ apply List.Forall_forall. intros src Hsrc.
      destruct (List.list_eq_dec String.string_dec src src0) as [->|Hne];
        [assumption|].
      rewrite (Hframe _ Hne).
      destruct (sources_ok_spec s src Hsane Hsrc) as (_ & f & ->). eauto. }
  cbn [fst snd]. rewrite Hunits. cbn [is_nil andb length].
  cbn [compile_units]. unfold mbind at 1, M_bind at 1. rewrite run_run.
  unfold with_line. cbn [self world fs clock stdout procs]. fold cc.
  set (w2 := {| fs := fs w'; clock := clock w';
                stdout := stdout w' ++ [progress_line (length (hal_src_files (self s))) 1];
                procs := procs w' |}).
  assert (Hp2 : procs w2 = procs (world s)) by reflexivity.
  destruct (toolchain w2 cc) as [rc out err| |e] eqn:Ecc.
  - destruct rc as [|rc|rc].
    + (* the unit compiled *)
      cbn [Z.eqb]. unfold mret, M_ret. unfold archive_objects. cbv zeta.
      cbn [self world].
      assert (Hall : forall p, In p (map (obj_of family) (hal_src_files (self s))) ->
                path_exists (run_world toolchain tool_data cc [obj_of family src0] w2) p = true).
      { intros p Hp. apply in_map_iff in Hp as (src & <- & Hsrc).
        unfold path_exists, run_world. rewrite Ecc. cbn [fs foldr].
        destruct (List.list_eq_dec String.string_dec (obj_of family src)
                                   (obj_of family src0)) as [->|Hne].
        - now rewrite lookup_insert_eq.
        - rewrite lookup_insert_ne by congruence.
          destruct (sources_ok_spec s src Hsane Hsrc) as (Hh & _).
          rewrite Hframe by (apply not_eq_sym; now apply src_ne_obj).
          pose proof (Hfresh src Hsrc) as Hfr.
          apply is_fresh_spec in Hfr as (fo & _ & -> & _). reflexivity. }
      rewrite (filter_all _ _ Hall). fold ar.
      destruct (map (obj_of family) (hal_src_files (self s))) as [|o os] eqn:Eobjs.
      { destruct (hal_src_files (self s)); [contradiction | discriminate Eobjs]. }
      cbn [is_nil].
      set (w3 := run_world toolchain tool_data cc [obj_of family src0] w2).
      assert (Hp3 : procs w3 = procs (world s) ++ [(cc, fs w2)]).
      { unfold w3, run_world. cbn [procs]. now rewrite Hp2. }
      destruct (toolchain w3 ar) as [rc2 out2 err2| |e2] eqn:Ear.
      * destruct rc2 as [|rc2|rc2].
        -- cbn [Z.eqb]. unfold run_world at 1. rewrite Ear. cbn [fs foldr].
           rewrite lookup_insert_eq.
           eexists. eexists. exists [(cc, fs w2); (ar, fs w3)].
           split; [reflexivity|]. cbn [world self procs].
           unfold run_world at 1. cbn [procs]. rewrite Hp3, <- app_assoc.
           split; [reflexivity|]. cbn [map fst].
           split; [now right|]. split; [auto|]. reflexivity.
        -- cbn [Z.eqb]. eexists. eexists. exists [(cc, fs w2); (ar, fs w3)].
           split; [reflexivity|]. cbn [world self procs].
           unfold run_world at 1. cbn [procs]. rewrite Hp3, <- app_assoc.
           split; [reflexivity|]. cbn [map fst].
           split; [now right|]. split; [discriminate|].
           intros Hok. destruct (Hok w3 ar) as (? & ? & E). congruence.
        -- cbn [Z.eqb]. eexists. eexists. exists [(cc, fs w2); (ar, fs w3)].
           split; [reflexivity|]. cbn [world self procs].
           unfold run_world at 1. cbn [procs]. rewrite Hp3, <- app_assoc.
           split; [reflexivity|]. cbn [map fst].
           split; [now right|]. split; [discriminate|].
           intros Hok. destruct (Hok w3 ar) as (? & ? & E). congruence.
      * eexists. eexists. exists [(cc, fs w2); (ar, fs w3)].
        split; [reflexivity|]. cbn [world self procs].
        unfold run_world at 1. cbn [procs]. rewrite Hp3, <- app_assoc.
        split; [reflexivity|]. cbn [map fst].
        split; [now right|]. split; [discriminate|].
        intros Hok. destruct (Hok w3 ar) as (? & ? & E). congruence.
      * eexists. eexists. exists [(cc, fs w2); (ar, fs w3)].
        split; [reflexivity|]. cbn [world self procs].
        unfold run_world at 1. cbn [procs]. rewrite Hp3, <- app_assoc.
        split; [reflexivity|]. cbn [map fst].
        split; [now right|]. split; [discriminate|].
        intros Hok. destruct (Hok w3 ar) as (? & ? & E). congruence.
    + cbn [Z.eqb]. unfold mbind, M_bind, print, modify_world, mret, M_ret.
      cbn [self world].
      eexists. eexists. exists [(cc, fs w2)].
      split; [reflexivity|]. cbn [world self procs].
      unfold run_world. cbn [procs]. rewrite Hp2.
      split; [reflexivity|]. cbn [map fst].
      split; [now left|]. split; [discriminate|].
      intros Hok. destruct (Hok w2 cc) as (? & ? & E). congruence.
    + cbn [Z.eqb]. unfold mbind, M_bind, print, modify_world, mret, M_ret.
      cbn [self world].
      eexists. eexists. exists [(cc, fs w2)].
      split; [reflexivity|]. cbn [world self procs].
      unfold run_world. cbn [procs]. rewrite Hp2.
      split; [reflexivity|]. cbn [map fst].
      split; [now left|]. split; [discriminate|].
      intros Hok. destruct (Hok w2 cc) as (? & ? & E). congruence.
  - unfold mbind, M_bind, print, modify_world, mret, M_ret. cbn [self world].
    eexists. eexists. exists [(cc, fs w2)].
    split; [reflexivity|]. cbn [world self procs].
    unfold run_world. cbn [procs]. rewrite Hp2.
    split; [reflexivity|]. cbn [map fst].
    split; [now left|]. split; [discriminate|].
    intros Hok. destruct (Hok w2 cc) as (? & ? & E). congruence.
  - unfold mbind, M_bind, print, modify_world, mret, M_ret. cbn [self world].
    eexists. eexists. exists [(cc, fs w2)].
    split; [reflexivity|]. cbn [world self procs].
    unfold run_world. cbn [procs]. rewrite Hp2.
    split; [reflexivity|]. cbn [map fst].
    split; [now left|]. split; [discriminate|].
    intros Hok. destruct (Hok w2 cc) as (? & ? & E). congruence.
Qed.

(** *** The command lines in full *)

Lemma obj_path_text (family : string) (src : Path) :
  path_str (obj_of family src) =
  "workspace/build/hal_obj_" +:+ family +:+ "/" +:+ path_stem src +:+ ".o".
Proof.
  unfold obj_of, obj_dir_of, path_str, path_div, BUILD_DIR, WORKSPACE, BASE_DIR.
  unfold Py.join. cbn [app String.concat].
  repeat (progress (simpl; rewrite ?append_assoc)). reflexivity.
Qed.

Lemma lib_path_text (family : string) :
  path_str (lib_path_of family) =
  "workspace/build/libstm32hal_" +:+ family +:+ ".a".
Proof.
  unfold lib_path_of, path_str, path_div, BUILD_DIR, WORKSPACE, BASE_DIR.
  unfold Py.join. cbn [app String.concat].
  repeat (progress (simpl; rewrite ?append_assoc)). reflexivity.
Qed.

(** The compiler command of [precompile_hal] for one source. *)
Lemma hal_cc_cmd_text (ci : ChipInfo) (incs : list Path) (family : string) (src : Path) :
  hal_cc_cmd ci incs src (obj_of family src) =
  ["arm-none-eabi-gcc"; "-mcpu=" +:+ cpu ci; "-mthumb"] ++
  (if fpu ci then ["-mfloat-abi=hard"; "-mfpu=fpv4-sp-d16"] else []) ++
  ["-D" +:+ define ci; "-DUSE_HAL_DRIVER"] ++
  map (fun d => "-I" +:+ path_str d) incs ++
  ["-Os"; "-ffunction-sections"; "-fdata-sections"; "-c"; path_str src; "-o";
   "workspace/build/hal_obj_" +:+ family +:+ "/" +:+ path_stem src +:+ ".o"].
Proof.
  unfold hal_cc_cmd, cpu_flags, inc_flags, ARM_GCC. rewrite obj_path_text.
  now rewrite <- !app_assoc.
Qed.

(** The archiver command of [precompile_hal] over the objects of a
    listing. *)
Lemma hal_ar_cmd_text (family : string) (srcs : list Path) :
  hal_ar_cmd (lib_path_of family) (map (obj_of family) srcs) =
  ["arm-none-eabi-ar"; "rcs"; "workspace/build/libstm32hal_" +:+ family +:+ ".a"] ++
  map (fun src => "workspace/build/hal_obj_" +:+ family +:+ "/" +:+
                  path_stem src +:+ ".o") srcs.
Proof.
  unfold hal_ar_cmd, ARM_AR. rewrite lib_path_text, map_map.
  assert (E : map (fun x => path_str (obj_of family x)) srcs =
              map (fun src => "workspace/build/hal_obj_" +:+ family +:+ "/" +:+
                              path_stem src +:+ ".o") srcs).
  { induction srcs as [|src rest IH]; [reflexivity|]. cbn [map].
    now rewrite obj_path_text, IH. }
  now rewrite E.
Qed.

(** *** Leaving a family and coming back *)

Lemma set_chip_twice_frame (a b : string) (w : World) (p : Path) :
  p <> BUILD_DIR // "link.ld" -> p <> BUILD_DIR // "startup.s" ->
  fs (set_chip_world b (set_chip_world a w)) !! p = fs w !! p.
Proof.
  intros H1 H2. unfold set_chip_world. cbn [fs].
  rewrite chip_files_frame by assumption. cbn [fs].
  now apply chip_files_frame.
Qed.

Lemma present_sources_frame (family : string) (w w' : World) :
  (forall f : string,
     fs w' !! (HAL_DIR // "Src" // f) = fs w !! (HAL_DIR // "Src" // f)) ->
  present_sources family w' = present_sources family w.
Proof.
  intros H. unfold present_sources. f_equal. apply List.filter_ext.
  intros f. unfold path_exists. now rewrite H.
Qed.

(** After a change to a chip of another family and back, the session has
    lost its archive flag and lists the same sources, which [compile] would
    all compile again; the cache on disk is as warm as it was, so
    [precompile_hal] sets the flag again without starting a process. *)
Lemma switch_back_warm (s0 : State) (away back : string) :
  let fam := family (resolve back) in
  let s2 := snd (set_chip back (snd (set_chip away s0))) in
  _current_family (self s0) = Some fam ->
  family (resolve away) <> fam ->
  has_gcc (self s0) = true ->
  path_exists (world s0) (hal_header fam) = true ->
  hal_src_files (self s0) = present_sources fam (world s0) ->
  cache_warm_b s0 = true ->
  _chip_info (self s2) = Some (resolve back) /\
  _current_family (self s2) = Some fam /\
  has_hal (self s2) = true /\
  has_hal_lib (self s2) = false /\
  hal_src_files (self s2) = hal_src_files (self s0) /\
  (forall src : Path, In src (hal_src_files (self s0)) ->
     In (path_str src) (compile_cmd (self s2) (resolve back))) /\
  precompile_hal toolchain tool_data s2 =
    (Ok true, mkState (set_has_hal_lib true (self s2)) (world s2)).
Proof.
  intros fam s2 Hfam Hne Hgcc Hhdr Hsrcs Hwarm.
  unfold s2. rewrite !set_chip_run. cbn [snd self world].
  set (w2 := set_chip_world back (set_chip_world away (world s0))).
  set (c1 := set_chip_self away (world s0) (self s0)).
  assert (Hc1 : _current_family c1 = Some (family (resolve away)) /\
                has_gcc c1 = true).
  { unfold c1, set_chip_self. cbv zeta. rewrite Hfam.
    unfold family_differs. apply String.eqb_neq in Hne. rewrite Hne. cbn [negb].
    destruct (find_hal_self_flags (family (resolve away))
                (set_chip_world away (world s0))
                (set_current_family (Some (family (resolve away)))
                   (set_chip_info (Some (resolve away)) (self s0))))
      as (-> & _ & _ & ->). now destruct (self s0). }
  destruct Hc1 as [Hfam1 Hgcc1].
  assert (Hframe : forall p : Path,
            p <> BUILD_DIR // "link.ld" -> p <> BUILD_DIR // "startup.s" ->
            fs w2 !! p = fs (world s0) !! p).
  { intros p. apply set_chip_twice_frame. }
  assert (Hhdr2 : path_exists w2 (hal_header fam) = true).
  { unfold path_exists in *. rewrite Hframe; [exact Hhdr| |];
      intros E; cbn in E; discriminate E. }
  assert (Hps : present_sources fam w2 = hal_src_files (self s0)).
  { rewrite Hsrcs. apply present_sources_frame. intros f.
    apply Hframe; intros E; cbn in E; discriminate E. }
  set (c2 := set_chip_self back (set_chip_world away (world s0)) c1).
  assert (Ec2 : c2 = mkCompiler true (has_specs c1) true false (present_includes w2)
                       (hal_src_files (self s0)) (Some (resolve back)) (Some fam)).
  { unfold c2, set_chip_self. cbv zeta. fold fam. rewrite Hfam1.
    unfold family_differs.
    assert (Hne' : (fam =? family (resolve away))%string = false)
      by (apply String.eqb_neq; congruence).
    rewrite Hne'. cbn [negb]. fold w2. unfold find_hal_self. rewrite Hhdr2, Hps.
    destruct c1; cbn in *. now subst. }
  rewrite Ec2. cbn [_chip_info _current_family has_hal has_hal_lib hal_src_files].
  do 5 (split; [reflexivity|]). split.
  - intros src Hin. unfold compile_cmd.
    cbn [has_hal has_hal_lib hal_src_files]. cbv zeta.
    rewrite !in_app_iff. do 5 right. left. now apply in_map.
  - apply precompile_hal_warm; [reflexivity|].
    apply cache_warm_b_true in Hwarm. destruct Hwarm as (Hd & Hl & Hfr).
    rewrite Hfam in Hd, Hl, Hfr.
    unfold cache_warm. cbn [self world _current_family hal_src_files]. cbv zeta.
    split; [|split].
    + rewrite Hframe; [exact Hd| |]; intros E; cbn in E; discriminate E.
    + rewrite Hframe; [exact Hl| |]; apply lib_path_not_generated.
    + intros src Hin. specialize (Hfr src Hin). unfold is_fresh in *.
      rewrite Hframe; [|apply obj_path_not_generated..].
      rewrite Hsrcs in Hin. apply present_sources_spec in Hin as (f & _ & -> & _).
      rewrite (Hframe (HAL_DIR // "Src" // f)); [exact Hfr| |];
        intros E; cbn in E; discriminate E.
Qed.

End CacheFacts.

(** ** More facts about the chip resolver *)

Section MoreLookupFacts.

Import More.

Lemma upper_ascii_idem (c : ascii) :
  Py.upper_ascii (Py.upper_ascii c) = Py.upper_ascii c.
Proof. destruct c as [[] [] [] [] [] [] [] []]; reflexivity. Qed.

Lemma upper_idem (s : string) : Py.upper (Py.upper s) = Py.upper s.
Proof.
  induction s as [|c r IH]; simpl; [reflexivity|].
  now rewrite upper_ascii_idem, IH.
Qed.

Lemma normalized_app (a b : string) :
  normalized (a +:+ b) = normalized a +:+ normalized b.
Proof. apply normalize_app. Qed.

Lemma lookup_chip_normalized (a b : string) :
  normalized a = normalized b -> _lookup_chip a = _lookup_chip b.
Proof.
  unfold normalized, _lookup_chip. cbv zeta. intros ->. reflexivity.
Qed.

(** Prefixes. *)
Lemma prefix_refl (s : string) : String.prefix s s = true.
Proof.
  induction s as [|c r IH]; [reflexivity|]. simpl.
  destruct (ascii_dec c c); [assumption | congruence].
Qed.

Lemma prefix_take (n : nat) (s : string) : String.prefix (Py.take n s) s = true.
Proof.
  unfold Py.take. revert n. induction s as [|c r IH]; intros [|n]; try reflexivity.
  simpl. destruct (ascii_dec c c); [apply IH | congruence].
Qed.

Lemma prefix_eq_length (a b : string) :
  String.prefix a b = true -> String.length a = String.length b -> a = b.
Proof.
  revert b. induction a as [|c a IH]; intros [|d b]; simpl; try discriminate; auto.
  destruct (ascii_dec c d) as [->|]; [|discriminate].
  intros H L. f_equal. apply IH; [assumption | lia].
Qed.

(** Two prefixes of one string: the shorter is a prefix of the longer. *)
Lemma prefix_comparable (a b s : string) :
  String.prefix a s = true -> String.prefix b s = true ->
  String.prefix a b = true \/ String.prefix b a = true.
Proof.
  revert b s. induction a as [|c a IH]; intros b s Ha Hb; [left; destruct b; reflexivity|].
  destruct b as [|d b]; [now right|].
  destruct s as [|e s]; [discriminate Ha|]. simpl in *.
  destruct (ascii_dec c e) as [->|]; [|discriminate].
  destruct (ascii_dec d e) as [->|]; [|discriminate].
  destruct (ascii_dec e e); [|congruence]. eauto.
Qed.

Lemma prefix_take_eq (a s : string) :
  String.prefix a s = true -> Py.take (String.length a) s = a.
Proof.
  unfold Py.take. revert s. induction a as [|c a IH]; intros [|d s]; simpl;
    try discriminate; auto.
  destruct (ascii_dec c d) as [->|]; [|discriminate].
  intros H. f_equal. now apply IH.
Qed.

Lemma take_take (n m : nat) (s : string) :
  (n <= m)%nat -> Py.take n (Py.take m s) = Py.take n s.
Proof.
  unfold Py.take. revert n m. induction s as [|c s IH]; intros [|n] [|m] H;
    simpl; try reflexivity; try lia.
  f_equal. apply IH. lia.
Qed.

(** The table: no key is a proper prefix of another key, and every key has
    at least nine characters. *)
Lemma keys_prefix_free (k1 k2 : string) :
  In k1 keys -> In k2 keys -> String.prefix k1 k2 = true -> k1 = k2.
Proof.
  intros H1 H2.
  assert (Hall : forallb (fun a => forallb (fun b =>
                   implb (String.prefix a b) (String.eqb a b)) keys) keys = true)
    by (vm_compute; reflexivity).
  rewrite forallb_forall in Hall. specialize (Hall k1 H1).
  rewrite forallb_forall in Hall. specialize (Hall k2 H2).
  intros Hp. rewrite Hp in Hall. now apply String.eqb_eq.
Qed.

Lemma keys_long (k : string) : In k keys -> (9 <= String.length k)%nat.
Proof.
  intros H.
  assert (Hall : forallb (fun a => (9 <=? String.length a)%nat) keys = true)
    by (vm_compute; reflexivity).
  rewrite forallb_forall in Hall. apply Nat.leb_le. now apply Hall.
Qed.

Lemma db_get_in (name : string) (info : ChipInfo) :
  db_get name = Some info -> In (name, info) CHIP_DB.
Proof.
  unfold db_get. destruct (find _ CHIP_DB) as [[k i]|] eqn:E; [|discriminate].
  cbn [fmap option_fmap option_map snd]. intros [= <-]. apply find_some in E as [Hin Hk]. cbn [fst] in Hk.
  apply String.eqb_eq in Hk. now subst.
Qed.

Lemma row_unique (k : string) (i1 i2 : ChipInfo) :
  In (k, i1) CHIP_DB -> In (k, i2) CHIP_DB -> i1 = i2.
Proof.
  intros H1 H2.
  pose proof (lookup_chip_key_suffix k "" i1 H1) as E1.
  pose proof (lookup_chip_key_suffix k "" i2 H2) as E2.
  congruence.
Qed.

(** A key that is a prefix of the name is the one the prefix scan finds. *)
Lemma prefix_row_key (k name : string) (info : ChipInfo) :
  In (k, info) CHIP_DB -> String.prefix k name = true ->
  prefix_row name = Some info.
Proof.
  intros Hin Hp. unfold prefix_row, Py.startswith.
  destruct (find _ CHIP_DB) as [[k' i']|] eqn:E.
  - apply find_some in E as [Hin' Hp']. cbn [fst] in Hp'. cbn [fmap option_fmap option_map snd].
    assert (Hk : In k keys) by (apply (in_map fst _ _ Hin)).
    assert (Hk' : In k' keys) by (apply (in_map fst _ _ Hin')).
    destruct (prefix_comparable _ _ _ Hp Hp') as [H|H].
    + apply (keys_prefix_free _ _ Hk Hk') in H. subst k'.
      f_equal. now apply (row_unique k).
    + apply (keys_prefix_free _ _ Hk' Hk) in H. subst k'.
      f_equal. now apply (row_unique k).
  - exfalso. apply (find_none _ _ E) in Hin. cbn [fst] in Hin. congruence.
Qed.

Lemma strip_suffix_prefix (name : string) (n : nat) :
  String.prefix (strip_suffix name n) name = true.
Proof.
  unfold strip_suffix. destruct (n <? String.length name)%nat.
  - apply prefix_take.
  - apply prefix_refl.
Qed.

Lemma lookup_stripped_prefix_row (name : string) (lens : list nat) (info : ChipInfo) :
  lookup_stripped name lens = Some info -> prefix_row name = Some info.
Proof.
  induction lens as [|n lens IH]; [discriminate|]. cbn [lookup_stripped].
  destruct (db_get (strip_suffix name n)) as [i|] eqn:E; [|exact IH].
  intros [= <-]. apply db_get_in in E.
  apply (prefix_row_key _ _ _ E). apply strip_suffix_prefix.
Qed.

(** The cascade is the prefix scan followed by the family fallback: the
    exact match and the suffix stripping never decide differently. *)
Lemma lookup_chip_two_steps (chip_name : string) :
  _lookup_chip chip_name =
  match prefix_row (normalized chip_name) with
  | Some info => Some info
  | None => family_row (normalized chip_name)
  end.
Proof.
  unfold _lookup_chip. cbv zeta. fold (normalized chip_name).
  set (name := normalized chip_name).
  destruct (db_get name) as [i|] eqn:E1.
  { apply db_get_in in E1.
    now rewrite (prefix_row_key _ _ _ E1 (prefix_refl name)). }
  destruct (lookup_stripped name [2; 1]%nat) as [i|] eqn:E2.
  { now rewrite (lookup_stripped_prefix_row _ _ _ E2). }
  unfold prefix_row, family_row.
  destruct (find (fun kv => Py.startswith name (fst kv)) CHIP_DB) as [kv|];
    [reflexivity|].
  cbn [fmap option_fmap option_map].
  destruct (re_family_prefix name) as [p|]; [|reflexivity].
  destruct (find _ CHIP_DB); reflexivity.
Qed.

Lemma re_family_prefix_take (name : string) :
  re_family_prefix (Py.take 9 name) = re_family_prefix name.
Proof.
  destruct name as [|c1 [|c2 [|c3 [|c4 [|c5 [|c6 [|c7 [|c8 [|c9 r]]]]]]]]];
    try reflexivity.
  unfold re_family_prefix, Py.take. destruct r; reflexivity.
Qed.

Lemma re_family_prefix_shape (name p : string) :
  re_family_prefix name = Some p -> p = Py.take 9 name /\ String.length p = 9%nat.
Proof.
  destruct name as [|c1 [|c2 [|c3 [|c4 [|c5 [|c6 [|c7 [|c8 [|c9 r]]]]]]]]];
    try discriminate; unfold re_family_prefix;
    repeat match goal with
           | |- context [match ?c with Ascii _ _ _ _ _ _ _ _ => _ end] =>
               destruct c as [[] [] [] [] [] [] [] []]; try discriminate
           end.
  destruct (_ && _); [|discriminate]. intros [= <-]. destruct r; split; reflexivity.
Qed.

Lemma keys_family_prefix (k : string) :
  In k keys -> re_family_prefix k = Some (Py.take 9 k).
Proof.
  intros H.
  assert (Hall : forallb (fun a =>
            match re_family_prefix a with
            | Some p => String.eqb p (Py.take 9 a)
            | None => false
            end) keys = true) by (vm_compute; reflexivity).
  rewrite forallb_forall in Hall. specialize (Hall k H).
  destruct (re_family_prefix k) as [p|]; [|discriminate].
  apply String.eqb_eq in Hall. now subst.
Qed.

Lemma prefix_take_9 (k name : string) :
  In k keys -> String.prefix k name = true -> Py.take 9 k = Py.take 9 name.
Proof.
  intros Hk Hp. rewrite <- (prefix_take_eq _ _ Hp) at 1.
  apply take_take. now apply keys_long.
Qed.

Lemma find_row_in (f : string * ChipInfo -> bool) (kv : string * ChipInfo) :
  find f CHIP_DB = Some kv ->
  In (fst kv, snd kv) CHIP_DB /\ In (fst kv) keys /\ f kv = true.
Proof.
  intros E. apply find_some in E as [Hin Hf]. destruct kv as [k i].
  split; [exact Hin|]. split; [apply (in_map fst _ _ Hin) | exact Hf].
Qed.

Lemma lookup_chip_in_line (chip_name : string) (info : ChipInfo) :
  _lookup_chip chip_name = Some info ->
  exists key, In (key, info) CHIP_DB /\
              Py.take 9 key = Py.take 9 (normalized chip_name).
Proof.
  rewrite lookup_chip_two_steps. set (name := normalized chip_name).
  unfold prefix_row, family_row.
  destruct (find (fun kv => Py.startswith name (fst kv)) CHIP_DB) as [kv|] eqn:E1.
  - cbn [fmap option_fmap option_map]. intros [= <-].
    apply find_row_in in E1 as (Hin & Hk & Hp). exists (fst kv).
    split; [exact Hin|]. now apply prefix_take_9.
  - cbn [fmap option_fmap option_map].
    destruct (re_family_prefix name) as [p|] eqn:E2; [|discriminate].
    destruct (find (fun kv => Py.startswith (fst kv) p) CHIP_DB) as [kv|] eqn:E3;
      cbn [fmap option_fmap option_map]; [|discriminate].
    intros [= <-].
    apply find_row_in in E3 as (Hin & Hk & Hp). exists (fst kv).
    split; [exact Hin|].
    apply re_family_prefix_shape in E2 as [E2 Hlen]. rewrite <- E2.
    unfold Py.startswith in Hp. apply prefix_take_eq in Hp.
    now rewrite Hlen in Hp.
Qed.

End MoreLookupFacts.

(** ** More facts about the generated startup unit *)

Section MoreStartupFacts.

Import Read More.

Lemma named_in (n : string) (irq : list (option string)) :
  In n (named irq) <-> In (Some n) irq.
Proof.
  unfold named. induction irq as [|e irq IH]; [reflexivity|].
  destruct e as [m|]; cbn [omap list_omap id In].
  - rewrite IH. split; intros [H|H]; auto; left; congruence.
  - rewrite IH. split; [auto|]. intros [H|H]; [discriminate | exact H].
Qed.

Lemma slot_word_in (w : string) (irq : list (option string)) :
  In w (map slot_word irq) -> w = "0" \/ In w (named irq).
Proof.
  intros H. apply in_map_iff in H as (e & <- & He).
  destruct e as [n|]; [right | now left]. now apply named_in.
Qed.

Lemma named_slot_word (n : string) (irq : list (option string)) :
  In n (named irq) -> In n (map slot_word irq).
Proof.
  intros H. apply named_in in H. apply in_map_iff. now exists (Some n).
Qed.

Lemma omap_cons {A B : Type} (f : A -> option B) (a : A) (l : list A) :
  omap f (a :: l) = match f a with
                    | Some b => b :: omap f l
                    | None => omap f l
                    end.
Proof. reflexivity. Qed.

(** The generated lines of the startup unit load no symbol. *)
Lemma vec_lines_no_ldr (irq : list (option string)) :
  omap ldr_symbol (or_blank (vec_lines irq)) = [].
Proof.
  destruct irq as [|e0 irq0]; [reflexivity|].
  change (or_blank (vec_lines (e0 :: irq0))) with (vec_lines (e0 :: irq0)).
  generalize (e0 :: irq0). intros irq. unfold vec_lines.
  induction irq as [|e irq IH]; [reflexivity|].
  cbn [map]. rewrite omap_cons, IH. unfold vec_line. now destruct (truthy e).
Qed.

Lemma weak_flat_no_ldr (irq : list (option string)) :
  omap ldr_symbol (or_blank (weak_flat irq)) = [].
Proof.
  assert (H : omap ldr_symbol (weak_flat irq) = []).
  { induction irq as [|e irq IH]; [reflexivity|]. cbn [weak_flat].
    destruct (truthy e); [|exact IH]. now rewrite !omap_cons, IH. }
  destruct (weak_flat irq); [reflexivity | exact H].
Qed.

Lemma omap_app {A B : Type} (f : A -> option B) (l1 l2 : list A) :
  omap f (l1 ++ l2) = omap f l1 ++ omap f l2.
Proof.
  induction l1 as [|a l1 IH]; [reflexivity|]. cbn [app].
  rewrite !omap_cons, IH. now destruct (f a).
Qed.

Lemma gen_startup_loaded_symbols (cpu : string) (irq : list (option string)) :
  no_nl cpu = true -> forallb entry_ok irq = true ->
  loaded_symbols (_gen_startup cpu irq) =
  ["_estack"; "_sdata"; "_edata"; "_etext"; "_sbss"; "_ebss"].
Proof.
  intros Hcpu Hirq. unfold loaded_symbols.
  rewrite (gen_startup_lines _ _ Hcpu Hirq). unfold startup_lines.
  rewrite !omap_app, vec_lines_no_ldr, weak_flat_no_ldr. reflexivity.
Qed.

Lemma gen_linker_script_assigned (flash_k ram_k : Z) (sym : string) :
  In sym ["_estack"; "_sdata"; "_edata"; "_etext"; "_sbss"; "_ebss"] ->
  In sym (assigned_symbols (_gen_linker_script flash_k ram_k)).
Proof.
  intros H. unfold assigned_symbols. apply in_flat_map.
  assert (Hall : forallb (fun x =>
                   existsb (fun l => existsb (String.eqb x) (assigned_in (pieces l)))
                           linker_fixed_lines)
                   ["_estack"; "_sdata"; "_edata"; "_etext"; "_sbss"; "_ebss"] = true)
    by (vm_compute; reflexivity).
  rewrite forallb_forall in Hall. specialize (Hall sym H).
  apply existsb_exists in Hall as (l & Hl & Hx).
  apply existsb_exists in Hx as (y & Hy & E). apply String.eqb_eq in E. subst y.
  exists l. split; [|exact Hy].
  rewrite gen_linker_script_lines. now do 3 right.
Qed.

End MoreStartupFacts.

(** ** More facts about the session *)

Section MoreSessionFacts.

Import Post More.

Lemma append_inv_tail (x y t : string) : x +:+ t = y +:+ t -> x = y.
Proof.
  assert (L : forall a b : string,
             String.length (a +:+ b) = (String.length a + String.length b)%nat).
  { induction a as [|c a IH]; intros b; simpl; [reflexivity|]. now rewrite IH. }
  revert y. induction x as [|c x IH]; intros [|d y] H.
  - reflexivity.
  - apply (f_equal String.length) in H. simpl in H. rewrite L in H. lia.
  - apply (f_equal String.length) in H. simpl in H. rewrite L in H. lia.
  - simpl in H. injection H as -> H. f_equal. now apply IH.
Qed.

Lemma nodup_b_spec (l : list (list string)) : nodup_b l = true <-> List.NoDup l.
Proof.
  unfold nodup_b. rewrite bool_decide_eq_true. apply NoDup_ListNoDup.
Qed.

Lemma NoDup_map_filter {A B : Type} (g : A -> B) (P : A -> bool) (l : list A) :
  List.NoDup (map g l) -> List.NoDup (map g (List.filter P l)).
Proof.
  induction l as [|a l IH]; [auto|]. cbn [map List.filter]. intros H.
  inversion H as [|? ? Ha Hl]; subst.
  destruct (P a); [|auto]. cbn [map]. constructor; [|auto].
  intros Hin. apply Ha. apply in_map_iff in Hin as (x & E & Hx).
  apply in_map_iff. exists x. split; [exact E|].
  apply filter_In in Hx. tauto.
Qed.

Lemma assoc_get_in {A : Type} (key : string) (d : list (string * A)) (v : A) :
  assoc_get key d = Some v -> In (key, v) d.
Proof.
  unfold assoc_get. destruct (find _ d) as [[k x]|] eqn:E; [|discriminate].
  cbn [fmap option_fmap option_map snd]. intros [= <-].
  apply find_some in E as [Hin Hk]. cbn [fst] in Hk.
  apply String.eqb_eq in Hk. now subst.
Qed.

(** Every family lists each of its files once, and no two files of a list
    have the same stem. *)
Lemma family_hal_files_distinct (family : string) :
  let l := default [] (assoc_get family _FAMILY_HAL_FILES) in
  List.NoDup l /\ List.NoDup (map (fun f => path_stem [f]) l).
Proof.
  cbv zeta.
  destruct (assoc_get family _FAMILY_HAL_FILES) as [l|] eqn:E;
    [|split; constructor].
  apply assoc_get_in in E. cbn [default].
  assert (Hall : forallb (fun kv => bool_decide (NoDup (snd kv)) &&
                            bool_decide (NoDup (map (fun f => path_stem [f]) (snd kv))))
                         _FAMILY_HAL_FILES = true) by (vm_compute; reflexivity).
  rewrite forallb_forall in Hall. specialize (Hall _ E). cbn [snd] in Hall.
  apply andb_true_iff in Hall as [H1 H2].
  apply bool_decide_eq_true in H1, H2. now rewrite <- !NoDup_ListNoDup.
Qed.

Lemma path_stem_div (d : Path) (f : string) : path_stem (d // f) = path_stem [f].
Proof.
  unfold path_stem, path_name, path_div. now rewrite last_last.
Qed.

Lemma present_sources_nodup (family : string) (w : World) :
  List.NoDup (present_sources family w).
Proof.
  unfold present_sources.
  apply Finite.Injective_map_NoDup_in.
  - intros x y _ _ E. unfold path_div in E. apply app_inv_head in E. congruence.
  - apply List.NoDup_filter, family_hal_files_distinct.
Qed.

Lemma present_sources_objs_nodup (family fam : string) (w : World) :
  List.NoDup (map (obj_of fam) (present_sources family w)).
Proof.
  unfold present_sources. rewrite map_map.
  apply (NoDup_map_filter (fun f => obj_of fam (HAL_DIR // "Src" // f))).
  destruct (family_hal_files_distinct family) as [_ H]. revert H.
  generalize (default [] (assoc_get family _FAMILY_HAL_FILES)). intros l H.
  rewrite <- (map_map (fun f => path_stem [f])
                      (fun st => obj_dir_of fam // (st +:+ ".o"))).
  apply Finite.Injective_map_NoDup_in; [|exact H].
  intros x y _ _ E. unfold path_div in E. apply app_inv_head in E.
  injection E as E. now apply append_inv_tail in E.
Qed.

(** *** Effects on the disk *)

Lemma touches_refl (W D : Path -> Prop) (m : gmap Path File) : touches W D m m.
Proof. intros p. now left. Qed.

Lemma touches_trans (W D : Path -> Prop) (m1 m2 m3 : gmap Path File) :
  touches W D m1 m2 -> touches W D m2 m3 -> touches W D m1 m3.
Proof.
  intros H1 H2 p. destruct (H2 p) as [E|[H|H]]; [|now right; left | now right; right].
  rewrite E. apply H1.
Qed.

Lemma touches_weaken (W W' D D' : Path -> Prop) (m m' : gmap Path File) :
  (forall p, W p -> W' p) -> (forall p, D p -> D' p) ->
  touches W D m m' -> touches W' D' m m'.
Proof.
  intros HW HD H p. destruct (H p) as [E|[[Hp Hs]|Hp]]; auto.
Qed.

Lemma touches_insert (W D : Path -> Prop) (m : gmap Path File) (q : Path) (f : File) :
  W q -> touches W D m (<[q := f]> m).
Proof.
  intros Hq p. destruct (decide (p = q)) as [->|Hne].
  - right. left. split; [exact Hq|]. rewrite lookup_insert_eq. eauto.
  - left. now apply lookup_insert_ne.
Qed.

Lemma touches_delete (W D : Path -> Prop) (m : gmap Path File) (q : Path) :
  D q -> touches W D m (delete q m).
Proof.
  intros Hq p. destruct (decide (p = q)) as [->|Hne].
  - now right; right.
  - left. now apply lookup_delete_ne.
Qed.

(** What is not to be deleted stays. *)
Lemma touches_keeps (W D : Path -> Prop) (m m' : gmap Path File) (p : Path) :
  touches W D m m' -> ~ D p -> is_Some (m !! p) -> is_Some (m' !! p).
Proof.
  intros H Hd Hp. destruct (H p) as [E|[[_ Hs]|Hp']];
    [now rewrite E | exact Hs | contradiction].
Qed.

(** What is neither to be written nor to be deleted is left as it was. *)
Lemma touches_frame (W D : Path -> Prop) (m m' : gmap Path File) (p : Path) :
  touches W D m m' -> ~ W p -> ~ D p -> m' !! p = m !! p.
Proof.
  intros H Hw Hd. destruct (H p) as [E|[[Hp _]|Hp]]; [exact E | |]; contradiction.
Qed.

(** *** The session invariant *)

Lemma products_not_lib (family : string) : ~ products (lib_path_of family).
Proof. intros [E|E]; cbn in E; discriminate E. Qed.

Lemma products_not_source (p : Path) : is_hal_source p = true -> ~ products p.
Proof.
  intros H. apply hal_source_shape in H as [f ->].
  intros [E|E]; cbn in E; discriminate E.
Qed.

Lemma path_exists_is_Some (w : World) (p : Path) :
  path_exists w p = true <-> is_Some (fs w !! p).
Proof.
  unfold path_exists. destruct (fs w !! p); split; intros H; eauto;
    try discriminate. now destruct H.
Qed.

Lemma path_exists_keeps (W : Path -> Prop) (w w' : World) (p : Path) :
  touches W products (fs w) (fs w') -> ~ products p ->
  path_exists w p = true -> path_exists w' p = true.
Proof.
  intros Ht Hp. rewrite !path_exists_is_Some. now apply (touches_keeps _ _ _ _ _ Ht).
Qed.

(** The invariant looks at the disk only for the archive and the listed
    sources, which no method deletes. *)
Lemma session_ok_touches (W : Path -> Prop) (c : Compiler) (w w' : World) :
  touches W products (fs w) (fs w') ->
  session_ok (mkState c w) = true -> session_ok (mkState c w') = true.
Proof.
  intros Ht. unfold session_ok, lib_flag_ok, listing_ok, sources_ok. cbn [self world].
  intros H. apply andb_true_iff in H as [H H4]. apply andb_true_iff in H as [H H3].
  apply andb_true_iff in H4 as [H4 H6]. apply andb_true_iff in H4 as [H4 H5].
  rewrite H, H5, H6, !andb_true_r. cbn [andb]. apply andb_true_iff. split.
  - destruct (has_hal_lib c); [|reflexivity]. cbn [implb] in *.
    apply andb_true_iff in H3 as [Hcb Hl]. rewrite Hcb. cbn [andb].
    apply (path_exists_keeps _ _ _ _ Ht); [apply products_not_lib | exact Hl].
  - rewrite forallb_forall in *. intros p Hp. specialize (H4 p Hp).
    unfold source_ok in *. apply andb_true_iff in H4 as [Hs He]. rewrite Hs.
    cbn [andb]. apply (path_exists_keeps _ _ _ _ Ht); [|exact He].
    now apply products_not_source.
Qed.

Lemma session_ok_spec (s : State) :
  session_ok s = true <->
  chip_family_ok (self s) = true /\ no_hal_ok (self s) = true /\
  lib_flag_ok s = true /\ listing_ok s = true.
Proof. unfold session_ok. rewrite !andb_true_iff. tauto. Qed.

Lemma lib_flag_ok_spec (s : State) :
  lib_flag_ok s = true <->
  (has_hal_lib (self s) = true ->
   can_build (self s) = true /\
   path_exists (world s) (lib_path_of (family_of (self s))) = true).
Proof.
  unfold lib_flag_ok. destruct (has_hal_lib (self s)); cbn [implb].
  - rewrite andb_true_iff. tauto.
  - split; [discriminate | reflexivity].
Qed.

Lemma session_ok_has_gcc (s : State) :
  session_ok s = true ->
  session_ok (mkState (set_has_gcc true (self s)) (world s)) = true.
Proof.
  rewrite !session_ok_spec, !lib_flag_ok_spec. cbn [self world].
  intros (H1 & H2 & H3 & H4). split; [exact H1|]. split; [exact H2|].
  split; [|exact H4]. cbn [set_has_gcc has_hal_lib]. intros Hl.
  destruct (H3 Hl) as [Hcb Hp]. split; [|exact Hp].
  unfold can_build in *. cbn [set_has_gcc _chip_info has_hal has_gcc].
  destruct (_chip_info (self s)); [|discriminate].
  apply andb_true_iff in Hcb as [-> _]. reflexivity.
Qed.

Lemma session_ok_has_specs (b : bool) (s : State) :
  session_ok s = true ->
  session_ok (mkState (set_has_specs b (self s)) (world s)) = true.
Proof. intros H. exact H. Qed.

Lemma session_ok_has_hal_lib (s : State) :
  can_build (self s) = true ->
  path_exists (world s) (lib_path_of (family_of (self s))) = true ->
  session_ok s = true ->
  session_ok (mkState (set_has_hal_lib true (self s)) (world s)) = true.
Proof.
  intros Hcb Hp. rewrite !session_ok_spec, !lib_flag_ok_spec. cbn [self world].
  intros (H1 & H2 & H3 & H4). split; [exact H1|]. split; [exact H2|].
  split; [|exact H4]. intros _. split; [exact Hcb | exact Hp].
Qed.

(** What [_find_hal] lists is in place, listed once, and no two listed
    sources share an object. *)
Lemma find_hal_self_listing (family : string) (w : World) (c : Compiler) :
  listing_ok (mkState (find_hal_self family w c) w) = true.
Proof.
  unfold listing_ok, sources_ok. cbn [self world]. unfold find_hal_self.
  destruct (path_exists w (hal_header family)); cbn [hal_src_files]; [|reflexivity].
  rewrite !andb_true_iff. split; [split|].
  - apply forallb_forall. intros p Hp.
    apply present_sources_spec in Hp as (f & _ & -> & He).
    unfold source_ok. now rewrite He.
  - apply nodup_b_spec, present_sources_nodup.
  - apply nodup_b_spec, present_sources_objs_nodup.
Qed.

Lemma find_hal_self_no_hal (family : string) (w : World) (c : Compiler) :
  no_hal_ok (find_hal_self family w c) = true /\
  has_hal_lib (find_hal_self family w c) = false /\
  _chip_info (find_hal_self family w c) = _chip_info c /\
  _current_family (find_hal_self family w c) = _current_family c /\
  has_gcc (find_hal_self family w c) = has_gcc c.
Proof.
  unfold find_hal_self. destruct (path_exists w (hal_header family)); repeat split.
Qed.

Lemma chip_files_touches (D : Path -> Prop) (info : ChipInfo) (w : World) :
  touches generated D (fs w) (chip_files info w).
Proof.
  unfold chip_files. eapply touches_trans; apply touches_insert.
  - now left.
  - now right.
Qed.

Lemma family_differs_false (fam : string) (current : option string) :
  family_differs fam current = false <-> current = Some fam.
Proof.
  unfold family_differs. destruct current as [f|]; [|split; discriminate].
  rewrite negb_false_iff, String.eqb_eq. split; congruence.
Qed.

(** [set_chip] keeps the invariant. *)
Lemma set_chip_ok (chip_name : string) (s : State) :
  session_ok s = true ->
  session_ok (mkState (set_chip_self chip_name (world s) (self s))
                      (set_chip_world chip_name (world s))) = true.
Proof.
  intros H. unfold set_chip_self. cbv zeta.
  destruct (family_differs _ _) eqn:Ed.
  - apply session_ok_spec. cbn [self world].
    destruct (find_hal_self_no_hal (family (resolve chip_name))
                (set_chip_world chip_name (world s))
                (set_current_family (Some (family (resolve chip_name)))
                   (set_chip_info (Some (resolve chip_name)) (self s))))
      as (Hn & Hl & Hci & Hcf & _).
    split; [|split; [exact Hn|split]].
    + unfold chip_family_ok. rewrite Hci, Hcf. cbn. apply String.eqb_refl.
    + apply lib_flag_ok_spec. cbn [self]. rewrite Hl. discriminate.
    + apply find_hal_self_listing.
  - apply family_differs_false in Ed.
    apply (session_ok_touches generated _ (world s)).
    { apply chip_files_touches. }
    apply session_ok_spec in H as (H1 & H2 & H3 & H4).
    apply session_ok_spec. cbn [self world].
    split; [|split; [exact H2|split; [|exact H4]]].
    + unfold chip_family_ok. cbn [set_chip_info _chip_info _current_family].
      rewrite Ed. apply String.eqb_refl.
    + apply lib_flag_ok_spec. rewrite lib_flag_ok_spec in H3.
      cbn [self world set_chip_info has_hal_lib]. intros Hl.
      destruct (H3 Hl) as [Hcb Hp]. split; [|exact Hp].
      unfold can_build in *. cbn [set_chip_info _chip_info has_hal has_gcc].
      now destruct (_chip_info (self s)).
Qed.

(** A command-line argument that names a file of the HAL tree. *)
Lemma hal_source_arg (src : Path) :
  is_hal_source src = true -> String.prefix "workspace/hal/" (path_str src) = true.
Proof. intros H. apply hal_source_shape in H as [f ->]. reflexivity. Qed.

Lemma inc_flags_no_hal_arg (dirs : list Path) :
  forallb (fun a => negb (String.prefix "workspace/hal/" a)) (inc_flags dirs) = true.
Proof. induction dirs as [|d l IH]; [reflexivity | exact IH]. Qed.

(** On the fast path the command names no file of the HAL tree, and it
    names the archive of the family in the build directory. *)
Lemma compile_cmd_fast_path (c : Compiler) (ci : ChipInfo) :
  has_hal c = true -> has_hal_lib c = true ->
  forallb (fun a => negb (String.prefix "workspace/hal/" a)) (compile_cmd c ci) = true /\
  In ("-L" +:+ path_str BUILD_DIR) (compile_cmd c ci) /\
  In ("-lstm32hal_" +:+ family_of c) (compile_cmd c ci).
Proof.
  intros Hh Hl. unfold compile_cmd. rewrite Hh, Hl. cbv zeta. split; [|split].
  - rewrite !forallb_app, inc_flags_no_hal_arg.
    destruct ci as [cpu0 flash0 ram0 def0 fam0 [|]]; destruct (has_specs c); reflexivity.
  - rewrite !in_app_iff. do 7 right. left. now left.
  - rewrite !in_app_iff. do 7 right. left. right. now left.
Qed.

Section MoreToolchainFacts.

Variable toolchain : World -> list string -> proc_result.
Variable tool_data : World -> list string -> string.

Lemma run_world_touches (D : Path -> Prop) (cmd : list string)
    (outputs : list Path) (w : World) :
  touches (fun p => In p outputs) D (fs w)
          (fs (run_world toolchain tool_data cmd outputs w)).
Proof.
  unfold run_world. cbn [fs].
  destruct (toolchain w cmd) as [[|rc|rc] out err| |e]; try apply touches_refl.
  generalize (mkFile (clock w + 1) (tool_data w cmd)). intros f.
  induction outputs as [|q outs IH]; [apply touches_refl|]. cbn [foldr].
  eapply touches_trans.
  - eapply touches_weaken; [| |exact IH]; [|auto]. intros p Hp. now right.
  - apply touches_insert. now left.
Qed.

Lemma run_world_same (cmd : list string) (outputs : list Path) (w : World) :
  stdout (run_world toolchain tool_data cmd outputs w) = stdout w /\
  procs (run_world toolchain tool_data cmd outputs w) = procs w ++ [(cmd, fs w)].
Proof. split; reflexivity. Qed.

(** The compile loop, however it ends: it never raises, leaves the session
    attributes alone and writes nothing but objects of its units. *)
Lemma compile_units_effect (ci : ChipInfo) (incs : list Path)
    (units : list (Path * Path)) (s : State) :
  exists (b : bool) (s' : State),
    compile_units toolchain tool_data ci incs units s = (Ok b, s') /\
    self s' = self s /\
    touches (fun p => In p (map snd units)) no_path
            (fs (world s)) (fs (world s')).
Proof.
  revert s. induction units as [|[src obj] rest IH]; intros s.
  - exists true, s. split; [reflexivity|]. split; [reflexivity | apply touches_refl].
  - cbn [compile_units]. unfold mbind at 1, M_bind at 1. rewrite run_run.
    assert (Hrun : touches (fun p => In p (map snd ((src, obj) :: rest))) no_path
                     (fs (world s))
                     (fs (run_world toolchain tool_data
                            (hal_cc_cmd ci incs src obj) [obj] (world s)))).
    { eapply touches_weaken; [| |apply (run_world_touches no_path)]; [|auto].
      cbn beta. intros p [<-|[]]. now left. }
    destruct (toolchain (world s) _) as [rc out err| |e] eqn:Er.
    + destruct (rc =? 0).
      * destruct (IH (mkState (self s) (run_world toolchain tool_data
                        (hal_cc_cmd ci incs src obj) [obj] (world s))))
          as (b & s' & E & Hself & Ht).
        exists b, s'. split; [exact E|]. split; [exact Hself|].
        eapply touches_trans; [exact Hrun|].
        eapply touches_weaken; [| |exact Ht]; [|auto].
        intros p Hp. now right.
      * eexists. eexists. split; [reflexivity|]. split; [reflexivity|]. exact Hrun.
    + eexists. eexists. split; [reflexivity|]. split; [reflexivity|]. exact Hrun.
    + eexists. eexists. split; [reflexivity|]. split; [reflexivity|]. exact Hrun.
Qed.

Lemma scan_pure_units (m : gmap Path File) (family : string) (srcs : list Path)
    (sc : list (Path * Path) * list Path) :
  scan_pure m (obj_dir_of family) srcs = Ok sc ->
  snd sc = map (obj_of family) srcs /\
  forall p : Path, In p (map snd (fst sc)) ->
    exists src : Path, In src srcs /\ p = obj_of family src.
Proof.
  revert sc. induction srcs as [|src rest IH]; intros sc.
  - intros [= <-]. split; [reflexivity|]. intros p [].
  - cbn [scan_pure]. destruct (stale_pure m src _) as [stale|e]; [|discriminate].
    destruct (scan_pure m (obj_dir_of family) rest) as [r|e]; [|discriminate].
    intros [= <-]. destruct (IH r eq_refl) as [Hs Hu]. cbn [fst snd]. split.
    + cbn [map]. now rewrite Hs.
    + intros p Hp. rewrite map_app in Hp. apply in_app_or in Hp as [Hp|Hp].
      * destruct stale; [|destruct Hp]. destruct Hp as [<-|[]].
        exists src. split; [now left | reflexivity].
      * destruct (Hu p Hp) as (x & Hx & ->). exists x. split; [now right | reflexivity].
Qed.

(** A scan raises only for a listed source that is missing while its
    object exists. *)
Lemma scan_pure_raises (m : gmap Path File) (family : string) (srcs : list Path)
    (e : exn) :
  scan_pure m (obj_dir_of family) srcs = Raise e ->
  exists src : Path,
    e = FileNotFoundError src /\ In src srcs /\
    m !! src = None /\ is_Some (m !! obj_of family src).
Proof.
  induction srcs as [|src rest IH]; [discriminate|].
  cbn [scan_pure]. unfold stale_pure at 1.
  fold (obj_of family src).
  destruct (m !! obj_of family src) as [fo|] eqn:Eo.
  - destruct (m !! src) as [fsrc|] eqn:Es.
    + destruct (scan_pure m (obj_dir_of family) rest) as [r|e'] eqn:Er; [discriminate|].
      intros [= <-]. destruct (IH eq_refl) as (x & -> & Hin & Hx & Ho).
      exists x. split; [reflexivity|]. split; [now right|]. now split.
    + intros [= <-]. exists src. split; [reflexivity|]. split; [now left|].
      split; [exact Es|]. rewrite Eo. eauto.
  - destruct (scan_pure m (obj_dir_of family) rest) as [r|e'] eqn:Er; [discriminate|].
    intros [= <-]. destruct (IH eq_refl) as (x & -> & Hin & Hx & Ho).
    exists x. split; [reflexivity|]. split; [now right|]. now split.
Qed.

Lemma mkdir_world_touches (W D : Path -> Prop) (p : Path) (w : World) :
  W p -> touches W D (fs w) (fs (mkdir_world p w)).
Proof.
  intros Hp. unfold mkdir_world. destruct (fs w !! p); [apply touches_refl|].
  cbn [fs]. now apply touches_insert.
Qed.

Lemma archive_objects_effect (family : string) (obj_files : list Path) (s : State) :
  exists (b : bool) (s' : State),
    archive_objects toolchain tool_data family obj_files s = (Ok b, s') /\
    touches (fun p => p = lib_path_of family) no_path
            (fs (world s)) (fs (world s')) /\
    if b then self s' = set_has_hal_lib true (self s) /\
              path_exists (world s') (lib_path_of family) = true
    else self s' = self s.
Proof.
  unfold archive_objects. cbv zeta.
  destruct (is_nil _).
  { exists false, s. split; [reflexivity|]. split; [apply touches_refl | reflexivity]. }
  set (cmd := hal_ar_cmd _ _).
  assert (Ht : touches (fun p => p = lib_path_of family) no_path (fs (world s))
                 (fs (run_world toolchain tool_data cmd [lib_path_of family] (world s)))).
  { eapply touches_weaken; [| |apply (run_world_touches no_path)]; [|auto].
    cbn beta. intros p [<-|[]]. reflexivity. }
  assert (Hl : forall out err, toolchain (world s) cmd = Exited 0 out err ->
               exists f, fs (run_world toolchain tool_data cmd [lib_path_of family]
                                       (world s)) !! lib_path_of family = Some f).
  { intros out err E. unfold run_world. rewrite E. cbn [fs foldr].
    rewrite lookup_insert_eq. eauto. }
  destruct (toolchain (world s) cmd) as [rc out err| |e] eqn:Er.
  - destruct (rc =? 0) eqn:Erc.
    + apply Z.eqb_eq in Erc. subst rc. destruct (Hl out err eq_refl) as [f Hf].
      rewrite Hf. exists true. eexists. split; [reflexivity|]. cbn [self world fs].
      split; [exact Ht|]. split; [reflexivity|].
      unfold path_exists. cbn [fs]. now rewrite Hf.
    + exists false. eexists. split; [reflexivity|]. cbn [self world fs]. now split.
  - exists false. eexists. split; [reflexivity|]. cbn [self world fs]. now split.
  - exists false. eexists. split; [reflexivity|]. cbn [self world fs]. now split.
Qed.

(** [precompile_hal], however it ends. *)
Lemma precompile_hal_effect (s : State) :
  exists (r : result bool) (s' : State),
    precompile_hal toolchain tool_data s = (r, s') /\
    touches (cache_paths (self s)) no_path (fs (world s)) (fs (world s')) /\
    match r with
    | Ok true =>
        self s' = set_has_hal_lib true (self s) /\
        can_build (self s) = true /\
        path_exists (world s') (lib_path_of (family_of (self s))) = true
    | Ok false => self s' = self s
    | Raise e =>
        self s' = self s /\ can_build (self s) = true /\
        procs (world s') = procs (world s) /\
        exists src : Path,
          e = FileNotFoundError src /\ In src (hal_src_files (self s)) /\
          fs (world s) !! src = None /\
          is_Some (fs (world s) !! obj_of (family_of (self s)) src)
    end.
Proof.
  rewrite precompile_hal_run. cbv zeta.
  destruct (can_build (self s)) eqn:Hcb.
  2:{ exists (Ok false), s. split; [reflexivity|]. split; [apply touches_refl | reflexivity]. }
  fold (family_of (self s)). set (fam := family_of (self s)).
  set (w1 := mkdir_world (obj_dir_of fam) (world s)). cbn [self world].
  assert (Hmk : touches (cache_paths (self s)) no_path (fs (world s)) (fs w1)).
  { apply mkdir_world_touches. now left. }
  destruct (scan_pure (fs w1) (obj_dir_of fam) (hal_src_files (self s)))
    as [sc|e] eqn:Esc.
  - destruct (scan_pure_units _ _ _ _ Esc) as [Hobjs Hunits].
    destruct (is_nil (fst sc) && path_exists w1 (lib_path_of fam)) eqn:Efast.
    + apply andb_true_iff in Efast as [_ Hlib].
      exists (Ok true). eexists. split; [reflexivity|]. cbn [self world].
      split; [exact Hmk|]. now repeat split.
    + set (s2 := with_line _ _).
      destruct (compile_units_effect (prepared_chip s) (hal_inc_dirs (self s))
                  (fst sc) s2) as (b & s3 & E3 & Hself3 & Ht3).
      rewrite E3.
      assert (Ht3' : touches (cache_paths (self s)) no_path (fs (world s)) (fs (world s3))).
      { eapply touches_trans; [exact Hmk|].
        eapply touches_weaken; [| |exact Ht3]; [|auto]. cbn beta.
        intros p Hp. right. right. now apply Hunits. }
      destruct b.
      * destruct (archive_objects_effect fam (snd sc) s3) as (b & s4 & E4 & Ht4 & Hb).
        rewrite E4. exists (Ok b), s4. split; [reflexivity|].
        assert (Ht4' : touches (cache_paths (self s)) no_path
                         (fs (world s)) (fs (world s4))).
        { eapply touches_trans; [exact Ht3'|].
          eapply touches_weaken; [| |exact Ht4]; [|auto]. cbn beta.
          intros p ->. right. now left. }
        split; [exact Ht4'|]. destruct b.
        -- destruct Hb as [Hs Hl]. rewrite Hs, Hself3. now repeat split.
        -- now rewrite Hb, Hself3.
      * exists (Ok false), s3. split; [reflexivity|]. split; [exact Ht3'|].
        exact Hself3.
  - exists (Raise e). eexists. split; [reflexivity|]. cbn [self world].
    split; [exact Hmk|]. split; [reflexivity|]. split; [reflexivity|].
    split; [apply mkdir_world_same|].
    apply scan_pure_raises in Esc as (src & -> & Hin & Hsrc & Hobj).
    exists src. split; [reflexivity|]. split; [exact Hin|]. split.
    + destruct (fs (world s) !! src) as [f|] eqn:Es; [|reflexivity].
      assert (Hs : is_Some (fs w1 !! src)).
      { apply (touches_keeps _ _ _ _ _ Hmk); [intros [] | rewrite Es; eauto]. }
      rewrite Hsrc in Hs. now destruct Hs.
    + unfold w1 in Hobj. rewrite mkdir_world_lookup in Hobj; [exact Hobj|].
      apply obj_ne_dir.
Qed.

(** *** The processes of a successful [precompile_hal] *)

Lemma stale_units_ext (m m' : gmap Path File) (family : string) (srcs : list Path) :
  (forall src, In src srcs ->
     m' !! src = m !! src /\ m' !! obj_of family src = m !! obj_of family src) ->
  stale_units m' family srcs = stale_units m family srcs.
Proof.
  intros H. unfold stale_units. f_equal.
  induction srcs as [|src rest IH]; [reflexivity|]. cbn [List.filter].
  destruct (H src (or_introl eq_refl)) as [E1 E2].
  assert (Ef : is_fresh m' src (obj_of family src) = is_fresh m src (obj_of family src))
    by (unfold is_fresh; now rewrite E1, E2).
  rewrite Ef, IH; [reflexivity|]. intros x Hx. apply H. now right.
Qed.

Lemma precompile_hal_true_procs (s s' : State) :
  let family := family_of (self s) in
  let stale := stale_units (fs (world s)) family (hal_src_files (self s)) in
  sources_ok s = true ->
  precompile_hal toolchain tool_data s = (Ok true, s') ->
  exists new : list (list string * gmap Path File),
    procs (world s') = procs (world s) ++ new /\
    ((stale = [] /\ path_exists (world s) (lib_path_of family) = true /\ new = []) \/
     map fst new =
       map (cc_of (prepared_chip s) (hal_inc_dirs (self s))) stale ++
       [hal_ar_cmd (lib_path_of family)
                   (map (obj_of family) (hal_src_files (self s)))]).
Proof.
  intros family stale Hsane H. rewrite precompile_hal_run in H. cbv zeta in H.
  destruct (can_build (self s)); [|discriminate H].
  fold (family_of (self s)) in H. fold family in H. cbn [self world] in H.
  set (w1 := mkdir_world (obj_dir_of family) (world s)) in *.
  assert (Hsrc : forall src, In src (hal_src_files (self s)) ->
            fs w1 !! src = fs (world s) !! src /\
            fs w1 !! obj_of family src = fs (world s) !! obj_of family src).
  { intros src Hin. destruct (sources_ok_spec s src Hsane Hin) as [Hh _].
    split; apply mkdir_world_lookup.
    - now apply (hal_source_apart src family []).
    - apply obj_ne_dir. }
  rewrite scan_pure_present in H.
  2:{ apply List.Forall_forall. intros src Hin.
      rewrite (proj1 (Hsrc src Hin)).
      destruct (sources_ok_spec s src Hsane Hin) as (_ & f & ->). eauto. }
  cbn [fst snd] in H. rewrite (stale_units_ext _ _ _ _ Hsrc) in H. fold stale in H.
  assert (Hlib : path_exists w1 (lib_path_of family) =
                 path_exists (world s) (lib_path_of family)).
  { unfold path_exists, w1. rewrite mkdir_world_lookup; [reflexivity|]. apply lib_ne_dir. }
  rewrite Hlib in H.
  assert (Hp1 : procs w1 = procs (world s)) by apply mkdir_world_same.
  destruct (is_nil stale && path_exists (world s) (lib_path_of family)) eqn:Efast.
  { injection H as <-. cbn [world]. exists []. rewrite app_nil_r.
    split; [exact Hp1|]. left. apply andb_true_iff in Efast as [Hn Hl].
    split; [now destruct stale | now split]. }
  set (s2 := with_line _ _) in H.
  destruct (compile_units toolchain tool_data (prepared_chip s) (hal_inc_dirs (self s))
              stale s2) as [[[|]|e] s3] eqn:E3; try discriminate H.
  apply compile_units_true in E3
    as (Hself & _ & _ & (new & Hprocs & Hnew) & Hframe & Hwritten).
  assert (Hall : forall p, In p (map (obj_of family) (hal_src_files (self s))) ->
            path_exists (world s3) p = true).
  { intros p Hp. apply path_exists_is_Some.
    destruct (List.in_dec (List.list_eq_dec String.string_dec) p (map snd stale))
      as [Hin|Hnin].
    - destruct (Hwritten p Hin) as (f & -> & _). eauto.
    - rewrite (Hframe p Hnin). apply in_map_iff in Hp as (src & <- & Hsrcin).
      pose proof (not_stale_fresh _ _ _ _ Hsrcin Hnin) as Hfr.
      apply is_fresh_spec in Hfr as (fo & _ & Ho & _).
      unfold s2, with_line. cbn [world fs].
      rewrite (proj2 (Hsrc src Hsrcin)), Ho. eauto. }
  unfold archive_objects in H. cbv zeta in H.
  rewrite (filter_all _ _ Hall) in H.
  destruct (is_nil (map (obj_of family) (hal_src_files (self s)))); [discriminate H|].
  set (ar := hal_ar_cmd _ _) in *.
  assert (Hp3 : procs (world s3) = procs (world s) ++ new).
  { rewrite Hprocs. unfold s2, with_line. cbn [world procs]. now rewrite Hp1. }
  exists (new ++ [(ar, fs (world s3))]). split.
  - destruct (toolchain (world s3) ar) as [rc out err| |e]; try discriminate H.
    destruct (rc =? 0); [|discriminate H].
    destruct (fs (run_world toolchain tool_data ar [lib_path_of family] (world s3))
                !! lib_path_of family); [|discriminate H].
    injection H as <-. cbn [world procs]. unfold run_world. cbn [procs].
    now rewrite Hp3, <- app_assoc.
  - right. rewrite map_app, Hnew. reflexivity.
Qed.

(** *** Methods keep the invariant *)

Lemma preserves_ret {A : Type} (I : State -> Prop) (a : A) : preserves I (mret a).
Proof. intros s H. exact H. Qed.

Lemma preserves_bind {A B : Type} (I : State -> Prop) (m : M A) (k : A -> M B) :
  preserves I m -> (forall a : A, preserves I (k a)) -> preserves I (m ≫= k).
Proof.
  intros Hm Hk s H. unfold mbind, M_bind. specialize (Hm s H).
  destruct (m s) as [[a|e] s1]; cbn [snd] in *; [now apply Hk | exact Hm].
Qed.

Lemma preserves_get_self (I : State -> Prop) : preserves I get_self.
Proof. intros s H. exact H. Qed.

Lemma set_chip_preserves (chip_name : string) : preserves ok_state (set_chip chip_name).
Proof. intros s H. rewrite set_chip_run. now apply set_chip_ok. Qed.

Lemma run_preserves (cmd : list string) (outputs : list Path) :
  preserves ok_state (run toolchain tool_data cmd outputs).
Proof.
  intros [c w] H. rewrite run_run. cbn [snd self world].
  apply (session_ok_touches (fun p => In p outputs) c w); [|exact H].
  apply run_world_touches.
Qed.

Lemma precompile_hal_preserves : preserves ok_state (precompile_hal toolchain tool_data).
Proof.
  intros s H. destruct (precompile_hal_effect s) as (r & s' & E & Ht & Hr).
  rewrite E. cbn [snd]. unfold ok_state in *.
  assert (H' : session_ok (mkState (self s) (world s')) = true).
  { apply (session_ok_touches (cache_paths (self s)) _ (world s)).
    - eapply touches_weaken; [| |exact Ht]; [auto | intros p []].
    - now destruct s. }
  destruct r as [[|]|e].
  - destruct Hr as (Hs & Hcb & Hl). destruct s' as [c' w']. cbn [self world] in *.
    subst c'. now apply (session_ok_has_hal_lib (mkState (self s) w')).
  - destruct s' as [c' w']. cbn [self world] in *. now subst c'.
  - destruct Hr as (Hs & _). destruct s' as [c' w']. cbn [self world] in *. now subst c'.
Qed.

Lemma init_ok (s : State) : session_ok (snd (__init__ s)) = true.
Proof. destruct s as [c w]. reflexivity. Qed.

Lemma check_preserves (chip_name : option string) :
  preserves ok_state (check toolchain tool_data chip_name).
Proof.
  unfold check.
  apply preserves_bind; [apply preserves_get_self|]. intros c0.
  apply preserves_bind.
  { destruct chip_name as [[|a r]|].
    - destruct (_chip_info c0); [apply preserves_ret|].
      apply preserves_bind; [apply set_chip_preserves | intros; apply preserves_ret].
    - apply preserves_bind; [apply set_chip_preserves | intros; apply preserves_ret].
    - destruct (_chip_info c0); [apply preserves_ret|].
      apply preserves_bind; [apply set_chip_preserves | intros; apply preserves_ret]. }
  intros chip.
  apply preserves_bind; [apply run_preserves|]. intros r.
  apply preserves_bind.
  { destruct r as [rc out err| |e]; try apply preserves_ret.
    destruct (rc =? 0); [|apply preserves_ret].
    apply preserves_bind; [|intros; apply preserves_ret].
    intros s H. now apply session_ok_has_gcc. }
  intros gcc.
  apply preserves_bind; [apply preserves_get_self|]. intros c1.
  apply preserves_bind.
  { destruct (has_gcc c1); [|apply preserves_ret].
    apply preserves_bind; [apply run_preserves|]. intros r2.
    destruct r2 as [rc out err| |e]; try apply preserves_ret.
    apply preserves_bind; [|intros; apply preserves_ret].
    intros s H. exact H. }
  intros specs.
  apply preserves_bind; [apply preserves_get_self|]. intros c2.
  apply preserves_bind.
  { destruct (has_hal c2 && has_gcc c2); [|apply preserves_ret].
    apply preserves_bind; [apply precompile_hal_preserves | intros; apply preserves_ret]. }
  intros _.
  apply preserves_bind; [apply preserves_get_self|]. intros c3.
  apply preserves_ret.
Qed.

(** [compile], however it ends: the session attributes are those of the
    session with its chip set, and on disk [main.c] is written, the two
    generated files may be, and nothing but the two products can vanish. *)
Lemma ensure_chip_touches (s : State) :
  touches generated products (fs (world s)) (fs (world (ensure_chip s))).
Proof.
  unfold ensure_chip. destruct (_chip_info (self s)); [apply touches_refl|].
  apply chip_files_touches.
Qed.

Lemma prepared_touches_chip (code : string) (s : State) :
  touches (fun p => p = main_c) products
          (fs (world (ensure_chip s))) (fs (world (prepared code s))).
Proof.
  unfold prepared. cbn [world fs].
  eapply touches_trans; [|apply touches_delete; now right].
  eapply touches_trans; [|apply touches_delete; now left].
  now apply touches_insert.
Qed.

Lemma prepared_touches (code : string) (s : State) :
  touches (fun p => p = main_c \/ generated p) products
          (fs (world s)) (fs (world (prepared code s))).
Proof.
  eapply touches_trans.
  { eapply touches_weaken; [| |apply ensure_chip_touches]; [|auto].
    intros p Hp. now right. }
  eapply touches_weaken; [| |apply prepared_touches_chip]; [|auto].
  intros p Hp. now left.
Qed.

Lemma finish_compile_effect (p : State) :
  exists (r : CompileResult) (s' : State),
    finish_compile toolchain tool_data p = (Ok r, s') /\
    self s' = self p /\
    touches no_path products (fs (world p)) (fs (world s')).
Proof.
  unfold finish_compile. cbv zeta. rewrite run_run.
  set (cmd := compile_cmd _ _). set (outs := if has_hal (self p) then [elf] else []).
  set (w1 := run_world toolchain tool_data cmd outs (world p)).
  assert (H1 : touches no_path products (fs (world p)) (fs w1)).
  { intros q. destruct (run_world_touches no_path cmd outs (world p) q)
      as [E|[[Hq _]|[]]]; [now left|]. right. right.
    unfold outs in Hq. destruct (has_hal (self p)); [|destruct Hq].
    destruct Hq as [<-|[]]. now left. }
  destruct (toolchain (world p) cmd) as [rc out err| |e].
  2,3: eexists; eexists; split; [reflexivity|]; now split.
  destruct (rc =? 0).
  2: eexists; eexists; split; [reflexivity|]; now split.
  cbn [world]. destruct (has_hal (self p) && path_exists w1 elf).
  2: eexists; eexists; split; [reflexivity|]; now split.
  rewrite run_run. cbn [self world].
  set (copy := [ARM_OBJCOPY; _; _; _; _]).
  assert (H2 : touches no_path products (fs (world p))
                 (fs (run_world toolchain tool_data copy [binf] w1))).
  { eapply touches_trans; [exact H1|]. intros q.
    destruct (run_world_touches no_path copy [binf] w1 q) as [E|[[Hq _]|[]]];
      [now left|]. right. right. destruct Hq as [<-|[]]. now right. }
  destruct (toolchain w1 copy) as [rc2 out2 err2| |e2];
    eexists; eexists; (split; [reflexivity|]); now split.
Qed.

(** The first process a build starts is its compiler, on the prepared
    disk. *)
Lemma finish_compile_first_proc (p : State) :
  exists rest : list (list string * gmap Path File),
    procs (world (snd (finish_compile toolchain tool_data p))) =
    procs (world p) ++
    (compile_cmd (self p) (prepared_chip p), fs (world p)) :: rest.
Proof.
  unfold finish_compile. cbv zeta. rewrite run_run.
  set (cmd := compile_cmd _ _). set (outs := if has_hal (self p) then [elf] else []).
  set (w1 := run_world toolchain tool_data cmd outs (world p)).
  destruct (toolchain (world p) cmd) as [rc out err| |e].
  2,3: exists []; reflexivity.
  destruct (rc =? 0); [|exists []; reflexivity].
  cbn [world]. destruct (has_hal (self p) && path_exists w1 elf);
    [|exists []; reflexivity].
  rewrite run_run. cbn [self world].
  set (copy := [ARM_OBJCOPY; _; _; _; _]).
  exists [(copy, fs w1)].
  destruct (toolchain w1 copy) as [rc2 out2 err2| |e2]; cbn [snd world];
    unfold w1, run_world; cbn [procs]; now rewrite <- app_assoc.
Qed.

Lemma compile_effect (code : string) (s : State) :
  exists (r : CompileResult) (s' : State),
    compile toolchain tool_data code s = (Ok r, s') /\
    self s' = self (ensure_chip s) /\
    touches (fun p => p = main_c \/ generated p) products
            (fs (world s)) (fs (world s')) /\
    touches (fun p => p = main_c) products
            (fs (world (ensure_chip s))) (fs (world s')).
Proof.
  rewrite compile_run. cbv zeta.
  assert (Hself : self (prepared code s) = self (ensure_chip s)) by reflexivity.
  destruct (has_gcc (self (prepared code s))).
  - destruct (finish_compile_effect (prepared code s)) as (r & s' & E & Hs & Ht).
    exists r, s'. split; [exact E|]. split; [congruence|]. split.
    + eapply touches_trans; [apply prepared_touches|].
      eapply touches_weaken; [| |exact Ht]; [intros q [] | auto].
    + eapply touches_trans; [apply prepared_touches_chip|].
      eapply touches_weaken; [| |exact Ht]; [intros q [] | auto].
  - eexists. eexists. split; [reflexivity|]. split; [exact Hself|].
    split; [apply prepared_touches | apply prepared_touches_chip].
Qed.

Lemma ensure_chip_ok (s : State) :
  session_ok s = true -> session_ok (ensure_chip s) = true.
Proof.
  intros H. unfold ensure_chip. destruct (_chip_info (self s)); [exact H|].
  now apply set_chip_ok.
Qed.

Lemma compile_preserves (code : string) :
  preserves ok_state (compile toolchain tool_data code).
Proof.
  intros s H. destruct (compile_effect code s) as (r & s' & E & Hs & _ & Ht).
  rewrite E. cbn [snd]. unfold ok_state in *.
  apply ensure_chip_ok in H.
  destruct s' as [c' w']. cbn [self world] in *. subst c'.
  apply (session_ok_touches (fun p => p = main_c) _ (world (ensure_chip s)));
    [exact Ht|].
  now destruct (ensure_chip s).
Qed.

(** *** A scan that raises *)

(** The scan raises for the first listed source that is missing while its
    object exists. *)
Lemma scan_pure_raises_first (m : gmap Path File) (family : string)
    (srcs : list Path) (src : Path) :
  In src srcs -> m !! src = None -> is_Some (m !! obj_of family src) ->
  exists (pre : list Path) (src' : Path) (post : list Path),
    srcs = pre ++ src' :: post /\
    (forall x : Path, In x pre ->
       is_Some (m !! x) \/ m !! obj_of family x = None) /\
    m !! src' = None /\ is_Some (m !! obj_of family src') /\
    scan_pure m (obj_dir_of family) srcs = Raise (FileNotFoundError src').
Proof.
  induction srcs as [|a rest IH]; [intros []|].
  intros Hin Hs Ho.
  destruct (m !! obj_of family a) as [fo|] eqn:Eo.
  - destruct (m !! a) as [fa|] eqn:Ea.
    + destruct Hin as [->|Hin]; [congruence|].
      destruct (IH Hin Hs Ho) as (pre & src' & post & Hl & Hpre & Hs' & Ho' & E).
      exists (a :: pre), src', post. split; [now rewrite Hl|]. split.
      * intros x [<-|Hx]; [left; rewrite Ea; eauto | auto].
      * split; [exact Hs'|]. split; [exact Ho'|].
        cbn [scan_pure]. unfold stale_pure at 1. fold (obj_of family a).
        now rewrite Eo, Ea, E.
    + exists [], a, rest. split; [reflexivity|]. split; [intros x []|].
      split; [exact Ea|]. split; [rewrite Eo; eauto|].
      cbn [scan_pure]. unfold stale_pure at 1. fold (obj_of family a).
      now rewrite Eo, Ea.
  - destruct Hin as [->|Hin]; [rewrite Eo in Ho; destruct Ho; discriminate|].
    destruct (IH Hin Hs Ho) as (pre & src' & post & Hl & Hpre & Hs' & Ho' & E).
    exists (a :: pre), src', post. split; [now rewrite Hl|]. split.
    + intros x [<-|Hx]; [now right | auto].
    + split; [exact Hs'|]. split; [exact Ho'|].
      cbn [scan_pure]. unfold stale_pure at 1. fold (obj_of family a).
      now rewrite Eo, E.
Qed.

(** With the object directory in place, [precompile_hal] raises for that
    source, out of the scan, in the state it started in. *)
Lemma precompile_hal_raises (s : State) (src : Path) :
  can_build (self s) = true ->
  is_Some (fs (world s) !! obj_dir_of (family_of (self s))) ->
  In src (hal_src_files (self s)) ->
  fs (world s) !! src = None ->
  is_Some (fs (world s) !! obj_of (family_of (self s)) src) ->
  exists (pre : list Path) (src' : Path) (post : list Path),
    hal_src_files (self s) = pre ++ src' :: post /\
    (forall x : Path, In x pre ->
       is_Some (fs (world s) !! x) \/
       fs (world s) !! obj_of (family_of (self s)) x = None) /\
    fs (world s) !! src' = None /\
    is_Some (fs (world s) !! obj_of (family_of (self s)) src') /\
    precompile_hal toolchain tool_data s = (Raise (FileNotFoundError src'), s).
Proof.
  intros Hcb Hdir Hin Hs Ho.
  destruct (scan_pure_raises_first _ _ _ _ Hin Hs Ho)
    as (pre & src' & post & Hl & Hpre & Hs' & Ho' & E).
  exists pre, src', post. split; [exact Hl|]. split; [exact Hpre|].
  split; [exact Hs'|]. split; [exact Ho'|].
  rewrite precompile_hal_run. cbv zeta. rewrite Hcb.
  fold (family_of (self s)). rewrite (mkdir_world_idem _ _ Hdir).
  cbn [self world]. rewrite E. now destruct s.
Qed.

(** The compiler commands of the stale units, written out. *)
Lemma stale_units_commands (ci : ChipInfo) (incs : list Path)
    (m : gmap Path File) (family : string) (srcs : list Path) :
  map (cc_of ci incs) (stale_units m family srcs) =
  map (fun src : Path =>
         ["arm-none-eabi-gcc"; "-mcpu=" +:+ cpu ci; "-mthumb"] ++
         (if fpu ci then ["-mfloat-abi=hard"; "-mfpu=fpv4-sp-d16"] else []) ++
         ["-D" +:+ define ci; "-DUSE_HAL_DRIVER"] ++
         map (fun d => "-I" +:+ path_str d) incs ++
         ["-Os"; "-ffunction-sections"; "-fdata-sections"; "-c"; path_str src; "-o";
          "workspace/build/hal_obj_" +:+ family +:+ "/" +:+ path_stem src +:+ ".o"])
      (List.filter (fun src => negb (is_fresh m src (obj_of family src))) srcs).
Proof.
  unfold stale_units. rewrite map_map. apply map_ext. intros src.
  unfold cc_of. cbn [fst snd]. apply hal_cc_cmd_text.
Qed.

End MoreToolchainFacts.

End MoreSessionFacts.

(** ** More facts about [check] *)

Section MoreCheckFacts.

Import Post More.

Variable toolchain : World -> list string -> proc_result.
Variable tool_data : World -> list string -> string.

Lemma wp_bind {A B : Type} (m : M A) (k : A -> M B) Q E s :
  wp m (fun a s' => wp (k a) Q E s') E s -> wp (m ≫= k) Q E s.
Proof.
  unfold wp, mbind, M_bind. destruct (m s) as [[a|e] s']; auto.
Qed.

Lemma wp_mono {A : Type} (m : M A) (Q Q' : A -> State -> Prop) E s :
  wp m Q E s -> (forall a s', Q a s' -> Q' a s') -> wp m Q' E s.
Proof. unfold wp. destruct (m s) as [[a|e] s']; auto. Qed.

Lemma wp_ret {A : Type} (a : A) Q E s : Q a s -> wp (mret a) Q E s.
Proof. auto. Qed.

Lemma wp_get_self Q E s : Q (self s) s -> wp get_self Q E s.
Proof. auto. Qed.

Lemma wp_modify_self f Q E s :
  Q tt (mkState (f (self s)) (world s)) -> wp (modify_self f) Q E s.
Proof. auto. Qed.

Lemma wp_run cmd outs Q E s :
  Q (toolchain (world s) cmd)
    (mkState (self s) (run_world toolchain tool_data cmd outs (world s))) ->
  wp (run toolchain tool_data cmd outs) Q E s.
Proof. auto. Qed.

Lemma wp_set_chip n Q E s :
  Q (resolve n) (mkState (set_chip_self n (world s) (self s)) (set_chip_world n (world s))) ->
  wp (set_chip n) Q E s.
Proof. unfold wp. rewrite set_chip_run. auto. Qed.

Lemma check_effect (name : option string) (s : State) :
  wp (check toolchain tool_data name)
     (fun r s' =>
        chk_hal r = has_hal (self s') /\
        chk_hal_lib r = has_hal_lib (self s') /\
        (chk_gcc r = true -> has_gcc (self s') = true) /\
        match toolchain (world (probe_state name s)) version_probe with
        | Exited rc out _ =>
            chk_gcc r = (rc =? 0) /\
            chk_gcc_version r = if rc =? 0 then hd "" (Py.split_nl out) else ""
        | _ => chk_gcc r = false /\ chk_gcc_version r = ""
        end /\
        (chk_specs r = true -> has_specs (self s') = true /\ has_gcc (self s') = true) /\
        (has_gcc (self s) = true -> has_gcc (self s') = true) /\
        _chip_info (self s') <> None /\
        (chk_chip_info r = None \/ chk_chip_info r = _chip_info (self s')))
     (fun e s' =>
        session_ok s <> true /\
        exists src : Path, e = FileNotFoundError src /\ In src (hal_src_files (self s')))
     s.
Proof.
  unfold check, version_probe.
  apply wp_bind, wp_get_self.
  apply wp_bind.
  apply wp_mono with (Q := fun chip s1 =>
     _chip_info (self s1) <> None /\
     (has_gcc (self s) = true -> has_gcc (self s1) = true) /\
     (session_ok s = true -> session_ok s1 = true) /\
     (chip = None \/ chip = _chip_info (self s1)) /\
     s1 = probe_state name s).
  { assert (Hset : forall n,
      wp (set_chip n ≫= λ info : ChipInfo, mret (Some info))
        (fun chip s1 =>
          _chip_info (self s1) <> None /\
          (has_gcc (self s) = true -> has_gcc (self s1) = true) /\
          (session_ok s = true -> session_ok s1 = true) /\
          (chip = None \/ chip = _chip_info (self s1)) /\
          s1 = snd (set_chip n s))
        (fun e s' => session_ok s <> true /\
          exists src : Path, e = FileNotFoundError src /\ In src (hal_src_files (self s')))
        s).
    { intros n. apply wp_bind, wp_set_chip, wp_ret. cbn [self world].
      rewrite set_chip_self_chip_info. split; [discriminate|].
      split; [|split; [|split; [now right|]]].
      - unfold set_chip_self. destruct (family_differs _ _); [|auto].
        intros H. now rewrite (proj2 (proj2 (proj2 (proj2 (find_hal_self_no_hal _ _ _))))).
      - apply set_chip_ok.
      - now rewrite set_chip_run. }
    destruct name as [[|a r]|]; unfold probe_state.
    - destruct (_chip_info (self s)) as [ci|] eqn:Eci; [|apply Hset].
      apply wp_ret. rewrite Eci. split; [discriminate|]. auto.
    - apply Hset.
    - destruct (_chip_info (self s)) as [ci|] eqn:Eci; [|apply Hset].
      apply wp_ret. rewrite Eci. split; [discriminate|]. auto. }
  intros chip s1 (Hci1 & Hg1 & Hok1 & Hchip & Hs1).
  set (J := fun s' : State =>
    _chip_info (self s') = _chip_info (self s1) /\
    (has_gcc (self s) = true -> has_gcc (self s') = true) /\
    (session_ok s = true -> session_ok s' = true)).
  assert (Jrun : forall cmd outs s', J s' ->
            J (mkState (self s') (run_world toolchain tool_data cmd outs (world s')))).
  { intros cmd outs s' (H1 & H2 & H3). split; [exact H1|]. split; [exact H2|].
    intros H. specialize (H3 H). revert H3. destruct s' as [c' w']. cbn [self world].
    apply (session_ok_touches (fun p => In p outs)). apply run_world_touches. }
  assert (J1 : J s1) by (split; [reflexivity|]; split; assumption).
  clear Hg1 Hok1.
  apply wp_bind, wp_run.
  apply wp_bind.
  apply wp_mono with (Q := fun gcc s3 =>
     J s3 /\
     (fst gcc = true -> has_gcc (self s3) = true) /\
     match toolchain (world s1) [ARM_GCC; "--version"] with
     | Exited rc out _ =>
         fst gcc = (rc =? 0) /\
         snd gcc = if rc =? 0 then hd "" (Py.split_nl out) else ""
     | _ => fst gcc = false /\ snd gcc = ""
     end).
  { pose proof (Jrun [ARM_GCC; "--version"] [] s1 J1) as J2.
    destruct (toolchain (world s1) [ARM_GCC; "--version"]) as [rc out err| |e] eqn:Ep;
      try (apply wp_ret; split; [exact J2 | split; [discriminate | now split]]).
    destruct (rc =? 0) eqn:Erc;
      [|apply wp_ret; split; [exact J2 | split; [discriminate | now split]]].
    apply wp_bind, wp_modify_self, wp_ret. cbn [self world fst snd].
    destruct J2 as (H1 & H2 & H3).
    split; [split; [exact H1|split; [reflexivity|]]|split; [reflexivity | now split]].
    intros H. now apply (session_ok_has_gcc (mkState (self s1) _)), H3. }
  intros gcc s3 (J3 & Hgcc & Hprobe).
  apply wp_bind, wp_get_self.
  apply wp_bind.
  apply wp_mono with (Q := fun specs s5 =>
     J s5 /\
     (fst gcc = true -> has_gcc (self s5) = true) /\
     (specs = true -> has_specs (self s5) = true /\ has_gcc (self s5) = true)).
  { destruct (has_gcc (self s3)) eqn:Eg.
    2:{ apply wp_ret. split; [exact J3|]. split; [|discriminate].
        intros H. pose proof (Hgcc H) as Hf. discriminate Hf. }
    apply wp_bind, wp_run.
    match goal with |- context [run_world _ _ ?c ?o _] =>
      pose proof (Jrun c o s3 J3) as J4; set (cmd := c) in * end.
    destruct (toolchain (world s3) cmd) as [rc out err| |e];
      try (apply wp_ret; split; [exact J4|]; split; [auto | discriminate]).
    apply wp_bind, wp_modify_self, wp_ret. cbn [self world].
    destruct J4 as (H1 & H2 & H3). cbn [self world] in *.
    split; [split; [exact H1|split; [exact H2 | exact H3]]|].
    split; [auto|]. intros ->. now split. }
  intros specs s5 (J5 & Hgcc5 & Hspecs).
  apply wp_bind, wp_get_self.
  apply wp_bind.
  apply wp_mono with (Q := fun _ s6 =>
     J s6 /\ has_hal (self s6) = has_hal (self s5) /\
     (fst gcc = true -> has_gcc (self s6) = true) /\
     (specs = true -> has_specs (self s6) = true /\ has_gcc (self s6) = true)).
  { destruct (has_hal (self s5) && has_gcc (self s5)).
    2:{ apply wp_ret. split; [exact J5|]. split; [reflexivity|]. split; assumption. }
    apply wp_bind. unfold wp at 1.
    destruct (precompile_hal_effect toolchain tool_data s5) as (r & s6 & E & _ & Hr).
    pose proof (precompile_hal_preserves toolchain tool_data s5) as Hp.
    rewrite E in *. cbn [snd] in Hp. unfold ok_state in Hp.
    destruct J5 as (H1 & H2 & H3).
    assert (Hself : r <> Ok true -> self s6 = self s5).
    { destruct r as [[|]|e]; [congruence | auto | intros _; apply Hr]. }
    destruct r as [[|]|e].
    - destruct Hr as (Hs & _). apply wp_ret. unfold J. rewrite Hs.
      cbn [set_has_hal_lib _chip_info has_gcc has_hal has_specs].
      split; [split; [exact H1|split; [exact H2|auto]]|].
      split; [reflexivity|]. split; assumption.
    - apply wp_ret. unfold J. rewrite Hr.
      split; [split; [exact H1|split; [exact H2|auto]]|].
      split; [reflexivity|]. split; assumption.
    - destruct Hr as (Hs & _ & _ & src & -> & Hin & Hnone & _). split.
      + intros Hok. specialize (H3 Hok). apply session_ok_spec in H3 as (_ & _ & _ & Hl).
        unfold listing_ok in Hl. apply andb_true_iff in Hl as [Hl _].
        apply andb_true_iff in Hl as [Hl _].
        destruct (sources_ok_spec s5 src Hl Hin) as [_ [f Hf]]. congruence.
      + exists src. split; [reflexivity|]. now rewrite Hs. }
  intros _ s6 (J6 & Hhal & Hgcc6 & Hspecs6).
  apply wp_bind, wp_get_self. apply wp_ret.
  cbn [chk_hal chk_hal_lib chk_gcc chk_specs chk_chip_info].
  destruct J6 as (H1 & H2 & H3).
  split; [now rewrite Hhal|]. split; [reflexivity|].
  split; [exact Hgcc6|].
  split; [rewrite <- Hs1; exact Hprobe|].
  split; [exact Hspecs6|]. split; [exact H2|].
  rewrite H1. split; [exact Hci1 | exact Hchip].
Qed.

(** [check] without a chip name, in a session that has its chip, its HAL
    and its compiler: the probes leave the disk and the listing alone, and
    [precompile_hal] raises out of its scan. *)
Lemma check_raises (s : State) (src : Path) :
  can_build (self s) = true ->
  is_Some (fs (world s) !! obj_dir_of (family_of (self s))) ->
  In src (hal_src_files (self s)) ->
  fs (world s) !! src = None ->
  is_Some (fs (world s) !! obj_of (family_of (self s)) src) ->
  exists (pre : list Path) (src' : Path) (post : list Path),
    hal_src_files (self s) = pre ++ src' :: post /\
    (forall x : Path, In x pre ->
       is_Some (fs (world s) !! x) \/
       fs (world s) !! obj_of (family_of (self s)) x = None) /\
    fs (world s) !! src' = None /\
    is_Some (fs (world s) !! obj_of (family_of (self s)) src') /\
    wp (check toolchain tool_data None)
       (fun _ _ => False)
       (fun e s' =>
          e = FileNotFoundError src' /\
          fs (world s') = fs (world s) /\
          hal_src_files (self s') = hal_src_files (self s) /\
          has_hal_lib (self s') = has_hal_lib (self s) /\
          length (procs (world s')) = (length (procs (world s)) + 2)%nat)
       s.
Proof.
  intros Hcb Hdir Hin Hs Ho.
  destruct (precompile_hal_raises toolchain tool_data s src Hcb Hdir Hin Hs Ho)
    as (pre & src' & post & Hl & Hpre & Hs' & Ho' & _).
  exists pre, src', post. split; [exact Hl|]. split; [exact Hpre|].
  split; [exact Hs'|]. split; [exact Ho'|].
  unfold can_build in Hcb. destruct (_chip_info (self s)) as [ci|] eqn:Eci;
    [|discriminate]. apply andb_true_iff in Hcb as [Hhal Hgcc].
  set (K := fun (n : nat) (s' : State) =>
    fs (world s') = fs (world s) /\
    length (procs (world s')) = (length (procs (world s)) + n)%nat /\
    has_gcc (self s') = true /\
    self s' = set_has_specs (has_specs (self s')) (set_has_gcc true (self s))).
  assert (K0 : K 0%nat s).
  { split; [reflexivity|]. split; [lia|]. split; [exact Hgcc|].
    destruct s as [[] w]. cbn in *. now subst. }
  assert (Krun : forall cmd n s', K n s' ->
            K (S n) (mkState (self s') (run_world toolchain tool_data cmd [] (world s')))).
  { intros cmd n s' (H1 & H2 & H3 & H4). split; [|split; [|split]]; cbn [self world].
    - unfold run_world. cbn [fs foldr]. rewrite <- H1.
      now destruct (toolchain (world s') cmd) as [[| |]| |].
    - unfold run_world. cbn [procs]. rewrite length_app, H2. cbn [length]. lia.
    - exact H3.
    - exact H4. }
  unfold check.
  apply wp_bind, wp_get_self. rewrite Eci.
  apply wp_bind, wp_ret.
  apply wp_bind, wp_run.
  pose proof (Krun [ARM_GCC; "--version"] _ _ K0) as K1.
  apply wp_bind.
  apply wp_mono with (Q := fun _ s3 => K 1%nat s3).
  { destruct (toolchain (world s) [ARM_GCC; "--version"]) as [rc out err| |e];
      try (apply wp_ret; exact K1).
    destruct (rc =? 0); [|apply wp_ret; exact K1].
    apply wp_bind, wp_modify_self, wp_ret. cbn [self world].
    destruct K1 as (H1 & H2 & H3 & H4). cbn [self world] in *.
    split; [exact H1|]. split; [exact H2|]. split; [reflexivity|].
    cbn [self]. now destruct (self s). }
  intros gcc s3 K3.
  apply wp_bind, wp_get_self.
  apply wp_bind.
  apply wp_mono with (Q := fun _ s5 => K 2%nat s5).
  { destruct K3 as (H1 & H2 & H3 & H4). rewrite H3.
    apply wp_bind, wp_run.
    match goal with |- context [run_world _ _ ?c ?o _] =>
      pose proof (Krun c 1%nat s3 (conj H1 (conj H2 (conj H3 H4)))) as K4;
      set (cmd := c) in * end.
    destruct (toolchain (world s3) cmd) as [rc out err| |e];
      try (apply wp_ret; exact K4).
    apply wp_bind, wp_modify_self, wp_ret. cbn [self world].
    destruct K4 as (G1 & G2 & G3 & G4). cbn [self world] in *.
    split; [exact G1|]. split; [exact G2|].
    split; [now destruct (self s3)|].
    cbn [self]. rewrite G4. now destruct (self s). }
  intros specs s5 (H1 & H2 & H3 & H4).
  apply wp_bind, wp_get_self.
  assert (Hhal5 : has_hal (self s5) = true) by (rewrite H4; now destruct (self s)).
  rewrite Hhal5, H3. cbn [andb].
  assert (Hfam : family_of (self s5) = family_of (self s))
    by (rewrite H4; now destruct (self s)).
  assert (Hsrcs : hal_src_files (self s5) = hal_src_files (self s))
    by (rewrite H4; now destruct (self s)).
  assert (Hflag : has_hal_lib (self s5) = has_hal_lib (self s))
    by (rewrite H4; now destruct (self s)).
  assert (Hcb5 : can_build (self s5) = true).
  { unfold can_build. rewrite Hhal5, H3.
    replace (_chip_info (self s5)) with (Some ci); [reflexivity|].
    rewrite H4, <- Eci. now destruct (self s). }
  destruct (precompile_hal_raises toolchain tool_data s5 src Hcb5)
    as (pre5 & src5 & post5 & Hl5 & Hpre5 & Hs5 & Ho5 & E5).
  { now rewrite Hfam, H1. }
  { now rewrite Hsrcs. }
  { now rewrite H1. }
  { now rewrite Hfam, H1. }
  assert (Hsame : src5 = src').
  { rewrite Hsrcs, Hl in Hl5. rewrite Hfam, H1 in Hpre5, Ho5. rewrite H1 in Hs5.
    clear - Hl5 Hpre Hpre5 Hs' Ho' Hs5 Ho5.
    revert pre5 Hl5 Hpre5. induction pre as [|a pre IH]; intros [|b pre5] Hl5 Hpre5.
    - now injection Hl5.
    - injection Hl5 as <- _. destruct (Hpre5 src' (or_introl eq_refl)) as [[f Hf]|Hn].
      + congruence.
      + rewrite Hn in Ho'. now destruct Ho'.
    - injection Hl5 as -> _. destruct (Hpre src5 (or_introl eq_refl)) as [[f Hf]|Hn].
      + congruence.
      + rewrite Hn in Ho5. now destruct Ho5.
    - injection Hl5 as <- Hl5. apply (IH (fun x Hx => Hpre x (or_intror Hx)) pre5 Hl5).
      intros x Hx. apply Hpre5. now right. }
  apply wp_bind. apply wp_bind. unfold wp at 1. rewrite E5.
  split; [now rewrite Hsame|]. split; [exact H1|]. split; [exact Hsrcs|].
  split; [exact Hflag | exact H2].
Qed.

End MoreCheckFacts.

(** ** More facts about the failure message *)

Section MoreMessageFacts.

Import Read Post.

Lemma split_nl_no_nl (s : string) :
  Forall (fun l => no_nl l = true) (Py.split_nl s).
Proof.
  induction s as [|c r IH]; [repeat constructor|]. cbn [Py.split_nl].
  destruct (Ascii.eqb c Py.nl) eqn:E; [constructor; [reflexivity | exact IH]|].
  destruct (Py.split_nl r) as [|l ls]; [repeat constructor; cbn; now rewrite E|].
  apply Forall_cons in IH as [Hl Hls]. constructor; [|exact Hls].
  cbn. now rewrite E, Hl.
Qed.

Lemma Forall_filter_keeps {A : Type} (P : A -> Prop) (f : A -> bool) (l : list A) :
  Forall P l -> Forall P (List.filter f l).
Proof.
  intros H. apply List.Forall_forall. intros x Hx.
  apply filter_In in Hx as [Hx _]. rewrite List.Forall_forall in H. now apply H.
Qed.

Lemma In_firstn {A : Type} (n : nat) (l : list A) (x : A) :
  In x (firstn n l) -> In x l.
Proof.
  revert l. induction n as [|n IH]; intros l; [intros []|].
  destruct l as [|a l]; [intros []|]. cbn [firstn In].
  intros [H|H]; [now left | right; now apply IH].
Qed.

Lemma Forall_firstn {A : Type} (P : A -> Prop) (n : nat) (l : list A) :
  Forall P l -> Forall P (firstn n l).
Proof.
  intros H. apply List.Forall_forall. intros x Hx.
  rewrite List.Forall_forall in H. apply H. now apply (In_firstn n).
Qed.

(** The lines of the message when some line of the diagnostics holds a
    marker. *)
Lemma short_error_lines (err : string) :
  marked_lines err <> [] ->
  let kept := List.filter (fun l => negb (Py.contains "collect2:" l))
                          (marked_lines err) in
  Py.split_nl (short_error err) =
  firstn 15 (if is_nil kept then marked_lines err else kept).
Proof.
  intros Hm kept. unfold short_error. fold (marked_lines err). fold kept.
  set (ls := if is_nil kept then marked_lines err else kept).
  assert (Hne : ls <> []).
  { unfold ls. destruct kept; [exact Hm | discriminate]. }
  assert (Hnl : Forall (fun l => no_nl l = true) ls).
  { unfold ls, kept. destruct (is_nil _);
      [|apply Forall_filter_keeps]; apply Forall_filter_keeps, split_nl_no_nl. }
  destruct ls as [|l0 ls0] eqn:E; [congruence|]. cbn [is_nil].
  apply split_nl_join; [discriminate|]. now apply Forall_firstn.
Qed.

End MoreMessageFacts.

(** ** Properties of the generators *)

Section GeneratorClaims.

Import Read.

(** C1. For every core name and every interrupt table whose named entries
    are symbols, the vector table of the generated startup unit has
    16 + len(irq_names) words, the first sixteen being the core slots;
    the entry at position [i] of the table is the word at slot [16 + i],
    a reserved ([None]) entry being the zero word at its own slot; and a
    name occurs among the peripheral words, and among the weak aliases to
    [Default_Handler] that follow the ten core aliases, exactly as often as
    it is listed (once, when listed once). *)
Theorem C1_startup_vector_table (cpu : string) (irq_names : list (option string)) :
  no_nl cpu = true ->
  forallb entry_ok irq_names = true ->
  let asm := _gen_startup cpu irq_names in
  length (vector_table asm) = (16 + length irq_names)%nat /\
  take 16 (vector_table asm) = core_vector_words /\
  (forall (i : nat) (name : string),
      irq_names !! i = Some (Some name) ->
      vector_table asm !! (16 + i)%nat = Some name) /\
  (forall i : nat,
      irq_names !! i = Some None ->
      vector_table asm !! (16 + i)%nat = Some "0") /\
  take 10 (weak_aliases asm) = core_weak_aliases /\
  (forall name : string,
      is_symbol name = true ->
      occurrences name (drop 16 (vector_table asm)) = listed name irq_names /\
      occurrences name (drop 10 (weak_aliases asm)) = listed name irq_names).
Proof.
  intros Hcpu Hirq asm. subst asm.
  rewrite (gen_startup_vector_table _ _ Hcpu Hirq).
  rewrite (gen_startup_weak_aliases _ _ Hcpu Hirq).
  repeat split.
  - rewrite length_app, length_map. reflexivity.
  - intros i name Hi.
    rewrite lookup_app_r by (simpl; lia).
    replace (16 + i - length core_vector_words)%nat with i by (simpl; lia).
    rewrite list_lookup_fmap, Hi. reflexivity.
  - intros i Hi.
    rewrite lookup_app_r by (simpl; lia).
    replace (16 + i - length core_vector_words)%nat with i by (simpl; lia).
    rewrite list_lookup_fmap, Hi. reflexivity.
  - change (drop 16 (core_vector_words ++ map slot_word irq_names))
      with (map slot_word irq_names).
    now apply occurrences_slot_words.
  - change (drop 10 (core_weak_aliases ++ named irq_names))
      with (named irq_names).
    apply occurrences_named.
Qed.

(** The four family tables are tables of symbols; each name is listed once
    and is none of the core names. *)
Lemma family_tables_ok :
  forallb (fun kv => forallb entry_ok (snd kv)) _FAMILY_IRQ_NAMES = true /\
  forallb (fun kv => forallb (fun n => Nat.eqb (listed n (snd kv)) 1)
                             (named (snd kv))) _FAMILY_IRQ_NAMES = true /\
  forallb (fun kv => forallb (fun n => Nat.eqb (occurrences n core_vector_words) 0 &&
                                       Nat.eqb (occurrences n core_weak_aliases) 0)
                             (named (snd kv))) _FAMILY_IRQ_NAMES = true.
Proof. repeat split; vm_compute; reflexivity. Qed.

(** The F1 table on a cortex-m3: 16 + 68 words. *)
Lemma C1_startup_vector_table_witness :
  no_nl "cortex-m3" = true /\
  forallb entry_ok _F1_IRQ_NAMES = true /\
  length (vector_table (_gen_startup "cortex-m3" _F1_IRQ_NAMES)) = 84%nat.
Proof.
  split; [reflexivity|]. split; [reflexivity|].
  exact (proj1 (C1_startup_vector_table "cortex-m3" _F1_IRQ_NAMES eq_refl eq_refl)).
Defined.

(** C4. For every key of the chip table and every suffix appended to it
    (of one or two characters, or of any other length), the resolver
    returns the row stored under the bare key, which is also what it
    returns for the bare key; and "STM32F103C8T6" resolves to the
    cortex-m3 row with 64 KB of flash, 20 KB of RAM, family f1 and no FPU. *)
Theorem C4_suffix_resolves_to_base (key suffix : string) (info : ChipInfo) :
  In (key, info) CHIP_DB ->
  _lookup_chip (key +:+ suffix) = Some info /\
  _lookup_chip key = Some info /\
  _lookup_chip "STM32F103C8T6" =
    Some (mkChip "cortex-m3" 64 20 "STM32F103xB" "f1" false).
Proof.
  intros Hin. split; [now apply lookup_chip_key_suffix|].
  split; [|reflexivity].
  rewrite <- (append_nil_r key). now apply lookup_chip_key_suffix.
Qed.

(** The key STM32F407VG with the package suffix T6. *)
Lemma C4_suffix_resolves_to_base_witness :
  In ("STM32F407VG", mkChip "cortex-m4" 1024 128 "STM32F407xx" "f4" true) CHIP_DB /\
  _lookup_chip ("STM32F407VG" +:+ "T6") =
    Some (mkChip "cortex-m4" 1024 128 "STM32F407xx" "f4" true).
Proof.
  assert (H : In ("STM32F407VG", mkChip "cortex-m4" 1024 128 "STM32F407xx" "f4" true)
                 CHIP_DB).
  { unfold CHIP_DB. do 13 right. left. reflexivity. }
  split; [exact H|].
  exact (proj1 (C4_suffix_resolves_to_base "STM32F407VG" "T6" _ H)).
Defined.

(** C6 as stated fails: for 64 KB of flash and 20 KB of RAM the script
    holds neither the byte count 65536 nor the byte count 20480. *)
Lemma C6_no_literal_byte_counts :
  Py.contains (Py.str_of_int (64 * 1024)) (_gen_linker_script 64 20) = false /\
  Py.contains (Py.str_of_int (20 * 1024)) (_gen_linker_script 64 20) = false.
Proof. split; vm_compute; reflexivity. Qed.

(** C6, amended. For every pair (flash_k, ram_k) the second and third line
    of the script are the FLASH and RAM regions, whose lengths are written
    as the decimal numerals of flash_k and ram_k followed by the unit
    [K], which the linker reads as flash_k * 1024 and ram_k * 1024 bytes;
    all other lines, and with them the order of the sections, are the same
    for all inputs. *)
Theorem C6_linker_script_sizes_and_order (flash_k ram_k : Z) :
  let script := _gen_linker_script flash_k ram_k in
  Py.split_nl script =
    "MEMORY {" :: flash_line flash_k :: ram_line ram_k :: linker_fixed_lines /\
  ld_length_bytes (flash_line flash_k) = Some (flash_k * 1024) /\
  ld_length_bytes (ram_line ram_k) = Some (ram_k * 1024) /\
  section_order script = linker_sections.
Proof.
  intros script. subst script.
  split; [apply gen_linker_script_lines|].
  split; [apply ld_length_flash_line|].
  split; [apply ld_length_ram_line|].
  unfold section_order. rewrite gen_linker_script_lines. reflexivity.
Qed.

End GeneratorClaims.

(** ** Properties of the session methods *)

Section SessionClaims.

Import Post.

(** C5. For every chip name that no strategy of the resolver matches,
    [set_chip] raises nothing of its own: after printing the one line
    [  ⚠️ 未知芯片 <name>，使用默认 STM32F103C8 参数] it goes on exactly as
    [set_chip("STM32F103C8")] does.  It returns the row of STM32F103C8 in
    the table, makes it the current chip, starts no process, and the
    warning, which names the chip, is the only line it prints. *)
Theorem C5_unknown_chip_falls_back (chip_name : string) (s : State) :
  let warning := "  ⚠️ 未知芯片 " +:+ chip_name +:+ "，使用默认 STM32F103C8 参数" in
  let f103c8 := mkChip "cortex-m3" 64 20 "STM32F103xB" "f1" false in
  _lookup_chip chip_name = None ->
  In ("STM32F103C8", f103c8) CHIP_DB /\
  _lookup_chip "STM32F103C8" = Some f103c8 /\
  set_chip chip_name s = set_chip "STM32F103C8" (with_line warning s) /\
  exists s' : State,
    set_chip chip_name s = (Ok f103c8, s') /\
    _chip_info (self s') = Some f103c8 /\
    stdout (world s') = stdout (world s) ++ [warning] /\
    procs (world s') = procs (world s).
Proof.
  intros warning f103c8 H.
  split; [vm_compute; tauto|]. split; [exact lookup_f103c8|].
  split; [exact (set_chip_unknown chip_name s H)|].
  rewrite set_chip_run. eexists. split.
  - unfold resolve. rewrite H. reflexivity.
  - split; [|split].
    + cbn [self]. rewrite set_chip_self_chip_info. unfold resolve. now rewrite H.
    + unfold set_chip_world. cbn [world stdout]. now rewrite H.
    + reflexivity.
Qed.

(** The unknown name STM32Q999ZZ on a fresh session. *)
Lemma C5_unknown_chip_falls_back_witness :
  _lookup_chip "STM32Q999ZZ" = None /\
  exists s' : State,
    set_chip "STM32Q999ZZ" fresh_state =
      (Ok (mkChip "cortex-m3" 64 20 "STM32F103xB" "f1" false), s') /\
    _chip_info (self s') = Some (mkChip "cortex-m3" 64 20 "STM32F103xB" "f1" false) /\
    stdout (world s') =
      stdout (world fresh_state) ++
      ["  ⚠️ 未知芯片 STM32Q999ZZ，使用默认 STM32F103C8 参数"] /\
    procs (world s') = procs (world fresh_state).
Proof.
  split; [reflexivity|].
  exact (proj2 (proj2 (proj2
    (C5_unknown_chip_falls_back "STM32Q999ZZ" fresh_state eq_refl)))).
Defined.

(** C7 as stated fails for two chips of one family: with the archive of
    STM32F103C8 ready, [set_chip("STM32F103RC")] changes the current chip
    and leaves the readiness flag set. *)
Lemma C7_same_family_keeps_flag :
  _chip_info (self session_f1) =
    Some (mkChip "cortex-m3" 64 20 "STM32F103xB" "f1" false) /\
  has_hal_lib (self session_f1) = true /\
  exists s' : State,
    set_chip "STM32F103RC" session_f1 =
      (Ok (mkChip "cortex-m3" 256 48 "STM32F103xE" "f1" false), s') /\
    _chip_info (self s') =
      Some (mkChip "cortex-m3" 256 48 "STM32F103xE" "f1" false) /\
    has_hal_lib (self s') = true.
Proof.
  split; [vm_compute; reflexivity|]. split; [vm_compute; reflexivity|].
  eexists. split; [rewrite set_chip_run; reflexivity|].
  split; vm_compute; reflexivity.
Qed.

(** C7, amended. [set_chip] makes the resolved chip current.  When its
    family differs from the session's current family, the HAL paths are
    resolved again against the disk and the archive-readiness flag is
    cleared; when the family is the same, also for a different chip, the
    HAL paths and the flag stay as they are.  In both cases only the linker
    script and the startup unit are written: every other file, the cached
    objects and archives of all families among them, is left as it was.
    So after a change to a chip of another family and back to a family
    whose cache is warm, the flag is cleared and the same sources are
    listed, all of which a [compile] at that point names in its command;
    the next [precompile_hal] finds every object fresh and the archive in
    place, sets the flag again and starts no process. *)
Theorem C7_family_change_resets_archive_flag (chip_name : string) (s : State) :
  let info := resolve chip_name in
  (exists s' : State,
     set_chip chip_name s = (Ok info, s') /\
     _chip_info (self s') = Some info /\
     (family_differs (family info) (_current_family (self s)) = true ->
        _current_family (self s') = Some (family info) /\
        has_hal_lib (self s') = false /\
        has_hal (self s') = path_exists (world s') (hal_header (family info)) /\
        (has_hal (self s') = true ->
           hal_inc_dirs (self s') = present_includes (world s') /\
           hal_src_files (self s') = present_sources (family info) (world s'))) /\
     (family_differs (family info) (_current_family (self s)) = false ->
        _current_family (self s') = _current_family (self s) /\
        has_hal_lib (self s') = has_hal_lib (self s) /\
        has_hal (self s') = has_hal (self s) /\
        hal_inc_dirs (self s') = hal_inc_dirs (self s) /\
        hal_src_files (self s') = hal_src_files (self s)) /\
     (forall p : Path,
        p <> BUILD_DIR // "link.ld" -> p <> BUILD_DIR // "startup.s" ->
        fs (world s') !! p = fs (world s) !! p) /\
     (forall fam name : string,
        fs (world s') !! (BUILD_DIR // ("hal_obj_" +:+ fam) // name) =
        fs (world s) !! (BUILD_DIR // ("hal_obj_" +:+ fam) // name)) /\
     (forall fam : string,
        fs (world s') !! (BUILD_DIR // ("libstm32hal_" +:+ fam +:+ ".a")) =
        fs (world s) !! (BUILD_DIR // ("libstm32hal_" +:+ fam +:+ ".a")))) /\
  (forall (toolchain : World -> list string -> proc_result)
          (tool_data : World -> list string -> string)
          (s0 : State) (away back : string),
     let fam := family (resolve back) in
     let s2 := snd (set_chip back (snd (set_chip away s0))) in
     _current_family (self s0) = Some fam ->
     family (resolve away) <> fam ->
     has_gcc (self s0) = true ->
     path_exists (world s0) (hal_header fam) = true ->
     hal_src_files (self s0) = present_sources fam (world s0) ->
     cache_warm_b s0 = true ->
     _chip_info (self s2) = Some (resolve back) /\
     _current_family (self s2) = Some fam /\
     has_hal (self s2) = true /\
     has_hal_lib (self s2) = false /\
     hal_src_files (self s2) = hal_src_files (self s0) /\
     (forall src : Path, In src (hal_src_files (self s0)) ->
        In (path_str src) (compile_cmd (self s2) (resolve back))) /\
     precompile_hal toolchain tool_data s2 =
       (Ok true, mkState (set_has_hal_lib true (self s2)) (world s2))).
Proof.
  intros info. split; [|intros toolchain tool_data s0 away back;
                        apply switch_back_warm].
  rewrite set_chip_run. eexists. split; [reflexivity|].
  cbn [self world]. split; [apply set_chip_self_chip_info|].
  fold info. unfold set_chip_self. fold info.
  split; [|split; [|split; [|split]]].
  - intros ->. unfold find_hal_self.
    destruct (path_exists (set_chip_world chip_name (world s))
                          (hal_header (family info))) eqn:E;
      cbn [has_hal has_hal_lib _current_family hal_inc_dirs hal_src_files
           set_current_family set_chip_info].
    + repeat split.
    + do 3 (split; [reflexivity|]). intros H. discriminate H.
  - intros ->. repeat split.
  - intros p H1 H2. unfold set_chip_world. cbn [fs].
    now apply chip_files_frame.
  - intros fam name. unfold set_chip_world. cbn [fs].
    apply chip_files_frame; apply obj_path_not_generated.
  - intros fam. unfold set_chip_world. cbn [fs].
    apply chip_files_frame; apply lib_path_not_generated.
Qed.

(** The session with its F1 archive built, changed to an F4 chip and back:
    the flag is cleared, and [precompile_hal] sets it again without starting
    a process. *)
Lemma C7_family_change_resets_archive_flag_witness :
  let s2 := snd (set_chip "STM32F103C8" (snd (set_chip "STM32F407VG" session_f1))) in
  has_hal_lib (self session_f1) = true /\
  cache_warm_b session_f1 = true /\
  has_hal_lib (self s2) = false /\
  precompile_hal tools_ok tools_out s2 =
    (Ok true, mkState (set_has_hal_lib true (self s2)) (world s2)).
Proof.
  cbv zeta.
  assert (Hflag : has_hal_lib (self session_f1) = true) by (vm_compute; reflexivity).
  assert (Hwarm : cache_warm_b session_f1 = true) by (vm_compute; reflexivity).
  assert (Hfam : _current_family (self session_f1) =
                 Some (family (resolve "STM32F103C8"))) by (vm_compute; reflexivity).
  assert (Hne : family (resolve "STM32F407VG") <> family (resolve "STM32F103C8"))
    by (vm_compute; discriminate).
  assert (Hgcc : has_gcc (self session_f1) = true) by (vm_compute; reflexivity).
  assert (Hhdr : path_exists (world session_f1)
                   (hal_header (family (resolve "STM32F103C8"))) = true)
    by (vm_compute; reflexivity).
  assert (Hsrcs : hal_src_files (self session_f1) =
                  present_sources (family (resolve "STM32F103C8")) (world session_f1))
    by (vm_compute; reflexivity).
  split; [exact Hflag|]. split; [exact Hwarm|].
  destruct (proj2 (C7_family_change_resets_archive_flag "STM32F103C8" session_f1)
              tools_ok tools_out session_f1 "STM32F407VG" "STM32F103C8"
              Hfam Hne Hgcc Hhdr Hsrcs Hwarm)
    as (_ & _ & _ & Hl & _ & _ & Hrun).
  split; [exact Hl | exact Hrun].
Defined.

(** C8 as stated fails in its second half: with the family header present
    and no source file on disk the session keeps its HAL, and [compile]
    links and reports a binary; no syntax check is ever run. *)
Lemma C8_header_without_sources_links :
  has_hal (self session_header_only) = true /\
  hal_src_files (self session_header_only) = [] /\
  fst (compile tools_ok tools_out "int main(void) { return 0; }"
               session_header_only) =
    Ok (mkResult true "编译成功 (0B)" (Some "workspace/build/firmware.bin") 0) /\
  forallb (fun p => negb (is_flag "-fsyntax-only" (fst p)))
          (procs (world (snd (compile tools_ok tools_out
                                      "int main(void) { return 0; }"
                                      session_header_only)))) = true.
Proof. repeat split; vm_compute; reflexivity. Qed.

(** C8, amended. [_find_hal] never fails, whatever is on disk.  The session
    has a HAL exactly when the family header exists; its source list is
    then the family allow-list restricted to the files present on disk,
    each missing file being skipped, and the command of [compile] links
    (it has [-nostartfiles] and no [-fsyntax-only]) also when that list is
    empty.  The syntax check is the command only when the header is
    missing. *)
Theorem C8_partial_hal_resolution (family : string) (s : State) (ci : ChipInfo) :
  exists s' : State,
    _find_hal family s = (Ok tt, s') /\
    world s' = world s /\
    has_hal (self s') = path_exists (world s) (hal_header family) /\
    (has_hal (self s') = true ->
       hal_src_files (self s') = present_sources family (world s) /\
       is_flag "-fsyntax-only" (compile_cmd (self s') ci) = false /\
       is_flag "-nostartfiles" (compile_cmd (self s') ci) = true) /\
    (forall p : Path,
       In p (present_sources family (world s)) <->
       exists f : string,
         In f (default [] (assoc_get family _FAMILY_HAL_FILES)) /\
         p = HAL_DIR // "Src" // f /\ path_exists (world s) p = true) /\
    (has_hal (self s') = false ->
       hal_src_files (self s') = [] /\
       compile_cmd (self s') ci =
         [ARM_GCC] ++ cpu_flags ci ++
         ["-D" +:+ define ci; "-fsyntax-only"; "-Wall"; path_str main_c]).
Proof.
  rewrite find_hal_run. eexists. split; [reflexivity|].
  cbn [self world]. split; [reflexivity|].
  split; [apply find_hal_self_has_hal|].
  rewrite find_hal_self_has_hal.
  split; [|split].
  - intros H. split; [now apply find_hal_self_sources|].
    now apply compile_cmd_with_hal.
  - apply present_sources_spec.
  - intros H. unfold compile_cmd, find_hal_self. rewrite H. split; reflexivity.
Qed.

(** C9 as stated fails three times.  A line of the diagnostics that holds
    the marker [error:] is left out of the message when it also holds
    [collect2:]; without any marker the message is the first 1000
    characters of the diagnostics, which is not a tail of them; and a
    failing object copy gives no failure message at all: its exit status
    is not looked at and the build is reported as a success. *)
Lemma C9_message_differs :
  (forallb (Py.contains "error:") (Py.split_nl link_errors) = true /\
   Py.split_nl link_errors =
     ["main.c:3:5: error: unknown type name 'foo'";
      "collect2: error: ld returned 1 exit status"] /\
   fst (compile (tools_fail link_errors) tools_out "x" session_gcc_only) =
     Ok (mkResult false "main.c:3:5: error: unknown type name 'foo'" None 0)) /\
  (existsb (fun k => Py.contains k noise)
     ["error:"; "undefined reference"; "multiple definition";
      "cannot find"; "No such file"; "fatal:"] = false /\
   fst (compile (tools_fail noise) tools_out "x" session_gcc_only) =
     Ok (mkResult false (Py.take 1000 noise) None 0) /\
   is_tail (Py.take 1000 noise) noise = false) /\
  (tools_objcopy_fails (world session_f1)
     ["arm-none-eabi-objcopy"; "-O"; "binary"; "workspace/build/firmware.elf";
      "workspace/build/firmware.bin"] = Exited 1 "" "" /\
   existsb (fun p => String.eqb (hd "" (fst p)) "arm-none-eabi-objcopy")
     (procs (world (snd (compile tools_objcopy_fails tools_out "x" session_f1)))) =
     true /\
   fst (compile tools_objcopy_fails tools_out "x" session_f1) =
     Ok (mkResult true "编译成功 (0B)" (Some "workspace/build/firmware.bin") 0)).
Proof.
  repeat match goal with |- _ /\ _ => split end; vm_compute; reflexivity.
Qed.

(** C9, amended. When the compiler run of [compile] exits with a status
    other than 0 and diagnostics [err], the result is a failure without a
    binary whose message is made of the lines of [err] that hold one of the
    markers [error:], [undefined reference], [multiple definition],
    [cannot find], [No such file], [fatal:], without those that hold
    [collect2:] unless that leaves no line, cut to the first 15 lines and
    joined by newlines; when no line holds a marker the message is the
    first 1000 characters of [err]. *)
Theorem C9_failure_message
    (toolchain : World -> list string -> proc_result)
    (tool_data : World -> list string -> string)
    (code : string) (s : State) (rc : Z) (out err : string) :
  let p := prepared code s in
  let markers := ["error:"; "undefined reference"; "multiple definition";
                  "cannot find"; "No such file"; "fatal:"] in
  let marked :=
    List.filter (fun l => existsb (fun k => Py.contains k l) markers)
                (Py.split_nl err) in
  let kept := List.filter (fun l => negb (Py.contains "collect2:" l)) marked in
  let lines := firstn 15 (match kept with [] => marked | _ :: _ => kept end) in
  let msg := match marked with
             | [] => Py.take 1000 err
             | _ :: _ => Py.join Py.NL lines
             end in
  has_gcc (self s) = true ->
  toolchain (world p) (compile_cmd (self p) (prepared_chip p)) = Exited rc out err ->
  rc <> 0 ->
  (exists s' : State,
     compile toolchain tool_data code s = (Ok (mkResult false msg None 0), s')) /\
  (length lines <= 15)%nat /\
  (forall l : string, In l lines ->
     In l (Py.split_nl err) /\ exists k : string, In k markers /\ Py.contains k l = true) /\
  hd "" (compile_cmd (self p) (prepared_chip p)) = "arm-none-eabi-gcc".
Proof.
  intros p markers marked kept lines msg Hgcc Hrun Hrc. subst p.
  split; [|split; [|split]].
  - rewrite compile_run. cbv zeta.
    rewrite (prepared_has_gcc code s), Hgcc. unfold finish_compile, run. rewrite Hrun.
    assert (Hz : (rc =? 0) = false) by now apply Z.eqb_neq.
    rewrite Hz. eexists. f_equal. f_equal. f_equal.
    unfold short_error, msg, lines, kept, marked, markers, error_markers.
    destruct (List.filter _ (Py.split_nl err)) as [|l0 ls]; [reflexivity|].
    destruct (List.filter _ (l0 :: ls)); reflexivity.
  - apply firstn_le_length.
  - intros l Hl.
    assert (Hm : In l marked).
    { unfold lines in Hl. apply In_firstn in Hl.
      destruct kept eqn:Ek; [exact Hl|]. rewrite <- Ek in Hl.
      unfold kept in Hl. now apply filter_In in Hl. }
    unfold marked in Hm. apply filter_In in Hm as [Hin Hk].
    split; [exact Hin|]. apply existsb_exists in Hk. exact Hk.
  - apply compile_cmd_head.
Qed.

(** A failing link on a session with a compiler. *)
Lemma C9_failure_message_witness :
  has_gcc (self session_gcc_only) = true /\
  exists s' : State,
    compile (tools_fail link_errors) tools_out "x" session_gcc_only =
      (Ok (mkResult false "main.c:3:5: error: unknown type name 'foo'" None 0), s').
Proof.
  assert (Hgcc : has_gcc (self session_gcc_only) = true)
    by (vm_compute; reflexivity).
  split; [exact Hgcc|].
  destruct (C9_failure_message (tools_fail link_errors) tools_out "x"
              session_gcc_only 1 "" link_errors Hgcc eq_refl)
    as ((s' & H) & _); [discriminate|].
  exists s'. rewrite H. reflexivity.
Defined.


End SessionClaims.

(** ** Properties of the archive cache *)

Section CacheClaims.

Import Post.

(** C3 as stated fails on a disk that nothing changes between the calls:
    when a source carries a time stamp from the future, its object, stamped
    when it is written, stays older than the source, so every call
    compiles and archives again.  No process before the first call, two
    after it, four after the second; both calls return [true]. *)
Lemma C3_future_stamp_recompiled :
  let s1 := snd (precompile_hal tools_ok tools_out session_future) in
  let s2 := snd (precompile_hal tools_ok tools_out s1) in
  st_mtime <$> fs (world session_future) !! hal_c = Some 1000 /\
  clock (world session_future) = 100 /\
  fst (precompile_hal tools_ok tools_out session_future) = Ok true /\
  fst (precompile_hal tools_ok tools_out s1) = Ok true /\
  st_mtime <$> fs (world s1) !! hal_c = Some 1000 /\
  length (procs (world session_future)) = 0%nat /\
  map (fun p => hd "" (fst p)) (procs (world s1)) =
    ["arm-none-eabi-gcc"; "arm-none-eabi-ar"] /\
  map (fun p => hd "" (fst p)) (procs (world s2)) =
    ["arm-none-eabi-gcc"; "arm-none-eabi-ar";
     "arm-none-eabi-gcc"; "arm-none-eabi-ar"].
Proof.
  cbv zeta.
  repeat match goal with |- _ /\ _ => split end; vm_compute; reflexivity.
Qed.

(** C3, amended. On a disk whose listed sources are in place and carry no
    time stamp from the future, a call of [precompile_hal] that
    returns [true] is followed by a call that returns [true] as well,
    starts no process at all, the compiler included, and changes nothing:
    it ends in the state it started in.  The first call does return
    [true] when the toolchain runs succeed, the session can build and at
    least one source is listed. *)
Theorem C3_precompile_hal_idempotent
    (toolchain : World -> list string -> proc_result)
    (tool_data : World -> list string -> string) (s : State) :
  sources_ok s = true ->
  stamps_ok s = true ->
  (forall s1 : State,
     precompile_hal toolchain tool_data s = (Ok true, s1) ->
     precompile_hal toolchain tool_data s1 = (Ok true, s1) /\
     has_hal_lib (self s1) = true) /\
  (toolchain_succeeds toolchain ->
   can_build (self s) = true ->
   hal_src_files (self s) <> [] ->
   exists s1 : State, precompile_hal toolchain tool_data s = (Ok true, s1)).
Proof.
  intros Hsane Hstamps. split.
  - intros s1 H1.
    destruct (precompile_hal_warms toolchain tool_data s s1 Hsane Hstamps H1)
      as (Hcb & Hflag & Hwarm).
    split; [|assumption].
    rewrite (precompile_hal_warm toolchain tool_data s1 Hcb Hwarm).
    rewrite (set_flag_same _ Hflag). now destruct s1.
  - intros Hok Hcb Hne. now apply precompile_hal_succeeds.
Qed.

(** A cold session with one source: the first call compiles and archives,
    the second does nothing. *)
Lemma C3_precompile_hal_idempotent_witness :
  sources_ok session_cold = true /\
  stamps_ok session_cold = true /\
  precompile_hal tools_ok tools_out session_cold =
    (Ok true, snd (precompile_hal tools_ok tools_out session_cold)) /\
  precompile_hal tools_ok tools_out
    (snd (precompile_hal tools_ok tools_out session_cold)) =
    (Ok true, snd (precompile_hal tools_ok tools_out session_cold)) /\
  map fst (procs (world (snd (precompile_hal tools_ok tools_out session_cold)))) =
    [hal_cc_cmd default_chip_info [HAL_DIR // "Inc"]
       (HAL_DIR // "Src" // "stm32f1xx_hal.c")
       (obj_of "f1" (HAL_DIR // "Src" // "stm32f1xx_hal.c"));
     hal_ar_cmd (lib_path_of "f1")
       [obj_of "f1" (HAL_DIR // "Src" // "stm32f1xx_hal.c")]].
Proof.
  assert (Hsane : sources_ok session_cold = true) by (vm_compute; reflexivity).
  assert (Hstamps : stamps_ok session_cold = true) by (vm_compute; reflexivity).
  assert (H1 : precompile_hal tools_ok tools_out session_cold =
               (Ok true, snd (precompile_hal tools_ok tools_out session_cold)))
    by (vm_compute; reflexivity).
  split; [exact Hsane|]. split; [exact Hstamps|]. split; [exact H1|]. split.
  - exact (proj1 (proj1 (C3_precompile_hal_idempotent tools_ok tools_out
                           session_cold Hsane Hstamps) _ H1)).
  - vm_compute. reflexivity.
Defined.

(** C2 as stated fails: advancing the modification time of a source does
    not make its object stale as long as the new time is not later than
    that of the object.  In the warm F1 session the source is stamped 2 and
    its object 103; after the source is stamped 50, and also 103,
    [precompile_hal] returns [true] and starts no process. *)
Lemma C2_advanced_stamp_not_recompiled :
  cache_warm_b session_f1 = true /\
  st_mtime <$> fs (world session_f1) !! hal_c = Some 2 /\
  st_mtime <$> fs (world session_f1) !! obj_of "f1" hal_c = Some 103 /\
  st_mtime <$> fs (world (touch hal_c 50 session_f1)) !! hal_c = Some 50 /\
  fst (precompile_hal tools_ok tools_out (touch hal_c 50 session_f1)) = Ok true /\
  length (procs (world (snd (precompile_hal tools_ok tools_out
                               (touch hal_c 50 session_f1))))) =
    length (procs (world session_f1)) /\
  fst (precompile_hal tools_ok tools_out (touch hal_c 103 session_f1)) = Ok true /\
  length (procs (world (snd (precompile_hal tools_ok tools_out
                               (touch hal_c 103 session_f1))))) =
    length (procs (world session_f1)).
Proof.
  repeat match goal with |- _ /\ _ => split end; vm_compute; reflexivity.
Qed.

(** C2, amended. The staleness test of [precompile_hal] treats the object
    of a source that exists as fresh if and only if the object exists and
    its modification time is not older than the source's.  Consequently,
    when the cache of a session is warm and exactly one listed source gets
    a modification time later than that of its object, the next call of
    [precompile_hal] starts exactly one compiler, [arm-none-eabi-gcc ... -c
    <source> -o <its object>] with the flags of the current chip, and then,
    the compiler having succeeded, exactly one archiver,
    [arm-none-eabi-ar rcs <archive of the family>] over the objects of all
    listed sources in listing order; it returns [true] when both runs
    succeed. *)
Theorem C2_touched_source_recompiled_alone
    (toolchain : World -> list string -> proc_result)
    (tool_data : World -> list string -> string)
    (s : State) (ci : ChipInfo) (src0 : Path) (t : Z) :
  let family := family_or_f1 (_current_family (self s)) in
  let object := fun src : Path =>
    "workspace/build/hal_obj_" +:+ family +:+ "/" +:+ path_stem src +:+ ".o" in
  let cc :=
    ["arm-none-eabi-gcc"; "-mcpu=" +:+ cpu ci; "-mthumb"] ++
    (if fpu ci then ["-mfloat-abi=hard"; "-mfpu=fpv4-sp-d16"] else []) ++
    ["-D" +:+ define ci; "-DUSE_HAL_DRIVER"] ++
    map (fun d => "-I" +:+ path_str d) (hal_inc_dirs (self s)) ++
    ["-Os"; "-ffunction-sections"; "-fdata-sections";
     "-c"; path_str src0; "-o"; object src0] in
  let ar :=
    ["arm-none-eabi-ar"; "rcs";
     "workspace/build/libstm32hal_" +:+ family +:+ ".a"] ++
    map object (hal_src_files (self s)) in
  _chip_info (self s) = Some ci ->
  can_build (self s) = true ->
  sources_ok s = true ->
  List.NoDup (hal_src_files (self s)) ->
  cache_warm_b s = true ->
  In src0 (hal_src_files (self s)) ->
  (forall fo, fs (world s) !! obj_of family src0 = Some fo -> st_mtime fo < t) ->
  (forall (m : gmap Path File) (src obj : Path),
     is_fresh m src obj = true <->
     exists fo fsrc : File,
       m !! obj = Some fo /\ m !! src = Some fsrc /\
       st_mtime fsrc <= st_mtime fo) /\
  (forall (src obj : Path) (st : State),
     is_Some (fs (world st) !! src) ->
     is_stale src obj st = (Ok (negb (is_fresh (fs (world st)) src obj)), st)) /\
  (forall src : Path, path_str (obj_of family src) = object src) /\
  exists (b : bool) (s2 : State) (new : list (list string * gmap Path File)),
    precompile_hal toolchain tool_data (touch src0 t s) = (Ok b, s2) /\
    procs (world s2) = procs (world s) ++ new /\
    (map fst new = [cc] \/ map fst new = [cc; ar]) /\
    (b = true -> map fst new = [cc; ar] /\ has_hal_lib (self s2) = true) /\
    (toolchain_succeeds toolchain -> b = true).
Proof.
  intros family object cc ar Hci Hcb Hsane Hnd Hwarm Hin Ht.
  split; [apply is_fresh_spec|]. split; [apply is_stale_fresh|].
  split; [intros src; apply obj_path_text|].
  apply cache_warm_b_true in Hwarm.
  pose proof (precompile_hal_touched toolchain tool_data s src0 t
                Hcb Hsane Hnd Hwarm Hin Ht) as H.
  cbv zeta in H. fold family in H.
  rewrite hal_cc_cmd_text, hal_ar_cmd_text in H.
  assert (Hchip : prepared_chip s = ci) by (unfold prepared_chip; now rewrite Hci).
  rewrite Hchip in H. exact H.
Qed.

(** The warm F1 session after a touch of its one source. *)
Lemma C2_touched_source_recompiled_alone_witness :
  can_build (self session_f1) = true /\
  sources_ok session_f1 = true /\
  cache_warm_b session_f1 = true /\
  In hal_c (hal_src_files (self session_f1)) /\
  exists (b : bool) (s2 : State) (new : list (list string * gmap Path File)),
    precompile_hal tools_ok tools_out (touch hal_c 1000 session_f1) = (Ok b, s2) /\
    procs (world s2) = procs (world session_f1) ++ new /\
    b = true /\
    map fst new =
      [["arm-none-eabi-gcc"; "-mcpu=cortex-m3"; "-mthumb"; "-DSTM32F103xB";
        "-DUSE_HAL_DRIVER"; "-Iworkspace/hal/Inc"; "-Os"; "-ffunction-sections";
        "-fdata-sections"; "-c"; "workspace/hal/Src/stm32f1xx_hal.c"; "-o";
        "workspace/build/hal_obj_f1/stm32f1xx_hal.o"];
       ["arm-none-eabi-ar"; "rcs"; "workspace/build/libstm32hal_f1.a";
        "workspace/build/hal_obj_f1/stm32f1xx_hal.o"]].
Proof.
  assert (Hci : _chip_info (self session_f1) = Some default_chip_info)
    by (vm_compute; reflexivity).
  assert (Hcb : can_build (self session_f1) = true) by (vm_compute; reflexivity).
  assert (Hsane : sources_ok session_f1 = true) by (vm_compute; reflexivity).
  assert (Hwarm : cache_warm_b session_f1 = true) by (vm_compute; reflexivity).
  assert (Hsrcs : hal_src_files (self session_f1) = [hal_c])
    by (vm_compute; reflexivity).
  assert (Hincs : hal_inc_dirs (self session_f1) = [HAL_DIR // "Inc"])
    by (vm_compute; reflexivity).
  assert (Hfam : family_or_f1 (_current_family (self session_f1)) = "f1")
    by (vm_compute; reflexivity).
  assert (Hin : In hal_c (hal_src_files (self session_f1)))
    by (rewrite Hsrcs; left; reflexivity).
  assert (Hnd : List.NoDup (hal_src_files (self session_f1))).
  { rewrite Hsrcs. constructor; [intros []|constructor]. }
  assert (Ht : forall fo,
             fs (world session_f1) !!
               obj_of (family_or_f1 (_current_family (self session_f1))) hal_c =
             Some fo -> st_mtime fo < 1000).
  { intros fo H. vm_compute in H. injection H as <-. reflexivity. }
  assert (Hok : toolchain_succeeds tools_ok).
  { intros w cmd. exists "", "". reflexivity. }
  split; [exact Hcb|]. split; [exact Hsane|]. split; [exact Hwarm|].
  split; [exact Hin|].
  destruct (C2_touched_source_recompiled_alone tools_ok tools_out session_f1
              default_chip_info hal_c 1000 Hci Hcb Hsane Hnd Hwarm Hin Ht)
    as (_ & _ & _ & b & s2 & new & Hrun & Hprocs & _ & Hb & Hsucc).
  exists b, s2, new. split; [exact Hrun|]. split; [exact Hprocs|].
  split; [exact (Hsucc Hok)|].
  destruct (Hb (Hsucc Hok)) as [Hnew _]. rewrite Hnew, Hsrcs, Hincs, Hfam.
  reflexivity.
Defined.

End CacheClaims.

(** * Further properties of the code *)

(** ** The chip resolver *)

Section ResolverProperties.

Import More.

(** X1. [_lookup_chip] reads a name up to case, hyphens and spaces: putting
    a hyphen or a space anywhere into a name, or upper-casing it, does not
    change what it resolves to. *)
Theorem X1_lookup_chip_ignores_case_and_separators (a b : string) :
  _lookup_chip (a +:+ "-" +:+ b) = _lookup_chip (a +:+ b) /\
  _lookup_chip (a +:+ " " +:+ b) = _lookup_chip (a +:+ b) /\
  _lookup_chip (Py.upper a) = _lookup_chip a.
Proof.
  split; [|split]; apply lookup_chip_normalized.
  - now rewrite !normalized_app.
  - now rewrite !normalized_app.
  - unfold normalized. now rewrite upper_idem.
Qed.

(** X2. The four matching strategies of [_lookup_chip] are two: the exact
    match and the two suffix-stripping attempts never decide anything the
    scan for a key that is a prefix of the name would not decide the same
    way, because no key of [CHIP_DB] is a prefix of another.  The resolver
    is the prefix scan followed by the family-prefix fallback. *)
Theorem X2_lookup_chip_is_prefix_scan_then_family (chip_name : string) :
  _lookup_chip chip_name =
  match prefix_row (normalized chip_name) with
  | Some info => Some info
  | None => family_row (normalized chip_name)
  end.
Proof. apply lookup_chip_two_steps. Qed.

(** X3. Whatever [_lookup_chip] returns is a row of [CHIP_DB] whose key
    agrees with the normalized name on the first nine characters
    ([STM32], the family letter and three digits): a name never resolves to
    a chip of another line. *)
Theorem X3_lookup_chip_stays_in_line (chip_name : string) (info : ChipInfo) :
  _lookup_chip chip_name = Some info ->
  exists key, In (key, info) CHIP_DB /\
              Py.take 9 key = Py.take 9 (normalized chip_name).
Proof. apply lookup_chip_in_line. Qed.

Lemma X3_lookup_chip_stays_in_line_witness :
  exists key, In (key, mkChip "cortex-m4" 512 128 "STM32F411xE" "f4" true) CHIP_DB /\
              Py.take 9 key = Py.take 9 (normalized "stm32f411-zz").
Proof.
  apply (X3_lookup_chip_stays_in_line "stm32f411-zz"). vm_compute. reflexivity.
Defined.

(** X4. A name resolves exactly when its normalized form agrees with some
    key of [CHIP_DB] on the first nine characters: only then does
    [set_chip] use the parameters of the table instead of its default. *)
Theorem X4_lookup_chip_resolves_iff (chip_name : string) :
  _lookup_chip chip_name <> None <->
  exists key, In key keys /\ Py.take 9 key = Py.take 9 (normalized chip_name).
Proof.
  split.
  - destruct (_lookup_chip chip_name) as [info|] eqn:E; [|congruence].
    intros _. apply lookup_chip_in_line in E as (key & Hin & Hk). exists key.
    split; [apply (in_map fst _ _ Hin) | exact Hk].
  - intros (key & Hin & Hk). rewrite lookup_chip_two_steps.
    set (name := normalized chip_name) in *.
    destruct (prefix_row name); [congruence|].
    unfold family_row.
    rewrite <- re_family_prefix_take, <- Hk, re_family_prefix_take.
    rewrite (keys_family_prefix _ Hin).
    destruct (find (fun kv => Py.startswith (fst kv) (Py.take 9 key)) CHIP_DB)
      as [kv|] eqn:E; [discriminate|].
    exfalso. apply in_map_iff in Hin as ([k i] & <- & Hin).
    apply (find_none _ _ E) in Hin. cbn [fst] in Hin.
    unfold Py.startswith in Hin. now rewrite prefix_take in Hin.
Qed.

End ResolverProperties.

(** ** The generated startup unit *)

Section StartupProperties.

Import Read More.

(** X5. The startup unit defines what its vector table points to: every
    word of the table is the zero word, the stack top [_estack] that the
    linker script provides, [Reset_Handler], which the unit defines, or a
    name the unit declares weak and aliases to [Default_Handler]; and the
    unit aliases no name without giving it a slot, [SystemInit] apart.  So
    an interrupt table never leaves a handler undefined at link time. *)
Theorem X5_vector_words_are_defined (cpu : string) (irq_names : list (option string)) :
  no_nl cpu = true ->
  forallb entry_ok irq_names = true ->
  let asm := _gen_startup cpu irq_names in
  (forall w : string, In w (vector_table asm) ->
     w = "0" \/ w = "_estack" \/ w = "Reset_Handler" \/ In w (weak_aliases asm)) /\
  (forall w : string, In w (weak_aliases asm) ->
     w = "SystemInit" \/ In w (vector_table asm)).
Proof.
  intros Hcpu Hirq asm. subst asm.
  rewrite (gen_startup_vector_table _ _ Hcpu Hirq).
  rewrite (gen_startup_weak_aliases _ _ Hcpu Hirq).
  split; intros w Hw; apply in_app_or in Hw as [Hw|Hw].
  - unfold core_vector_words in Hw. cbn [In] in Hw.
    assert (Hc : forall n, In n core_weak_aliases ->
                 In n (core_weak_aliases ++ named irq_names))
      by (intros n Hn; apply in_or_app; now left).
    repeat (destruct Hw as [<-|Hw]; [solve [auto | do 3 right; apply Hc;
                                               unfold core_weak_aliases; cbn [In]; tauto]|]).
    destruct Hw.
  - apply slot_word_in in Hw as [->|Hw]; [now left|].
    do 3 right. apply in_or_app. now right.
  - unfold core_weak_aliases in Hw. cbn [In] in Hw.
    repeat (destruct Hw as [<-|Hw]; [solve [auto | right; apply in_or_app; left;
                                               unfold core_vector_words; cbn [In]; tauto]|]).
    destruct Hw.
  - right. apply in_or_app. right. now apply named_slot_word.
Qed.

(** The F4 table on a cortex-m4. *)
Lemma X5_vector_words_are_defined_witness :
  In "TIM2_IRQHandler" (weak_aliases (_gen_startup "cortex-m4" _F4_IRQ_NAMES)).
Proof.
  destruct (X5_vector_words_are_defined "cortex-m4" _F4_IRQ_NAMES eq_refl eq_refl)
    as [H _].
  destruct (H "TIM2_IRQHandler") as [E|[E|[E|E]]]; try discriminate E; [|exact E].
  vm_compute. tauto.
Defined.

(** X18. The two files [set_chip] generates fit together.  Whatever the
    core name, the interrupt table and the memory sizes are, the literal
    loads of the startup unit refer to [_estack], [_sdata], [_edata],
    [_etext], [_sbss] and [_ebss], in this order, and the linker script
    assigns a value to each of them. *)
Theorem X18_startup_symbols_assigned_by_linker_script
    (cpu : string) (irq_names : list (option string)) (flash_k ram_k : Z) :
  no_nl cpu = true ->
  forallb entry_ok irq_names = true ->
  loaded_symbols (_gen_startup cpu irq_names) =
    ["_estack"; "_sdata"; "_edata"; "_etext"; "_sbss"; "_ebss"] /\
  forall sym : string,
    In sym (loaded_symbols (_gen_startup cpu irq_names)) ->
    In sym (assigned_symbols (_gen_linker_script flash_k ram_k)).
Proof.
  intros Hcpu Hirq. rewrite (gen_startup_loaded_symbols _ _ Hcpu Hirq).
  split; [reflexivity|]. intros sym. apply gen_linker_script_assigned.
Qed.

(** The F0 table on a cortex-m0 with 32 KB of flash and 4 KB of RAM. *)
Lemma X18_startup_symbols_assigned_by_linker_script_witness :
  forallb entry_ok _F0_IRQ_NAMES = true /\
  In "_etext" (assigned_symbols (_gen_linker_script 32 4)).
Proof.
  split; [reflexivity|].
  destruct (X18_startup_symbols_assigned_by_linker_script "cortex-m0" _F0_IRQ_NAMES
              32 4 eq_refl eq_refl) as [E H].
  apply H. rewrite E. cbn [In]. tauto.
Defined.

End StartupProperties.

(** ** The session and its methods *)

Section SessionProperties.

Import Post More.

(** X6. Whatever is on disk, [_find_hal] leaves a well-formed listing: the
    archive flag is cleared; a session without HAL lists no include
    directory and no source; every listed source is a file of the family's
    allow-list under [HAL_DIR/Src] that exists; no source is listed twice;
    and no two listed sources have the same object file, for whichever
    family the objects are named. *)
Theorem X6_find_hal_listing (family : string) (s : State) :
  let s' := snd (_find_hal family s) in
  has_hal_lib (self s') = false /\
  (has_hal (self s') = false ->
     hal_inc_dirs (self s') = [] /\ hal_src_files (self s') = []) /\
  (forall p : Path, In p (hal_src_files (self s')) ->
     In p (allowed_sources family) /\ is_hal_source p = true /\
     path_exists (world s') p = true) /\
  List.NoDup (hal_src_files (self s')) /\
  (forall fam : string, List.NoDup (map (obj_of fam) (hal_src_files (self s')))).
Proof.
  rewrite find_hal_run. cbn [snd self world]. unfold find_hal_self.
  destruct (path_exists (world s) (hal_header family)) eqn:Eh;
    cbn [has_hal_lib has_hal hal_inc_dirs hal_src_files].
  - split; [reflexivity|]. split; [discriminate|]. split; [|split].
    + intros p Hp. apply present_sources_spec in Hp as (f & Hf & -> & He).
      split; [|split; [reflexivity | exact He]].
      unfold allowed_sources. apply in_map_iff. now exists f.
    + apply present_sources_nodup.
    + intros fam. apply present_sources_objs_nodup.
  - split; [reflexivity|]. split; [now split|]. split; [intros p []|].
    split; [constructor | intros fam; constructor].
Qed.

(** X7. Setting the same chip a second time changes nothing but what is
    printed: the session attributes and the contents of all files are as
    after the first call, no process is started, and only the warning for
    an unknown chip is printed again. *)
Theorem X7_set_chip_twice (chip_name : string) (s : State) :
  let s1 := snd (set_chip chip_name s) in
  let s2 := snd (set_chip chip_name s1) in
  fst (set_chip chip_name s1) = fst (set_chip chip_name s) /\
  self s2 = self s1 /\
  (forall p : Path, data <$> fs (world s2) !! p = data <$> fs (world s1) !! p) /\
  procs (world s2) = procs (world s1) /\
  stdout (world s2) =
    stdout (world s1) ++
    match _lookup_chip chip_name with
    | Some _ => []
    | None => [unknown_chip_warning chip_name]
    end.
Proof.
  cbv zeta. rewrite !set_chip_run. cbn [fst snd self world].
  set (info := resolve chip_name).
  assert (Hfam : _current_family (set_chip_self chip_name (world s) (self s)) =
                 Some (family info) /\
                 _chip_info (set_chip_self chip_name (world s) (self s)) =
                 Some info).
  { unfold set_chip_self. cbv zeta. fold info.
    destruct (family_differs _ _) eqn:Ed.
    - unfold find_hal_self. destruct (path_exists _ _); split; reflexivity.
    - apply family_differs_false in Ed. split; [exact Ed | reflexivity]. }
  destruct Hfam as [Hfam Hci].
  split; [reflexivity|]. split; [|split; [|split]].
  - unfold set_chip_self at 1. cbv zeta. fold info.
    rewrite (proj2 (family_differs_false _ _) Hfam).
    destruct (set_chip_self chip_name (world s) (self s)). cbn in *. now subst.
  - intros p. unfold set_chip_world. cbn [fs clock]. fold info.
    destruct (decide (p = BUILD_DIR // "startup.s")) as [->|H1].
    { unfold chip_files. now rewrite !lookup_insert_eq. }
    destruct (decide (p = BUILD_DIR // "link.ld")) as [->|H2].
    { unfold chip_files. cbn [fs clock].
      rewrite !(lookup_insert_ne _ (BUILD_DIR // "startup.s")) by discriminate.
      now rewrite !lookup_insert_eq. }
    rewrite !chip_files_frame by assumption. cbn [fs]. rewrite !chip_files_frame by assumption. reflexivity.
  - reflexivity.
  - unfold set_chip_world. cbn [stdout].
    destruct (_lookup_chip chip_name); [now rewrite app_nil_r | reflexivity].
Qed.

(** X8. The session invariant.  [Compiler()] establishes it and
    [set_chip], [check], [precompile_hal] and [compile] keep it, however
    the toolchain behaves and however they end: the current family is the
    family of the current chip; a session without HAL lists no include
    directory and no source; the archive flag is set only while the session
    has chip, HAL and compiler and the archive of its family is on disk;
    and the listed sources exist, are listed once and have distinct
    objects. *)
Theorem X8_methods_keep_session_invariant
    (toolchain : World -> list string -> proc_result)
    (tool_data : World -> list string -> string)
    (s : State) (chip_name : string) (name : option string) (code : string) :
  session_ok s = true ->
  session_ok (snd (set_chip chip_name s)) = true /\
  session_ok (snd (check toolchain tool_data name s)) = true /\
  session_ok (snd (precompile_hal toolchain tool_data s)) = true /\
  session_ok (snd (compile toolchain tool_data code s)) = true /\
  forall s0 : State, session_ok (snd (__init__ s0)) = true.
Proof.
  intros H. split; [now apply set_chip_preserves|].
  split; [now apply check_preserves|].
  split; [now apply precompile_hal_preserves|].
  split; [now apply compile_preserves | apply init_ok].
Qed.

(** X9. The fast path of [compile] is sound.  In a session that satisfies
    the invariant, has a compiler and has its archive flag set, [compile]
    leaves the session attributes as they are, and the first process it
    starts is a compiler whose command names the archive of the session's
    family in the build directory and no file of the HAL tree, and which
    runs on a disk where that archive exists. *)
Theorem X9_fast_path_links_existing_archive
    (toolchain : World -> list string -> proc_result)
    (tool_data : World -> list string -> string)
    (code : string) (s : State) :
  session_ok s = true ->
  has_gcc (self s) = true ->
  has_hal_lib (self s) = true ->
  let s' := snd (compile toolchain tool_data code s) in
  self s' = self s /\
  exists (cmd : list string) (fs0 : gmap Path File)
         (rest : list (list string * gmap Path File)),
    procs (world s') = procs (world s) ++ (cmd, fs0) :: rest /\
    In ("-L" +:+ path_str BUILD_DIR) cmd /\
    In ("-lstm32hal_" +:+ family_of (self s)) cmd /\
    (forall src : Path, In src (hal_src_files (self s)) -> ~ In (path_str src) cmd) /\
    is_Some (fs0 !! lib_path_of (family_of (self s))).
Proof.
  intros Hok Hgcc Hlib. cbv zeta.
  apply session_ok_spec in Hok as (_ & _ & Hflag & Hlist).
  rewrite lib_flag_ok_spec in Hflag. destruct (Hflag Hlib) as [Hcb Hex].
  unfold can_build in Hcb. destruct (_chip_info (self s)) as [ci|] eqn:Eci;
    [|discriminate]. apply andb_true_iff in Hcb as [Hhal _].
  assert (Hens : ensure_chip s = s) by (unfold ensure_chip; now rewrite Eci).
  rewrite compile_run. cbv zeta.
  assert (Hp : self (prepared code s) = self s)
    by (unfold prepared; cbn [self]; now rewrite Hens).
  rewrite Hp, Hgcc.
  destruct (finish_compile_effect toolchain tool_data (prepared code s))
    as (r & s' & E & Hs & _).
  destruct (finish_compile_first_proc toolchain tool_data (prepared code s))
    as (rest & Hprocs).
  rewrite E in *. cbn [snd] in *. split; [congruence|].
  rewrite Hp in Hprocs.
  destruct (compile_cmd_fast_path (self s) (prepared_chip (prepared code s)) Hhal Hlib)
    as (Hno & HL & Hl).
  eexists. eexists. exists rest. split; [rewrite Hprocs, prepared_procs; reflexivity|].
  split; [exact HL|]. split; [exact Hl|]. split.
  - intros src Hsrc Hin. rewrite forallb_forall in Hno. specialize (Hno _ Hin).
    unfold listing_ok in Hlist. apply andb_true_iff in Hlist as [Hlist _].
    apply andb_true_iff in Hlist as [Hsrcs _].
    destruct (sources_ok_spec s src Hsrcs Hsrc) as [Hshape _].
    now rewrite (hal_source_arg _ Hshape) in Hno.
  - apply (touches_keeps (fun p => p = main_c \/ generated p) products (fs (world s)));
      [apply prepared_touches | apply products_not_lib |].
    now apply path_exists_is_Some.
Qed.

(** X10. [precompile_hal] raises when a listed source is missing on disk
    while its object exists.  In a session that can build, with the object
    directory of its family in place, the staleness test [stat]s the
    missing file: the call raises [FileNotFoundError] for the first listed
    source that is missing while its object exists.  The exception leaves
    the scan before any process is started, with the session and the disk
    as they were. *)
Theorem X10_precompile_hal_raises_for_missing_source
    (toolchain : World -> list string -> proc_result)
    (tool_data : World -> list string -> string)
    (s : State) (src : Path) :
  let family := family_of (self s) in
  can_build (self s) = true ->
  is_Some (fs (world s) !! obj_dir_of family) ->
  In src (hal_src_files (self s)) ->
  fs (world s) !! src = None ->
  is_Some (fs (world s) !! obj_of family src) ->
  exists (pre : list Path) (src' : Path) (post : list Path),
    hal_src_files (self s) = pre ++ src' :: post /\
    (forall x : Path, In x pre ->
       is_Some (fs (world s) !! x) \/ fs (world s) !! obj_of family x = None) /\
    fs (world s) !! src' = None /\
    is_Some (fs (world s) !! obj_of family src') /\
    precompile_hal toolchain tool_data s = (Raise (FileNotFoundError src'), s).
Proof.
  intros family. subst family. apply precompile_hal_raises.
Qed.

(** X11. What [precompile_hal] does, however it ends.  On disk it deletes
    nothing and changes nothing outside the cache of the session: the
    object directory and the archive of its family and the objects of its
    listed sources.  Of the session attributes it changes only the archive
    flag, and sets it only when it returns [True], in which case the
    session can build and the archive exists. *)
Theorem X11_precompile_hal_effect
    (toolchain : World -> list string -> proc_result)
    (tool_data : World -> list string -> string) (s : State) :
  let r := fst (precompile_hal toolchain tool_data s) in
  let s' := snd (precompile_hal toolchain tool_data s) in
  (forall p : Path, ~ cache_paths (self s) p ->
     fs (world s') !! p = fs (world s) !! p) /\
  (forall p : Path, is_Some (fs (world s) !! p) -> is_Some (fs (world s') !! p)) /\
  (r = Ok true ->
     self s' = set_has_hal_lib true (self s) /\ can_build (self s) = true /\
     path_exists (world s') (lib_path_of (family_of (self s))) = true) /\
  (r <> Ok true -> self s' = self s).
Proof.
  cbv zeta. destruct (precompile_hal_effect toolchain tool_data s)
    as (r & s' & E & Ht & Hr).
  rewrite E. cbn [fst snd].
  split; [|split; [|split]].
  - intros p Hp. apply (touches_frame _ _ _ _ _ Ht Hp). intros [].
  - intros p. apply (touches_keeps _ _ _ _ _ Ht). intros [].
  - intros ->. exact Hr.
  - intros Hne. destruct r as [[|]|e]; [congruence | exact Hr | apply Hr].
Qed.

(** X20. The processes of a successful [precompile_hal].  When the listed
    sources are in place and the call returns [True], it has either started
    nothing, no object being stale and the archive being there, or it has
    started exactly one compiler for each listed source whose object is
    missing or older than the source, in the order of the listing,
    [arm-none-eabi-gcc] with the flags of the current chip, the include
    directories of the session and [-c <source> -o <its object>], and after
    them one archiver, [arm-none-eabi-ar rcs <archive of the family>] over
    the objects of all listed sources. *)
Theorem X20_successful_precompile_processes
    (toolchain : World -> list string -> proc_result)
    (tool_data : World -> list string -> string) (s : State) (ci : ChipInfo) :
  let family := family_of (self s) in
  let object := fun src : Path =>
    "workspace/build/hal_obj_" +:+ family +:+ "/" +:+ path_stem src +:+ ".o" in
  let stale :=
    List.filter (fun src => negb (is_fresh (fs (world s)) src (obj_of family src)))
                (hal_src_files (self s)) in
  let cc := fun src : Path =>
    ["arm-none-eabi-gcc"; "-mcpu=" +:+ cpu ci; "-mthumb"] ++
    (if fpu ci then ["-mfloat-abi=hard"; "-mfpu=fpv4-sp-d16"] else []) ++
    ["-D" +:+ define ci; "-DUSE_HAL_DRIVER"] ++
    map (fun d => "-I" +:+ path_str d) (hal_inc_dirs (self s)) ++
    ["-Os"; "-ffunction-sections"; "-fdata-sections";
     "-c"; path_str src; "-o"; object src] in
  let ar :=
    ["arm-none-eabi-ar"; "rcs";
     "workspace/build/libstm32hal_" +:+ family +:+ ".a"] ++
    map object (hal_src_files (self s)) in
  let s' := snd (precompile_hal toolchain tool_data s) in
  _chip_info (self s) = Some ci ->
  sources_ok s = true ->
  fst (precompile_hal toolchain tool_data s) = Ok true ->
  (forall src : Path,
     In src stale <->
     In src (hal_src_files (self s)) /\
     ~ exists fo fsrc : File,
         fs (world s) !! obj_of family src = Some fo /\
         fs (world s) !! src = Some fsrc /\
         st_mtime fsrc <= st_mtime fo) /\
  (forall src : Path, path_str (obj_of family src) = object src) /\
  path_str (lib_path_of family) =
    "workspace/build/libstm32hal_" +:+ family +:+ ".a" /\
  exists new : list (list string * gmap Path File),
    procs (world s') = procs (world s) ++ new /\
    ((stale = [] /\ path_exists (world s) (lib_path_of family) = true /\ new = []) \/
     map fst new = map cc stale ++ [ar]).
Proof.
  intros family object stale cc ar s' Hci Hs H. subst s'.
  split.
  { intros src. unfold stale. rewrite filter_In, negb_true_iff.
    rewrite <- not_true_iff_false, is_fresh_spec. reflexivity. }
  split; [intros src; apply obj_path_text|]. split; [apply lib_path_text|].
  destruct (precompile_hal toolchain tool_data s) as [r s1] eqn:E.
  cbn [fst snd] in *. subst r.
  destruct (precompile_hal_true_procs toolchain tool_data s s1 Hs E)
    as (new & Hp & Hnew).
  exists new. split; [exact Hp|]. cbv zeta in Hnew. fold family in Hnew.
  assert (Hchip : prepared_chip s = ci) by (unfold prepared_chip; now rewrite Hci).
  rewrite Hchip, stale_units_commands, hal_ar_cmd_text in Hnew.
  destruct Hnew as [(Hst & Hlib & Hn)|Hn]; [left | right; exact Hn].
  split; [|now split]. unfold stale_units in Hst.
  now apply map_eq_nil in Hst.
Qed.

(** X12. What a call of [compile] that returns has done besides running
    the toolchain, however the build ended.  The session attributes are
    those of the session with its chip set: a session that has a chip
    keeps all its attributes.  Afterwards [main.c] holds the code; apart
    from [main.c] and the two products, every file is as it was once the
    chip was set, so the HAL tree, the cached objects and the archives are
    untouched; and nothing but the two products can have vanished. *)
Theorem X12_compile_effect
    (toolchain : World -> list string -> proc_result)
    (tool_data : World -> list string -> string)
    (code : string) (s : State) (r : CompileResult) :
  fst (compile toolchain tool_data code s) = Ok r ->
  let s' := snd (compile toolchain tool_data code s) in
  self s' = self (ensure_chip s) /\
  (_chip_info (self s) <> None -> ensure_chip s = s) /\
  data <$> fs (world s') !! main_c = Some code /\
  (forall p : Path, p <> main_c -> ~ products p ->
     fs (world s') !! p = fs (world (ensure_chip s)) !! p) /\
  (forall p : Path, ~ products p ->
     is_Some (fs (world s) !! p) -> is_Some (fs (world s') !! p)).
Proof.
  intros Hr. cbv zeta.
  destruct (compile_effect toolchain tool_data code s)
    as (r0 & s' & E & Hs & Ht & Htc).
  rewrite E in Hr |- *. cbn [fst snd] in *. clear Hr r.
  split; [exact Hs|].
  split; [|split; [|split]].
  - intros Hci. unfold ensure_chip. now destruct (_chip_info (self s)).
  - rewrite compile_run in E. cbv zeta in E.
    assert (Hm : fs (world (prepared code s)) !! main_c =
                 Some (mkFile (clock (world (ensure_chip s))) code)).
    { unfold prepared. cbn [world fs].
      rewrite !lookup_delete_ne by discriminate. apply lookup_insert_eq. }
    destruct (has_gcc (self (prepared code s))).
    + destruct (finish_compile_effect toolchain tool_data (prepared code s))
        as (r1 & s1 & E1 & _ & Ht1).
      rewrite E1 in E. injection E as _ <-.
      rewrite (touches_frame _ _ _ _ main_c Ht1), Hm; [reflexivity | intros [] |].
      intros [H|H]; discriminate H.
    + injection E as _ <-. now rewrite Hm.
  - intros p Hp Hnp. apply (touches_frame _ _ _ _ _ Htc); assumption.
  - intros p Hnp. now apply (touches_keeps _ _ _ _ _ Ht).
Qed.

(** X13. [compile] does not look at the exit status of the object-copy
    tool.  When the compiler exits with status 0 in a session with HAL and
    the object copy then exits with a status other than 0, the build is
    reported as a success with the path of [firmware.bin] and size 0,
    although no [firmware.bin] exists. *)
Theorem X13_objcopy_status_ignored
    (toolchain : World -> list string -> proc_result)
    (tool_data : World -> list string -> string)
    (code : string) (s : State) (out err out2 err2 : string) (rc2 : Z) :
  let p := prepared code s in
  let cmd := compile_cmd (self p) (prepared_chip p) in
  let w1 := run_world toolchain tool_data cmd [elf] (world p) in
  has_gcc (self p) = true ->
  has_hal (self p) = true ->
  toolchain (world p) cmd = Exited 0 out err ->
  toolchain w1 [ARM_OBJCOPY; "-O"; "binary"; path_str elf; path_str binf] =
    Exited rc2 out2 err2 ->
  rc2 <> 0 ->
  exists s' : State,
    compile toolchain tool_data code s =
      (Ok (mkResult true "编译成功 (0B)" (Some "workspace/build/firmware.bin") 0), s') /\
    fs (world s') !! binf = None.
Proof.
  cbv zeta. intros Hgcc Hhal Hcc Hcopy Hrc.
  rewrite compile_run. cbv zeta. rewrite Hgcc.
  unfold finish_compile. cbv zeta. rewrite Hhal, run_run.
  rewrite Hcc. cbn [Z.eqb self world andb].
  set (p := prepared code s) in *.
  set (cmd := compile_cmd (self p) (prepared_chip p)) in *.
  set (w1 := run_world toolchain tool_data cmd [elf] (world p)) in *.
  assert (Helf : path_exists w1 elf = true).
  { unfold w1, run_world, path_exists. rewrite Hcc. cbn [fs foldr].
    now rewrite lookup_insert_eq. }
  rewrite Helf, run_run. cbn [self world]. rewrite Hcopy.
  assert (Hbin : fs (run_world toolchain tool_data
                       [ARM_OBJCOPY; "-O"; "binary"; path_str elf; path_str binf]
                       [binf] w1) !! binf = None).
  { unfold run_world at 1. rewrite Hcopy. cbn [fs].
    destruct rc2 as [|rc|rc]; [congruence| |];
      unfold w1, run_world; rewrite Hcc; cbn [fs foldr];
      (rewrite lookup_insert_ne by discriminate);
      apply (prepared_no_products code s). }
  rewrite Hbin. eexists. split; [reflexivity | exact Hbin].
Qed.

End SessionProperties.

(** ** The environment check *)

Section CheckProperties.

Import Post More.

(** X14. The report of [check] agrees with the session it leaves and with
    the version probe of this call.  [hal] and [hal_lib] are the session's
    flags.  [gcc] is reported exactly when the probe
    [arm-none-eabi-gcc --version], started in the session as it is once
    the chip is set, exits with status 0; [gcc_version] is then the first
    line of its output, and the empty string otherwise; with [gcc]
    reported the session has its compiler flag set.  [specs] is reported
    only when the session has its specs and compiler flags set; the
    session has a chip, and the reported [chip_info] is that chip, or
    [None] when [check] did not set one. *)
Theorem X14_check_report_agrees_with_session
    (toolchain : World -> list string -> proc_result)
    (tool_data : World -> list string -> string)
    (name : option string) (s : State) (r : CheckInfo) :
  fst (check toolchain tool_data name s) = Ok r ->
  let s' := snd (check toolchain tool_data name s) in
  let probe :=
    toolchain (world (probe_state name s)) ["arm-none-eabi-gcc"; "--version"] in
  chk_hal r = has_hal (self s') /\
  chk_hal_lib r = has_hal_lib (self s') /\
  match probe with
  | Exited rc out _ =>
      chk_gcc r = (rc =? 0) /\
      chk_gcc_version r = if rc =? 0 then hd "" (Py.split_nl out) else ""
  | _ => chk_gcc r = false /\ chk_gcc_version r = ""
  end /\
  (chk_gcc r = true -> has_gcc (self s') = true) /\
  (chk_specs r = true -> has_specs (self s') = true /\ has_gcc (self s') = true) /\
  _chip_info (self s') <> None /\
  (chk_chip_info r = None \/ chk_chip_info r = _chip_info (self s')).
Proof.
  intros H. cbv zeta. pose proof (check_effect toolchain tool_data name s) as W.
  unfold wp in W. destruct (check toolchain tool_data name s) as [r0 s'].
  cbn [fst snd] in *. subst r0.
  destruct W as (H1 & H2 & H3 & Hp & H4 & _ & H6 & H7).
  split; [exact H1|]. split; [exact H2|]. split; [exact Hp|]. split; [exact H3|].
  split; [exact H4|]. split; [exact H6 | exact H7].
Qed.

(** X15. [check] never clears the compiler flag.  In a session that has
    found the compiler before, a call whose version probe does not exit
    with status 0 reports [gcc: False] and yet leaves [has_gcc] set, so
    that [compile] goes on starting the compiler. *)
Theorem X15_check_never_clears_has_gcc
    (toolchain : World -> list string -> proc_result)
    (tool_data : World -> list string -> string)
    (name : option string) (s : State) (r : CheckInfo) :
  has_gcc (self s) = true ->
  (forall w : World, is_exit0 (toolchain w version_probe) = false) ->
  fst (check toolchain tool_data name s) = Ok r ->
  chk_gcc r = false /\
  has_gcc (self (snd (check toolchain tool_data name s))) = true.
Proof.
  intros Hg Hprobe H. pose proof (check_effect toolchain tool_data name s) as W.
  unfold wp in W. destruct (check toolchain tool_data name s) as [r0 s'].
  cbn [fst snd] in *. subst r0.
  destruct W as (_ & _ & _ & Hp & _ & H5 & _). split; [|now apply H5].
  specialize (Hprobe (world (probe_state name s))). unfold is_exit0 in Hprobe.
  destruct (toolchain (world (probe_state name s)) version_probe);
    destruct Hp as [Hp _]; rewrite Hp; [exact Hprobe | reflexivity | reflexivity].
Qed.

(** X17. [check] raises when [precompile_hal] does.  Called without a chip
    name in a session that has its chip, its HAL and its compiler, with
    the object directory of its family in place, [check] runs its two
    probes and then raises [FileNotFoundError] for the first listed source
    that is missing on disk while its object exists, whatever the
    toolchain does; the disk, the listing and the archive flag are as they
    were. *)
Theorem X17_check_raises_for_missing_source
    (toolchain : World -> list string -> proc_result)
    (tool_data : World -> list string -> string)
    (s : State) (src : Path) :
  let family := family_of (self s) in
  let s' := snd (check toolchain tool_data None s) in
  can_build (self s) = true ->
  is_Some (fs (world s) !! obj_dir_of family) ->
  In src (hal_src_files (self s)) ->
  fs (world s) !! src = None ->
  is_Some (fs (world s) !! obj_of family src) ->
  exists (pre : list Path) (src' : Path) (post : list Path),
    hal_src_files (self s) = pre ++ src' :: post /\
    (forall x : Path, In x pre ->
       is_Some (fs (world s) !! x) \/ fs (world s) !! obj_of family x = None) /\
    fs (world s) !! src' = None /\
    is_Some (fs (world s) !! obj_of family src') /\
    fst (check toolchain tool_data None s) = Raise (FileNotFoundError src') /\
    fs (world s') = fs (world s) /\
    hal_src_files (self s') = hal_src_files (self s) /\
    has_hal_lib (self s') = has_hal_lib (self s) /\
    length (procs (world s')) = (length (procs (world s)) + 2)%nat.
Proof.
  intros family s' Hcb Hdir Hin Hs Ho. subst s' family.
  destruct (check_raises toolchain tool_data s src Hcb Hdir Hin Hs Ho)
    as (pre & src' & post & Hl & Hpre & Hs' & Ho' & W).
  exists pre, src', post. split; [exact Hl|]. split; [exact Hpre|].
  split; [exact Hs'|]. split; [exact Ho'|].
  unfold wp in W. destruct (check toolchain tool_data None s) as [[r|e] s1];
    [destruct W|]. cbn [fst snd].
  destruct W as (-> & W). split; [reflexivity | exact W].
Qed.

End CheckProperties.

(** ** The failure message *)

Section MessageProperties.

Import Read Post.

(** X19. When some line of the diagnostics holds an error marker, the
    message of a failed build has at most 15 lines; each of them is a line
    of the diagnostics that holds a marker; and as soon as one marked line
    is free of [collect2:], no line of the message holds [collect2:]. *)
Theorem X19_failure_message_lines (err : string) :
  marked_lines err <> [] ->
  let ls := Py.split_nl (short_error err) in
  ls <> [] /\
  (length ls <= 15)%nat /\
  (forall l : string, In l ls ->
     In l (Py.split_nl err) /\
     existsb (fun k => Py.contains k l) error_markers = true) /\
  ((exists l : string, In l (marked_lines err) /\ Py.contains "collect2:" l = false) ->
   forall l : string, In l ls -> Py.contains "collect2:" l = false).
Proof.
  intros Hm. cbv zeta. rewrite (short_error_lines err Hm). cbv zeta.
  set (kept := List.filter _ (marked_lines err)).
  split; [|split; [|split]].
  - destruct kept as [|k ks] eqn:E; cbn [is_nil].
    + destruct (marked_lines err); [congruence | discriminate].
    + discriminate.
  - apply firstn_le_length.
  - intros l Hl. apply In_firstn in Hl.
    assert (Hin : In l (marked_lines err)).
    { destruct (is_nil kept); [exact Hl|].
      unfold kept in Hl. apply filter_In in Hl. tauto. }
    unfold marked_lines in Hin. now apply filter_In in Hin.
  - intros (l0 & Hl0 & Hc) l Hl. apply In_firstn in Hl.
    assert (Hk : In l0 kept) by (apply filter_In; now rewrite Hc).
    destruct kept as [|k ks] eqn:E; [destruct Hk|]. cbn [is_nil] in Hl.
    rewrite <- E in Hl. unfold kept in Hl. apply filter_In in Hl as [_ Hl].
    now apply negb_true_iff in Hl.
Qed.

(** The diagnostics of a failing link. *)
Lemma X19_failure_message_lines_witness :
  marked_lines link_errors <> [] /\
  Py.split_nl (short_error link_errors) <> [] /\
  (length (Py.split_nl (short_error link_errors)) <= 15)%nat.
Proof.
  assert (H : marked_lines link_errors <> []) by (vm_compute; discriminate).
  split; [exact H|].
  destruct (X19_failure_message_lines link_errors H) as (H1 & H2 & _).
  split; [exact H1 | exact H2].
Defined.

End MessageProperties.

(** ** Sample runs

    The properties of the session methods that have a premise, each applied
    to one of the sample sessions. *)

Import Post More.

(** The session with its F1 archive built, after a failing build. *)
Lemma X8_methods_keep_session_invariant_witness :
  session_ok session_f1 = true /\
  session_ok (snd (compile (tools_fail link_errors) tools_out "x" session_f1)) = true.
Proof.
  assert (H : session_ok session_f1 = true) by (vm_compute; reflexivity).
  split; [exact H|].
  exact (proj1 (proj2 (proj2 (proj2
    (X8_methods_keep_session_invariant (tools_fail link_errors) tools_out
       session_f1 "" None "x" H))))).
Defined.

(** The session with its F1 archive built. *)
Lemma X9_fast_path_links_existing_archive_witness :
  session_ok session_f1 = true /\
  self (snd (compile tools_ok tools_out "x" session_f1)) = self session_f1.
Proof.
  assert (H : session_ok session_f1 = true) by (vm_compute; reflexivity).
  split; [exact H|].
  exact (proj1 (X9_fast_path_links_existing_archive tools_ok tools_out "x"
                  session_f1 H eq_refl eq_refl)).
Defined.

(** The session with its F1 archive built, after its one source has been
    removed from the disk: the scan raises for that source. *)
Lemma X10_precompile_hal_raises_for_missing_source_witness :
  can_build (self session_lost_source) = true /\
  fs (world session_lost_source) !! hal_c = None /\
  fst (precompile_hal tools_ok tools_out session_lost_source) =
    Raise (FileNotFoundError hal_c).
Proof.
  assert (Hcb : can_build (self session_lost_source) = true)
    by (vm_compute; reflexivity).
  assert (Hs : fs (world session_lost_source) !! hal_c = None)
    by (vm_compute; reflexivity).
  assert (Hl : hal_src_files (self session_lost_source) = [hal_c])
    by (vm_compute; reflexivity).
  split; [exact Hcb|]. split; [exact Hs|].
  destruct (X10_precompile_hal_raises_for_missing_source tools_ok tools_out
              session_lost_source hal_c Hcb)
    as (pre & src' & post & Hsplit & _ & _ & _ & E).
  - vm_compute. eauto.
  - rewrite Hl. now left.
  - exact Hs.
  - vm_compute. eauto.
  - rewrite E. cbn [fst]. rewrite Hl in Hsplit.
    destruct pre as [|a [|b pre]]; try discriminate Hsplit.
    now injection Hsplit as <- _.
Defined.

(** The session with its chip set and its compiler found, before the first
    build of the archive: one compiler and one archiver. *)
Lemma X20_successful_precompile_processes_witness :
  sources_ok session_cold = true /\
  fst (precompile_hal tools_ok tools_out session_cold) = Ok true /\
  exists new : list (list string * gmap Path File),
    procs (world (snd (precompile_hal tools_ok tools_out session_cold))) =
      procs (world session_cold) ++ new /\
    map fst new =
      [["arm-none-eabi-gcc"; "-mcpu=cortex-m3"; "-mthumb"; "-DSTM32F103xB";
        "-DUSE_HAL_DRIVER"; "-Iworkspace/hal/Inc"; "-Os"; "-ffunction-sections";
        "-fdata-sections"; "-c"; "workspace/hal/Src/stm32f1xx_hal.c"; "-o";
        "workspace/build/hal_obj_f1/stm32f1xx_hal.o"];
       ["arm-none-eabi-ar"; "rcs"; "workspace/build/libstm32hal_f1.a";
        "workspace/build/hal_obj_f1/stm32f1xx_hal.o"]].
Proof.
  assert (Hci : _chip_info (self session_cold) = Some default_chip_info)
    by (vm_compute; reflexivity).
  assert (Hs : sources_ok session_cold = true) by (vm_compute; reflexivity).
  assert (H : fst (precompile_hal tools_ok tools_out session_cold) = Ok true)
    by (vm_compute; reflexivity).
  assert (Hl : hal_src_files (self session_cold) = [hal_c])
    by (vm_compute; reflexivity).
  assert (Hi : hal_inc_dirs (self session_cold) = [HAL_DIR // "Inc"])
    by (vm_compute; reflexivity).
  assert (Hf : family_of (self session_cold) = "f1") by (vm_compute; reflexivity).
  assert (Hlib : path_exists (world session_cold) (lib_path_of "f1") = false)
    by (vm_compute; reflexivity).
  assert (Hst : is_fresh (fs (world session_cold)) hal_c (obj_of "f1" hal_c) = false)
    by (vm_compute; reflexivity).
  split; [exact Hs|]. split; [exact H|].
  destruct (X20_successful_precompile_processes tools_ok tools_out _ _ Hci Hs H)
    as (_ & _ & _ & new & Hp & Hnew).
  exists new. split; [exact Hp|].
  rewrite Hf in Hnew. destruct Hnew as [(_ & Hx & _)|Hnew]; [congruence|].
  rewrite Hnew, Hl, Hi. cbn [List.filter]. rewrite Hst. reflexivity.
Defined.

(** The session with its F1 archive built, and a build that succeeds. *)
Lemma X12_compile_effect_witness :
  fst (compile tools_ok tools_out "x" session_f1) =
    Ok (mkResult true "编译成功 (0B)" (Some "workspace/build/firmware.bin") 0) /\
  data <$> fs (world (snd (compile tools_ok tools_out "x" session_f1))) !! main_c =
    Some "x".
Proof.
  assert (H : fst (compile tools_ok tools_out "x" session_f1) =
              Ok (mkResult true "编译成功 (0B)"
                    (Some "workspace/build/firmware.bin") 0))
    by (vm_compute; reflexivity).
  split; [exact H|].
  exact (proj1 (proj2 (proj2 (X12_compile_effect tools_ok tools_out "x" _ _ H)))).
Defined.

(** The session with its F1 archive built, a compiler that works and an
    object copy that fails. *)
Lemma X13_objcopy_status_ignored_witness :
  has_hal (self (prepared "x" session_f1)) = true /\
  fst (compile tools_objcopy_fails tools_out "x" session_f1) =
    Ok (mkResult true "编译成功 (0B)" (Some "workspace/build/firmware.bin") 0).
Proof.
  assert (Hhal : has_hal (self (prepared "x" session_f1)) = true)
    by (vm_compute; reflexivity).
  split; [exact Hhal|].
  destruct (X13_objcopy_status_ignored tools_objcopy_fails tools_out "x" session_f1
              "" "" "" "" 1) as (s' & E & _);
    [vm_compute; reflexivity | exact Hhal | reflexivity | reflexivity | discriminate |].
  now rewrite E.
Defined.

(** A first check on an empty disk, with a toolchain that works. *)
Lemma X14_check_report_agrees_with_session_witness :
  fst (check tools_ok tools_out None fresh_state) =
    Ok (mkCheck true "" true false (Some default_chip_info) false) /\
  has_gcc (self (snd (check tools_ok tools_out None fresh_state))) = true.
Proof.
  assert (H : fst (check tools_ok tools_out None fresh_state) =
              Ok (mkCheck true "" true false (Some default_chip_info) false))
    by (vm_compute; reflexivity).
  split; [exact H|].
  destruct (X14_check_report_agrees_with_session tools_ok tools_out None _ _ H)
    as (_ & _ & _ & Hg & _).
  exact (Hg eq_refl).
Defined.

(** The session that found its compiler, and a toolchain that fails. *)
Lemma X15_check_never_clears_has_gcc_witness :
  has_gcc (self session_gcc_only) = true /\
  chk_gcc (mkCheck false "" false false None false) = false /\
  has_gcc (self (snd (check (tools_fail "") tools_out None session_gcc_only))) = true.
Proof.
  assert (Hg : has_gcc (self session_gcc_only) = true) by (vm_compute; reflexivity).
  assert (H : fst (check (tools_fail "") tools_out None session_gcc_only) =
              Ok (mkCheck false "" false false None false))
    by (vm_compute; reflexivity).
  split; [exact Hg|].
  apply (X15_check_never_clears_has_gcc (tools_fail "") tools_out None _ _ Hg);
    [intros w; reflexivity | exact H].
Defined.

(** The session with its F1 archive built, after its one source has been
    removed from the disk, and a toolchain that fails. *)
Lemma X17_check_raises_for_missing_source_witness :
  can_build (self session_lost_source) = true /\
  fs (world session_lost_source) !! hal_c = None /\
  fst (check (tools_fail noise) tools_out None session_lost_source) =
    Raise (FileNotFoundError hal_c).
Proof.
  assert (Hcb : can_build (self session_lost_source) = true)
    by (vm_compute; reflexivity).
  assert (Hs : fs (world session_lost_source) !! hal_c = None)
    by (vm_compute; reflexivity).
  assert (Hl : hal_src_files (self session_lost_source) = [hal_c])
    by (vm_compute; reflexivity).
  split; [exact Hcb|]. split; [exact Hs|].
  destruct (X17_check_raises_for_missing_source (tools_fail noise) tools_out
              session_lost_source hal_c Hcb)
    as (pre & src' & post & Hsplit & _ & _ & _ & E & _).
  - vm_compute. eauto.
  - rewrite Hl. now left.
  - exact Hs.
  - vm_compute. eauto.
  - rewrite E. rewrite Hl in Hsplit.
    destruct pre as [|a [|b pre]]; try discriminate Hsplit.
    now injection Hsplit as <- _.
Defined.
